(** * UrbanFix backend: the authorization and request-shaping layer

  A shallow embedding of the Express handlers of the repository
  (index.js, authMiddleware.js and the two unnamed revisions of the
  server file) together with the properties the specification states
  about them.

  The external collaborators (jsonwebtoken, supabase-js, multer, sharp)
  are not part of the repository.  Each of them is represented by a small
  executable model that fixes only what the handlers observe. *)

From Stdlib Require Import String Ascii List ZArith Bool Lia.
From Stdlib Require Import Permutation Sorted DecimalString.
Import ListNotations.

Open Scope string_scope.
Open Scope Z_scope.

(** ** JavaScript values as the handlers see them *)

Module Js.

(** A parsed JSON value.  [undefined] is [None] of [option json]. *)
#[local] Set Warnings "-register-all".
Inductive json : Type :=
| JNull
| JBool (b : bool)
| JNum (n : Z)
| JStr (s : string)
| JArr (items : list json)
| JObj (fields : list (string * json)).

Definition value := option json.

(** ToBoolean: what [!x] and [x && ...] test. *)
Definition truthy (v : value) : bool :=
  match v with
  | None => false
  | Some JNull => false
  | Some (JBool b) => b
  | Some (JNum n) => negb (n =? 0)
  | Some (JStr s) => negb (s =? "")%string
  | Some (JArr _) => true
  | Some (JObj _) => true
  end.

(** [a || b] : the left operand when it is truthy, the right one
    otherwise. *)
Definition or_else (a : value) (b : json) : json :=
  match a with
  | Some v => if truthy a then v else b
  | None => b
  end.

(** [arr.includes(v)] for an array literal of strings: SameValueZero
    never identifies a string with a value of another type. *)
Definition includes (arr : list string) (v : value) : bool :=
  match v with
  | Some (JStr s) => existsb (String.eqb s) arr
  | _ => false
  end.

(** [s.startsWith(p)] *)
Fixpoint startsWith (s p : string) {struct p} : bool :=
  match p with
  | EmptyString => true
  | String a p' =>
      match s with
      | EmptyString => false
      | String b s' => Ascii.eqb a b && startsWith s' p'
      end
  end.

(** [s.split(sep)] for a one-character separator. *)
Fixpoint split (sep : ascii) (s : string) : list string :=
  match s with
  | EmptyString => [EmptyString]
  | String c r =>
      if Ascii.eqb c sep then EmptyString :: split sep r
      else match split sep r with
           | [] => [String c EmptyString]
           | h :: t => String c h :: t
           end
  end.

(** [s.split("/").pop()] : the last piece. *)
Definition pop (l : list string) : option string :=
  match rev l with
  | [] => None
  | x :: _ => Some x
  end.

(** A JavaScript number is an IEEE 754 double.  [double z] is the integer
    held by the double nearest to the integer [z] : no more than 53
    significant bits, a tie going to the even significand.  Up to 2^53 in
    magnitude every integer is its own double.  The exponent range of the
    format is left out: a magnitude of 2^1024 or more, which reads as
    Infinity, is rounded like the others. *)
Definition double (z : Z) : Z :=
  let a := Z.abs z in
  let e := Z.log2 a - 52 in
  if e <=? 0 then z
  else
    let q := a / 2 ^ e in
    let r := a mod 2 ^ e in
    let half := 2 ^ (e - 1) in
    let q' :=
      if r <? half then q
      else if half <? r then q + 1
      else if Z.even q then q else q + 1 in
    Z.sgn z * (q' * 2 ^ e).

(** [Number.MAX_SAFE_INTEGER] *)
Definition MAX_SAFE_INTEGER : Z := 2 ^ 53 - 1.

(** The message of the TypeError that [const { p } = x] throws when [x]
    is undefined. *)
Definition cannot_destructure (p x : string) : string :=
  "Cannot destructure property '" ++ p ++ "' of '" ++ x
  ++ "' as it is undefined.".

(** No blank anywhere in the string. *)
Fixpoint no_space (s : string) : bool :=
  match s with
  | EmptyString => true
  | String c r => negb (Ascii.eqb c " ") && no_space r
  end.

End Js.

(** ** jsonwebtoken, as far as the gates rely on it *)

Module Jwt.

(** The claims the server puts in a token.  [isAdmin = None] is a payload
    without the field (the tokens of index.js and of the oldest
    revision); where the field is present it holds whatever JSON value
    was signed. *)
Record Payload := mkPayload {
  email : string;
  id : string;
  isAdmin : Js.value
}.

(** A signed token before serialisation.  The HMAC is idealised: the
    signature is the key it was made with, and checks against that key
    only.  Times are NumericDate seconds, the whole seconds of the clock
    the library reads at signing and at verification. *)
Record Jws := mkJws {
  payload : Payload;
  iat : Z;
  exp : Z;
  key : string
}.

(** The compact serialisation.  Only three facts about it are used: it
    round-trips, the empty string is no token, and a serialised token
    holds no blank (it is base64url text and dots). *)
Class Codec := {
  encode : Jws -> string;
  decode : string -> option Jws;
  decode_encode : forall j, decode (encode j) = Some j;
  decode_empty : decode "" = None;
  decode_compact : forall s j, decode s = Some j -> Js.no_space s = true
}.

Inductive VerifyError :=
| JwtMissing          (* jwt must be provided *)
| JwtMalformed        (* jwt malformed / invalid token *)
| InvalidSignature
| TokenExpired.

Section Library.
Context {codec : Codec}.

(** [jwt.sign(payload, secret, { expiresIn: '1h' })] at clock [now]. *)
Definition sign (p : Payload) (secret : string) (now : Z) : string :=
  encode {| payload := p; iat := now; exp := now + 3600; key := secret |}.

(** [jwt.verify(token, secret, callback)] at clock [now]: the callback
    gets either an error or the decoded payload. *)
Definition verify (token : option string) (secret : string) (now : Z)
  : VerifyError + Payload :=
  match token with
  | None => inl JwtMissing
  | Some s =>
      match decode s with
      | None => inl JwtMalformed
      | Some j =>
          if negb (key j =? secret)%string then inl InvalidSignature
          else if exp j <=? now then inl TokenExpired
          else inr (payload j)
      end
  end.
End Library.

End Jwt.

(** ** The record store and the object storage (supabase-js)

    The store is external.  What the handlers observe of it is modelled by
    a table of rows, a bucket of object names and a list of pending call
    outcomes: every call to the service first consumes one entry of
    [faults], and fails without effect when the entry is [true] (an empty
    list means that no further call fails). *)

Module Store.

Record Complaint := mkComplaint {
  id : string;
  user_id : string;
  title : Js.json;
  description : Js.json;
  status : Js.json;
  tags : list Js.json;
  image_url : option string;
  upvotes : option Z;
  assigned_to : Js.value;
  admin_comments : Js.value;
  created_at : Z
}.

(** An object of the bucket complaint-images: its path and the pixel size
    of the image it holds. *)
Record Object := mkObject {
  path : string;
  pixels : Z * Z
}.

Record World := mkWorld {
  complaints : list Complaint;
  bucket : list Object;
  faults : list bool;
  clock : Z;
  serial : nat
}.

Definition with_complaints (l : list Complaint) (w : World) : World :=
  mkWorld l (bucket w) (faults w) (clock w) (serial w).

Definition with_bucket (b : list Object) (w : World) : World :=
  mkWorld (complaints w) b (faults w) (clock w) (serial w).

(** *** Computations over the world *)

Definition DB (A : Type) : Type := World -> A * World.

Definition ret {A : Type} (a : A) : DB A := fun w => (a, w).

Definition bind {A B : Type} (m : DB A) (k : A -> DB B) : DB B :=
  fun w => let (a, w') := m w in k a w'.

Definition get_clock : DB Z := fun w => (clock w, w).

(** The outcome of the next call to the service. *)
Definition call : DB bool :=
  fun w =>
    match faults w with
    | [] => (false, w)
    | f :: fs => (f, mkWorld (complaints w) (bucket w) fs (clock w) (serial w))
    end.

(** A fresh decimal name: the key of an inserted row, or a [uuidv4()]. *)
Definition fresh : DB string :=
  fun w =>
    (NilZero.string_of_uint (Nat.to_uint (serial w)),
     mkWorld (complaints w) (bucket w) (faults w) (clock w) (S (serial w))).

(** The [{ data, error }] pair every supabase call resolves to. *)
Inductive Result (A : Type) : Type :=
| Data (a : A)
| Error (message : string).
Arguments Data {A} a.
Arguments Error {A} message.

Definition unreachable : string := "fetch failed".
Definition not_single : string :=
  "JSON object requested, multiple (or no) rows returned".
Definition duplicate : string := "The resource already exists".

(** *** Filters *)

(** [.eq('id', x)] *)
Definition eq_id (x : string) (c : Complaint) : bool := (id c =? x)%string.

(** [.eq('user_id', x)] *)
Definition eq_user_id (x : string) (c : Complaint) : bool :=
  (user_id c =? x)%string.

(** [.contains('tags', [t])] *)
Definition contains_tag (t : string) (c : Complaint) : bool :=
  existsb (fun v => match v with Js.JStr s => (s =? t)%string | _ => false end)
          (tags c).

(** [.order('created_at', { ascending: false })] *)
Fixpoint insert_desc (c : Complaint) (l : list Complaint) : list Complaint :=
  match l with
  | [] => [c]
  | x :: r =>
      if created_at x <=? created_at c then c :: x :: r
      else x :: insert_desc c r
  end.

Definition order_desc (l : list Complaint) : list Complaint :=
  fold_right insert_desc [] l.

(** *** Calls *)

(** [select(...)] with its filters, rows in table order, or ordered
    newest-first when [ordered]. *)
Definition select (p : Complaint -> bool) (ordered : bool)
  : DB (Result (list Complaint)) :=
  fun w =>
    let (failed, w') := call w in
    if failed then (Error unreachable, w')
    else
      let rows := filter p (complaints w') in
      (Data (if ordered then order_desc rows else rows), w').

(** [select(...).eq(...).single()] : exactly one row, or an error. *)
Definition select_single (p : Complaint -> bool) : DB (Result Complaint) :=
  fun w =>
    let (failed, w') := call w in
    if failed then (Error unreachable, w')
    else
      match filter p (complaints w') with
      | [c] => (Data c, w')
      | _ => (Error not_single, w')
      end.

(** [insert([row]).select('*')] : the store gives the row its key and its
    creation time; the columns the caller leaves out stay null. *)
Definition insert (owner : string) (t d st : Js.json) (tg : list Js.json)
  (img : option string) : DB (Result (list Complaint)) :=
  fun w =>
    let (failed, w1) := call w in
    if failed then (Error unreachable, w1)
    else
      let (k, w2) := fresh w1 in
      let row := mkComplaint k owner t d st tg img None None None (clock w2) in
      (Data [row], with_complaints (complaints w2 ++ [row]) w2).

(** [update(patch).eq(...)] *)
Definition update (patch : Complaint -> Complaint) (p : Complaint -> bool)
  : DB (Result unit) :=
  fun w =>
    let (failed, w') := call w in
    if failed then (Error unreachable, w')
    else
      (Data tt,
       with_complaints
         (map (fun c => if p c then patch c else c) (complaints w')) w').

(** [update(patch).eq(...).select().single()] : the statement is undone
    when it does not touch exactly one row. *)
Definition update_single (patch : Complaint -> Complaint)
  (p : Complaint -> bool) : DB (Result Complaint) :=
  fun w =>
    let (failed, w') := call w in
    if failed then (Error unreachable, w')
    else
      match filter p (complaints w') with
      | [c] =>
          (Data (patch c),
           with_complaints
             (map (fun c => if p c then patch c else c) (complaints w')) w')
      | _ => (Error not_single, w')
      end.

(** [delete().eq(...)] *)
Definition delete (p : Complaint -> bool) : DB (Result unit) :=
  fun w =>
    let (failed, w') := call w in
    if failed then (Error unreachable, w')
    else
      (Data tt,
       with_complaints (filter (fun c => negb (p c)) (complaints w')) w').

(** [storage.from('complaint-images').upload(path, ..., { upsert: false })] *)
Definition storage_upload (name : string) (content : Z * Z)
  : DB (Result unit) :=
  fun w =>
    let (failed, w') := call w in
    if failed then (Error unreachable, w')
    else if existsb (fun o => (path o =? name)%string) (bucket w')
    then (Error duplicate, w')
    else (Data tt, with_bucket (bucket w' ++ [mkObject name content]) w').

(** [storage.from('complaint-images').remove([path])] *)
Definition storage_remove (name : string) : DB (Result unit) :=
  fun w =>
    let (failed, w') := call w in
    if failed then (Error unreachable, w')
    else
      (Data tt,
       with_bucket
         (filter (fun o => negb (path o =? name)%string) (bucket w')) w').

(** [storage.from('complaint-images').getPublicUrl(path)] : no call is
    made, the address is put together on the client. *)
Definition getPublicUrl (name : string) : string :=
  "https://project.supabase.co/storage/v1/object/public/complaint-images/"
    ++ name.

(** [.eq('status', s)] *)
Definition eq_status (s : string) (c : Complaint) : bool :=
  match status c with
  | Js.JStr x => (x =? s)%string
  | _ => false
  end.

(** [select('*', { count: 'exact', head: true })] with its filter: the
    number of rows, and no row. *)
Definition count (p : Complaint -> bool) : DB (Result Z) :=
  fun w =>
    let (failed, w') := call w in
    if failed then (Error unreachable, w')
    else (Data (Z.of_nat (length (filter p (complaints w')))), w').

(** [select('*').order('created_at', { ascending: false }).limit(n)] *)
Definition select_recent (n : nat) : DB (Result (list Complaint)) :=
  fun w =>
    let (failed, w') := call w in
    if failed then (Error unreachable, w')
    else (Data (firstn n (order_desc (complaints w'))), w').

End Store.

Notation "x <- m ;; k" := (Store.bind m (fun x => k))
  (at level 61, m at next level, right associativity).

(** ** Requests, responses and middleware (Express) *)

Module Http.

(** A file part of a multipart form.  The bytes are represented by what
    decoding them gives: the pixel size, or nothing when they are no
    image. *)
Record Upload := mkUpload {
  mimetype : string;
  size : Z;
  buffer : option (Z * Z)
}.

(** The body as a body parser hands it over: [express.json()] in index.js,
    multer for the multipart form of POST /submit in the revision with the
    image pipeline.  A route behind neither finds [req.body] undefined,
    whatever the client sent.  [user_id] stands for an owner the client may
    send along; no handler reads it. *)
Record Body := mkBody {
  title : Js.value;
  description : Js.value;
  tags : Js.value;
  status : Js.value;
  comment : Js.value;
  user_id : Js.value
}.

Record Request := mkRequest {
  authorization : option string;   (* req.headers['authorization'] *)
  param_id : string;               (* req.params.id *)
  query_tag : Js.value;            (* req.query.tag *)
  body : Body;                     (* req.body *)
  image : option Upload;           (* the form's part named image *)
  file : option Upload;            (* req.file *)
  user : option Jwt.Payload        (* req.user *)
}.

Definition with_user (u : Jwt.Payload) (r : Request) : Request :=
  mkRequest (authorization r) (param_id r) (query_tag r) (body r) (image r)
            (file r) (Some u).

(** The same request presenting the credential [h]. *)
Definition with_authorization (h : option string) (r : Request) : Request :=
  mkRequest h (param_id r) (query_tag r) (body r) (image r) (file r) (user r).

(** The same request with [x] sent along as the owner of the complaint. *)
Definition with_client_owner (x : Js.value) (r : Request) : Request :=
  mkRequest (authorization r) (param_id r) (query_tag r)
    (mkBody (title (body r)) (description (body r)) (tags (body r))
       (status (body r)) (comment (body r)) x)
    (image r) (file r) (user r).

Definition with_file (f : option Upload) (r : Request) : Request :=
  mkRequest (authorization r) (param_id r) (query_tag r) (body r) (image r)
            f (user r).

(** What [res.json] is given. *)
Inductive Reply :=
| Message (message : string)
| MessageError (message error : string)
| ErrorOnly (error : string)
| Complaints (complaints : list Store.Complaint)
| Submitted (message : string) (complaint : option Store.Complaint)
| SubmittedRows (message : string) (complaint : list Store.Complaint)
| LoggedIn (message token : string)
| Row (complaint : Store.Complaint)
| Tags (tags : list string).

Record Response := mkResponse {
  code : nat;
  json : Reply
}.

(** How a route ends: a response was sent, or an error reached Express
    (through [next(err)] or a handler that threw outside its [try]). *)
Inductive Outcome :=
| Sent (r : Response)
| Raised (error : string).

Definition Handler : Type := Request -> Store.DB Outcome.
Definition Middleware : Type := Request -> Store.DB (Outcome + Request).

(** A middleware in front of a handler: the handler runs with the request
    the middleware passes on, and only when it calls [next()]. *)
Definition use (m : Middleware) (h : Handler) : Handler :=
  fun req =>
    r <- m req ;;
    match r with
    | inl out => Store.ret out
    | inr req' => h req'
    end.

(** The request as Express hands it to a route: [req.user] and [req.file]
    are undefined until a middleware sets them. *)
Definition incoming (r : Request) : Request :=
  mkRequest (authorization r) (param_id r) (query_tag r) (body r) (image r)
            None None.

(** [app.METHOD(path, m1, ..., mn, h)] *)
Definition app (ms : list Middleware) (h : Handler) : Handler :=
  fun req => fold_right use h ms (incoming req).

Definition send (c : nat) (j : Reply) : Store.DB Outcome :=
  Store.ret (Sent (mkResponse c j)).

(** [!token] for a header value. *)
Definition absent (h : option string) : bool :=
  match h with
  | None => true
  | Some s => (s =? "")%string
  end.

(** What [res.json] is given by the two administrative routes whose
    answers the replies above do not cover. *)
Inductive AdminReply :=
| Commented (message : string) (comments : list Js.json)
| Statistics (total : Z) (byStatus byTag : list (string * Z))
    (recent : list Store.Complaint).

Inductive AdminOutcome :=
| Plain (o : Outcome)
| Answered (code : nat) (r : AdminReply).

Definition AdminHandler : Type := Request -> Store.DB AdminOutcome.

(** A middleware in front of such a route. *)
Definition admin_use (m : Middleware) (h : AdminHandler) : AdminHandler :=
  fun req =>
    r <- m req ;;
    match r with
    | inl out => Store.ret (Plain out)
    | inr req' => h req'
    end.

Definition admin_app (ms : list Middleware) (h : AdminHandler)
  : AdminHandler :=
  fun req => fold_right admin_use h ms (incoming req).

End Http.

(** ** The identity provider (supabase auth) *)

Module Auth.

(** [user.user_metadata] : the handlers read its [admin] entry only.  The
    entry is whatever JSON value the identity provider stores; [None] when
    the metadata has no such entry. *)
Record Metadata := mkMetadata {
  admin : Js.value
}.

(** The user object a sign-up or a sign-in resolves to. *)
Record User := mkUser {
  email : string;
  id : string;
  user_metadata : option Metadata
}.

(** [user.user_metadata?.admin] *)
Definition metadata_admin (u : User) : Js.value :=
  match user_metadata u with
  | None => None
  | Some m => admin m
  end.

End Auth.

(** ** sharp *)

Module Sharp.

Record ResizeOptions := mkResizeOptions {
  fit_inside : bool;
  withoutEnlargement : bool
}.

(** Division rounded to the nearest integer, for a positive divisor. *)
Definition round_div (a b : Z) : Z := (2 * a + b) / (2 * b).

(** Modelled from the spec: the resize step of the sharp library, which
    the repository calls and does not contain.  The image is resized "to
    fit within a fixed bounding box preserving aspect ratio, never
    upscale": the side that limits the fit takes the length of the box,
    the other one follows in proportion, rounded to a whole pixel and at
    least one pixel long; with [withoutEnlargement] an image inside the box
    is kept as it is.  Only the fit the repository asks for is covered. *)
Definition resize (bw bh : Z) (o : ResizeOptions) (dim : Z * Z) : Z * Z :=
  let (w, h) := dim in
  if negb (fit_inside o) then dim
  else if bw * h <=? bh * w then
    if withoutEnlargement o && (w <=? bw) then dim
    else (bw, Z.max 1 (round_div (h * bw) w))
  else
    if withoutEnlargement o && (h <=? bh) then dim
    else (Z.max 1 (round_div (w * bh) h), bh).

(** Decoding fails on bytes that are no image. *)
Definition decode (buffer : option (Z * Z)) : option (Z * Z) :=
  match buffer with
  | Some (w, h) => if (0 <? w) && (0 <? h) then Some (w, h) else None
  | None => None
  end.

End Sharp.

(** ** authMiddleware.js *)

Module AuthMiddleware.
Section Env.
Context {codec : Jwt.Codec}.
Variable JWT_SECRET : string.

Definition isAdmin : Http.Middleware :=
  fun req =>
    let tokenHeader := Http.authorization req in
    if Http.absent tokenHeader
    then Store.ret (inl (Http.Sent (Http.mkResponse 401
           (Http.Message "Access denied. No token provided."))))
    else
      let token :=
        match tokenHeader with
        | Some h =>
            if Js.startsWith h "Bearer " then nth_error (Js.split " " h) 1
            else Some h
        | None => None
        end in
      now <- Store.get_clock ;;
      match Jwt.verify token JWT_SECRET now with
      | inl _ =>
          Store.ret (inl (Http.Sent (Http.mkResponse 403
            (Http.Message "Invalid token."))))
      | inr user =>
          if negb (Js.truthy (Jwt.isAdmin user))
          then Store.ret (inl (Http.Sent (Http.mkResponse 403
                 (Http.Message "Access denied. Admins only."))))
          else Store.ret (inr (Http.with_user user req))
      end.

End Env.
End AuthMiddleware.

(** ** index.js *)

Module IndexJs.

Definition VALID_TAGS : list string :=
  ["electricity"; "canteen"; "furniture"; "campus"].

Section Env.
Context {codec : Jwt.Codec}.
Variable JWT_SECRET : string.

(** The payload holds the e-mail address and the id, and no role. *)
Definition generateToken (user : Auth.User) (now : Z) : string :=
  Jwt.sign (Jwt.mkPayload (Auth.email user) (Auth.id user) None)
           JWT_SECRET now.

Definition authenticateToken : Http.Middleware :=
  fun req =>
    let token := Http.authorization req in
    if Http.absent token
    then Store.ret (inl (Http.Sent (Http.mkResponse 401
           (Http.Message "Access denied. No token provided."))))
    else
      now <- Store.get_clock ;;
      match Jwt.verify token JWT_SECRET now with
      | inl _ =>
          Store.ret (inl (Http.Sent (Http.mkResponse 403
            (Http.Message "Invalid token."))))
      | inr user => Store.ret (inr (Http.with_user user req))
      end.

Definition authenticateAdmin : Http.Middleware :=
  fun req =>
    let token := Http.authorization req in
    if Http.absent token
    then Store.ret (inl (Http.Sent (Http.mkResponse 401
           (Http.Message "Access denied. No token provided."))))
    else
      now <- Store.get_clock ;;
      match Jwt.verify token JWT_SECRET now with
      | inl _ =>
          Store.ret (inl (Http.Sent (Http.mkResponse 403
            (Http.Message "Invalid token."))))
      | inr user =>
          if negb (Js.truthy (Jwt.isAdmin user))
          then Store.ret (inl (Http.Sent (Http.mkResponse 403
                 (Http.Message "Access denied. Admins only."))))
          else Store.ret (inr (Http.with_user user req))
      end.

(** GET /complaints *)
Definition get_complaints_handler : Http.Handler :=
  fun req =>
    match Http.user req with
    | None =>
        (* req.user.id throws inside the try *)
        Http.send 500 (Http.MessageError "Unexpected error occurred"
                         "Cannot read properties of undefined")
    | Some u =>
        let userId := Jwt.id u in
        let tag := Http.query_tag req in
        let query := Store.eq_user_id userId in
        let query :=
          if Js.truthy tag && Js.includes VALID_TAGS tag then
            match tag with
            | Some (Js.JStr t) => fun c => query c && Store.contains_tag t c
            | _ => query
            end
          else query in
        r <- Store.select query true ;;
        match r with
        | Store.Error e =>
            Http.send 500 (Http.MessageError "Error fetching complaints" e)
        | Store.Data complaints => Http.send 200 (Http.Complaints complaints)
        end
    end.

Definition get_complaints : Http.Handler :=
  Http.app [authenticateToken] get_complaints_handler.

(** POST /submit *)
Definition post_submit_handler : Http.Handler :=
  fun req =>
    let title := Http.title (Http.body req) in
    let description := Http.description (Http.body req) in
    let tags := Http.tags (Http.body req) in
    match Http.user req with
    | None => Store.ret (Http.Raised "Cannot read properties of undefined")
    | Some u =>
        let userId := Jwt.id u in
        if negb (Js.truthy title) || negb (Js.truthy description)
        then Http.send 400 (Http.Message "Title and description are required")
        else
          match title, description with
          | Some t, Some d =>
              let insert (tg : list Js.json) :=
                r <- Store.insert userId t d (Js.JStr "pending") tg None ;;
                match r with
                | Store.Error e =>
                    Http.send 500 (Http.MessageError "Error inserting complaint" e)
                | Store.Data complaint =>
                    Http.send 201 (Http.Submitted
                      "Complaint submitted successfully" (hd_error complaint))
                end in
              if Js.truthy tags then
                match tags with
                | Some (Js.JArr l) =>
                    if negb (forallb (fun tag => Js.includes VALID_TAGS (Some tag)) l)
                    then Http.send 400 (Http.Message "Invalid tags provided")
                    else insert l
                | _ => Store.ret (Http.Raised "tags.every is not a function")
                end
              else insert []
          | _, _ =>
              (* not reached: an undefined value is not truthy *)
              Http.send 400 (Http.Message "Title and description are required")
          end
    end.

Definition post_submit : Http.Handler :=
  Http.app [authenticateToken] post_submit_handler.

(** [(complaint.upvotes || 0) + 1] : the count is read as a number, and
    the sum is the double nearest to it. *)
Definition next_upvotes (upvotes : option Z) : Z :=
  Js.double
    ((match upvotes with
      | Some n => if Js.double n =? 0 then 0 else Js.double n
      | None => 0
      end) + 1).

Definition set_upvotes (n : Z) (c : Store.Complaint) : Store.Complaint :=
  Store.mkComplaint (Store.id c) (Store.user_id c) (Store.title c)
    (Store.description c) (Store.status c) (Store.tags c) (Store.image_url c)
    (Some n) (Store.assigned_to c) (Store.admin_comments c) (Store.created_at c).

(** POST /complaints/:id/upvote *)
Definition post_upvote_handler : Http.Handler :=
  fun req =>
    let complaintId := Http.param_id req in
    r <- Store.select_single (Store.eq_id complaintId) ;;
    match r with
    | Store.Error _ => Http.send 404 (Http.Message "Complaint not found")
    | Store.Data complaint =>
        let newUpvotes := next_upvotes (Store.upvotes complaint) in
        r' <- Store.update_single (set_upvotes newUpvotes)
                (Store.eq_id complaintId) ;;
        match r' with
        | Store.Error _ => Http.send 500 (Http.Message "Error processing upvote")
        | Store.Data updatedComplaint => Http.send 200 (Http.Row updatedComplaint)
        end
    end.

Definition post_upvote : Http.Handler :=
  Http.app [authenticateToken] post_upvote_handler.

(** The patch [{ status }] : a key whose value is undefined is left out
    when the patch is serialised, so that no column is written. *)
Definition set_status (status : Js.value) (c : Store.Complaint)
  : Store.Complaint :=
  match status with
  | None => c
  | Some s =>
      Store.mkComplaint (Store.id c) (Store.user_id c) (Store.title c)
        (Store.description c) s (Store.tags c) (Store.image_url c)
        (Store.upvotes c) (Store.assigned_to c) (Store.admin_comments c)
        (Store.created_at c)
  end.

(** PUT /admin/complaints/:id/status *)
Definition put_status_handler : Http.Handler :=
  fun req =>
    let id := Http.param_id req in
    let status := Http.status (Http.body req) in
    r <- Store.update (set_status status) (Store.eq_id id) ;;
    match r with
    | Store.Error e => Http.send 500 (Http.MessageError "Error updating status" e)
    | Store.Data _ => Http.send 200 (Http.Message "Complaint status updated")
    end.

Definition put_status : Http.Handler :=
  Http.app [authenticateAdmin] put_status_handler.

(** GET /tags *)
Definition get_tags : Http.Handler :=
  Http.app [authenticateToken]
    (fun _ => Http.send 200 (Http.Tags VALID_TAGS)).

(** The patch [{ assigned_to }] *)
Definition set_assigned_to (assigned_to : Js.value) (c : Store.Complaint)
  : Store.Complaint :=
  match assigned_to with
  | None => c
  | Some _ =>
      Store.mkComplaint (Store.id c) (Store.user_id c) (Store.title c)
        (Store.description c) (Store.status c) (Store.tags c)
        (Store.image_url c) (Store.upvotes c) assigned_to
        (Store.admin_comments c) (Store.created_at c)
  end.

(** PUT /admin/complaints/:id/assign, where [assigned_to] is
    [req.body.assigned_to]. *)
Definition put_assign_handler (assigned_to : Js.value) : Http.Handler :=
  fun req =>
    let id := Http.param_id req in
    r <- Store.update (set_assigned_to assigned_to) (Store.eq_id id) ;;
    match r with
    | Store.Error e =>
        Http.send 500 (Http.MessageError "Error assigning complaint" e)
    | Store.Data _ =>
        Http.send 200 (Http.Message "Complaint assigned successfully")
    end.

Definition put_assign (assigned_to : Js.value) : Http.Handler :=
  Http.app [authenticateAdmin] (put_assign_handler assigned_to).

End Env.
End IndexJs.

(** ** The oldest revision of the server file (unnamed/part_000) *)

Module Part000.
Section Env.
Context {codec : Jwt.Codec}.
Variable JWT_SECRET : string.

(** The token service and both gates have the text of index.js. *)
Definition generateToken : Auth.User -> Z -> string :=
  IndexJs.generateToken JWT_SECRET.

Definition authenticateToken : Http.Middleware :=
  IndexJs.authenticateToken JWT_SECRET.

Definition authenticateAdmin : Http.Middleware :=
  IndexJs.authenticateAdmin JWT_SECRET.

(** GET /complaints : no tag is read and no order is asked for. *)
Definition get_complaints_handler : Http.Handler :=
  fun req =>
    match Http.user req with
    | None =>
        Http.send 500 (Http.MessageError "Unexpected error occurred"
                         "Cannot read properties of undefined")
    | Some u =>
        let userId := Jwt.id u in
        r <- Store.select (Store.eq_user_id userId) false ;;
        match r with
        | Store.Error e =>
            Http.send 500 (Http.MessageError "Error fetching complaints" e)
        | Store.Data data => Http.send 200 (Http.Complaints data)
        end
    end.

Definition get_complaints : Http.Handler :=
  Http.app [authenticateToken] get_complaints_handler.

End Env.
End Part000.

(** ** The revision with the image pipeline (unnamed/part_001) *)

Module Part001.

Definition VALID_TAGS : list string :=
  ["electricity"; "canteen"; "furniture"; "campus"].

(** [upload = multer({ storage, limits, fileFilter })], [upload.single('image')] :
    a part that is no image, or one above the size limit, ends the request
    with an error handed to Express. *)
Definition upload_single : Http.Middleware :=
  fun req =>
    match Http.image req with
    | None => Store.ret (inr req)
    | Some f =>
        if negb (Js.startsWith (Http.mimetype f) "image/")
        then Store.ret (inl (Http.Raised "Only image files are allowed!"))
        else if 5 * 1024 * 1024 <? Http.size f
        then Store.ret (inl (Http.Raised "File too large"))
        else Store.ret (inr (Http.with_file (Some f) req))
    end.

(** [processImage(buffer)] : resized to fit 1200 by 1200, never enlarged,
    written as JPEG of quality 80; [None] when sharp throws. *)
Definition processImage (buffer : option (Z * Z)) : option (Z * Z) :=
  match Sharp.decode buffer with
  | Some dim => Some (Sharp.resize 1200 1200 (Sharp.mkResizeOptions true true) dim)
  | None => None
  end.

(** [uploadToStorage(imageBuffer, fileName)] : the public address of the
    stored object, or the error it throws. *)
Definition uploadToStorage (imageBuffer : Z * Z) (fileName : string)
  : Store.DB (Store.Result string) :=
  r <- Store.storage_upload ("complaints/" ++ fileName) imageBuffer ;;
  match r with
  | Store.Error e => Store.ret (Store.Error e)
  | Store.Data _ =>
      Store.ret (Store.Data (Store.getPublicUrl ("complaints/" ++ fileName)))
  end.

Definition clear_image_url (c : Store.Complaint) : Store.Complaint :=
  Store.mkComplaint (Store.id c) (Store.user_id c) (Store.title c)
    (Store.description c) (Store.status c) (Store.tags c) None
    (Store.upvotes c) (Store.assigned_to c) (Store.admin_comments c)
    (Store.created_at c).

(** [req.body] on the routes other than POST /submit.  The file mounts
    no body parser: [express.json()] is mounted by index.js only, and
    multer by POST /submit only, so that Express leaves the property
    undefined whatever the client sends. *)
Definition req_body (req : Http.Request) : option Http.Body := None.

(** [a !== b] between a stored owner and [req.user?.id]. *)
Definition differs (owner : string) (userId : option string) : bool :=
  match userId with
  | Some u => negb (owner =? u)%string
  | None => true
  end.

Section Env.
Context {codec : Jwt.Codec}.
Variable JWT_SECRET : string.
(** [JSON.parse] : the value, or nothing where it throws. *)
Variable JSON_parse : string -> option Js.json.

(** [isAdmin: user.user_metadata?.admin || false] *)
Definition generateToken (user : Auth.User) (now : Z) : string :=
  Jwt.sign
    (Jwt.mkPayload (Auth.email user) (Auth.id user)
       (Some (Js.or_else (Auth.metadata_admin user) (Js.JBool false))))
    JWT_SECRET now.

(** Both gates have the text of index.js. *)
Definition authenticateToken : Http.Middleware :=
  IndexJs.authenticateToken JWT_SECRET.

Definition authenticateAdmin : Http.Middleware :=
  IndexJs.authenticateAdmin JWT_SECRET.

(** GET /complaints : the query of index.js; the selection names
    image_url besides the star. *)
Definition get_complaints : Http.Handler :=
  Http.app [authenticateToken] (IndexJs.get_complaints_handler).

(** The inner [try] of POST /submit : [None] when it catches. *)
Definition parse_tags (tags : Js.value) : option (list Js.json) :=
  let parsedTags :=
    match tags with
    | Some (Js.JArr l) => Some (Js.JArr l)
    | Some (Js.JStr s) => JSON_parse s
    | _ => Some (Js.JArr [])
    end in
  match parsedTags with
  | Some (Js.JArr l) =>
      Some (filter (fun tag => Js.includes VALID_TAGS (Some tag)) l)
  | _ => None
  end.

(** POST /submit *)
Definition post_submit_handler : Http.Handler :=
  fun req =>
    let title := Http.title (Http.body req) in
    let description := Http.description (Http.body req) in
    let tags := Http.tags (Http.body req) in
    match Http.user req with
    | None =>
        Http.send 500 (Http.MessageError "Unexpected error occurred"
                         "Cannot read properties of undefined")
    | Some u =>
        let userId := Jwt.id u in
        if negb (Js.truthy title) || negb (Js.truthy description)
        then Http.send 400 (Http.Message "Title and description are required")
        else
          match parse_tags tags with
          | None => Http.send 400 (Http.Message "Invalid tags format")
          | Some parsedTags =>
              let insert (imageUrl : option string) :=
                match title, description with
                | Some t, Some d =>
                    r <- Store.insert userId t d (Js.JStr "pending")
                           parsedTags imageUrl ;;
                    match r with
                    | Store.Error e =>
                        Http.send 500
                          (Http.MessageError "Error inserting complaint" e)
                    | Store.Data complaint =>
                        Http.send 201 (Http.Submitted
                          "Complaint submitted successfully" (hd_error complaint))
                    end
                | _, _ =>
                    (* not reached: an undefined value is not truthy *)
                    Http.send 400
                      (Http.Message "Title and description are required")
                end in
              match Http.file req with
              | None => insert None
              | Some f =>
                  match processImage (Http.buffer f) with
                  | None =>
                      Http.send 500 (Http.MessageError "Error processing image"
                        "Input buffer contains unsupported image format")
                  | Some processedImage =>
                      uuid <- Store.fresh ;;
                      let fileName := uuid ++ ".jpg" in
                      r <- uploadToStorage processedImage fileName ;;
                      match r with
                      | Store.Error e =>
                          Http.send 500
                            (Http.MessageError "Error processing image" e)
                      | Store.Data imageUrl => insert (Some imageUrl)
                      end
                  end
              end
          end
    end.

Definition post_submit : Http.Handler :=
  Http.app [authenticateToken; upload_single] post_submit_handler.

(** DELETE /complaints/:id/image *)
Definition delete_image_handler : Http.Handler :=
  fun req =>
    let complaintId := Http.param_id req in
    match Http.user req with
    | None => Store.ret (Http.Raised "Cannot read properties of undefined")
    | Some u =>
        let userId := Jwt.id u in
        r <- Store.select_single (Store.eq_id complaintId) ;;
        match r with
        | Store.Error _ => Http.send 404 (Http.Message "Complaint not found")
        | Store.Data complaint =>
            if differs (Store.user_id complaint) (Some userId)
            then Http.send 403 (Http.Message "Unauthorized")
            else
              match Store.image_url complaint with
              | Some url =>
                  if (url =? "")%string
                  then Http.send 200 (Http.Message "Image deleted successfully")
                  else
                    match Js.pop (Js.split "/" url) with
                    | None =>
                        (* not reached: split gives at least one piece *)
                        Http.send 500 (Http.Message "Error deleting image")
                    | Some fileName =>
                        d <- Store.storage_remove ("complaints/" ++ fileName) ;;
                        match d with
                        | Store.Error _ =>
                            Http.send 500 (Http.Message "Error deleting image")
                        | Store.Data _ =>
                            p <- Store.update clear_image_url
                                   (Store.eq_id complaintId) ;;
                            match p with
                            | Store.Error _ =>
                                Http.send 500
                                  (Http.Message "Error updating complaint")
                            | Store.Data _ =>
                                Http.send 200
                                  (Http.Message "Image deleted successfully")
                            end
                        end
                    end
              | None =>
                  Http.send 200 (Http.Message "Image deleted successfully")
              end
        end
    end.

Definition delete_image : Http.Handler :=
  Http.app [authenticateToken] delete_image_handler.

(** POST /complaints/:id/upvote : the text of index.js. *)
Definition post_upvote : Http.Handler :=
  Http.app [authenticateToken] IndexJs.post_upvote_handler.

(** PUT /admin/complaints/:id/status.  [const { status } = req.body]
    stands outside any [try]: on an undefined body the handler throws
    before it reaches its guard. *)
Definition put_status_handler : Http.Handler :=
  fun req =>
    let id := Http.param_id req in
    match req_body req with
    | None =>
        Store.ret (Http.Raised (Js.cannot_destructure "status" "req.body"))
    | Some body =>
        let status := Http.status body in
        if negb (Js.includes ["pending"; "working"; "finished"] status)
        then Http.send 400 (Http.Message "Invalid status value")
        else
          r <- Store.update (IndexJs.set_status status) (Store.eq_id id) ;;
          match r with
          | Store.Error e => Http.send 500 (Http.ErrorOnly e)
          | Store.Data _ =>
              Http.send 200 (Http.Message
                ("✅ Complaint marked as " ++
                 match status with Some (Js.JStr s) => s | _ => "" end))
          end
    end.

Definition put_status : Http.Handler :=
  Http.app [AuthMiddleware.isAdmin JWT_SECRET] put_status_handler.

(** DELETE /complaints/:id : registered with no middleware. *)
Definition delete_complaint_handler : Http.Handler :=
  fun req =>
    let complaintId := Http.param_id req in
    let userId := option_map Jwt.id (Http.user req) in
    r <- Store.select_single (Store.eq_id complaintId) ;;
    match r with
    | Store.Error _ => Http.send 404 (Http.ErrorOnly "Complaint not found")
    | Store.Data complaint =>
        if differs (Store.user_id complaint) userId
        then Http.send 403 (Http.ErrorOnly "Unauthorized to delete this complaint")
        else
          d <- Store.delete (Store.eq_id complaintId) ;;
          match d with
          | Store.Error _ =>
              Http.send 500 (Http.ErrorOnly "Failed to delete complaint")
          | Store.Data _ =>
              Http.send 200 (Http.Message "Complaint deleted successfully")
          end
    end.

Definition delete_complaint : Http.Handler :=
  Http.app [] delete_complaint_handler.

(** GET /tags *)
Definition get_tags : Http.Handler :=
  Http.app [authenticateToken]
    (fun _ => Http.send 200 (Http.Tags VALID_TAGS)).

(** DELETE /admin/complaints/:id *)
Definition delete_admin_handler : Http.Handler :=
  fun req =>
    let id := Http.param_id req in
    r <- Store.delete (Store.eq_id id) ;;
    match r with
    | Store.Error e => Http.send 500 (Http.ErrorOnly e)
    | Store.Data _ =>
        Http.send 200 (Http.Message "Complaint deleted successfully")
    end.

Definition delete_admin : Http.Handler :=
  Http.app [AuthMiddleware.isAdmin JWT_SECRET] delete_admin_handler.

(** GET /admin/complaints/:id *)
Definition get_admin_complaint_handler : Http.Handler :=
  fun req =>
    let id := Http.param_id req in
    r <- Store.select_single (Store.eq_id id) ;;
    match r with
    | Store.Error _ =>
        Http.send 500 (Http.Message "Error fetching complaint details")
    | Store.Data data => Http.send 200 (Http.Row data)
    end.

Definition get_admin_complaint : Http.Handler :=
  Http.app [AuthMiddleware.isAdmin JWT_SECRET] get_admin_complaint_handler.

(** [new Date().toISOString()] at a clock reading. *)
Variable toISOString : Z -> string.

Definition set_admin_comments (comments : list Js.json)
  (c : Store.Complaint) : Store.Complaint :=
  Store.mkComplaint (Store.id c) (Store.user_id c) (Store.title c)
    (Store.description c) (Store.status c) (Store.tags c)
    (Store.image_url c) (Store.upvotes c) (Store.assigned_to c)
    (Some (Js.JArr comments)) (Store.created_at c).

Definition comment_failed : Http.AdminOutcome :=
  Http.Plain (Http.Sent (Http.mkResponse 500
    (Http.Message "Error adding comment"))).

(** POST /admin/complaints/:id/comment.  [const { comment } = req.body]
    stands inside the [try]: the TypeError it throws on an undefined body
    is caught and answered 500. *)
Definition post_comment_handler : Http.AdminHandler :=
  fun req =>
    let id := Http.param_id req in
    match req_body req with
    | None => Store.ret comment_failed
    | Some body =>
        let comment := Http.comment body in
        match comment with
        | None =>
            Store.ret (Http.Plain (Http.Sent (Http.mkResponse 400
              (Http.Message "Comment is required"))))
        | Some text =>
            if negb (Js.truthy comment)
            then Store.ret (Http.Plain (Http.Sent (Http.mkResponse 400
                   (Http.Message "Comment is required"))))
            else
              r <- Store.select_single (Store.eq_id id) ;;
              match r with
              | Store.Error _ => Store.ret comment_failed
              | Store.Data complaint =>
                  let existing :=
                    if Js.truthy (Store.admin_comments complaint)
                    then match Store.admin_comments complaint with
                         | Some (Js.JArr l) => Some l
                         | _ => None   (* no push on such a value *)
                         end
                    else Some [] in
                  match existing, Http.user req with
                  | Some l, Some u =>
                      now <- Store.get_clock ;;
                      let comments :=
                        (l ++ [Js.JObj [ ("text", text);
                                         ("timestamp", Js.JStr (toISOString now));
                                         ("admin_id", Js.JStr (Jwt.id u)) ]])%list in
                      p <- Store.update (set_admin_comments comments)
                             (Store.eq_id id) ;;
                      match p with
                      | Store.Error _ => Store.ret comment_failed
                      | Store.Data _ =>
                          Store.ret (Http.Answered 200
                            (Http.Commented "Comment added successfully" comments))
                      end
                  | _, _ => Store.ret comment_failed
                  end
              end
        end
    end.

Definition post_comment : Http.AdminHandler :=
  Http.admin_app [AuthMiddleware.isAdmin JWT_SECRET] post_comment_handler.

(** One count per key, in order, until a count fails. *)
Fixpoint count_each (p : string -> Store.Complaint -> bool)
  (keys : list string) : Store.DB (Store.Result (list (string * Z))) :=
  match keys with
  | [] => Store.ret (Store.Data [])
  | k :: ks =>
      r <- Store.count (p k) ;;
      match r with
      | Store.Error e => Store.ret (Store.Error e)
      | Store.Data n =>
          rs <- count_each p ks ;;
          match rs with
          | Store.Error e => Store.ret (Store.Error e)
          | Store.Data l => Store.ret (Store.Data ((k, n) :: l))
          end
      end
  end.

Definition statistics_failed : Http.AdminOutcome :=
  Http.Plain (Http.Sent (Http.mkResponse 500
    (Http.Message "Error fetching statistics"))).

(** GET /admin/statistics *)
Definition get_statistics_handler : Http.AdminHandler :=
  fun _ =>
    t <- Store.count (fun _ => true) ;;
    match t with
    | Store.Error _ => Store.ret statistics_failed
    | Store.Data totalCount =>
        let statuses := ["pending"; "working"; "finished"] in
        s <- count_each Store.eq_status statuses ;;
        match s with
        | Store.Error _ => Store.ret statistics_failed
        | Store.Data statusCounts =>
            r <- Store.select_recent 5 ;;
            match r with
            | Store.Error _ => Store.ret statistics_failed
            | Store.Data recentComplaints =>
                g <- count_each Store.contains_tag VALID_TAGS ;;
                match g with
                | Store.Error _ => Store.ret statistics_failed
                | Store.Data tagCounts =>
                    Store.ret (Http.Answered 200
                      (Http.Statistics totalCount statusCounts tagCounts
                         recentComplaints))
                end
            end
        end
    end.

Definition get_statistics : Http.AdminHandler :=
  Http.admin_app [AuthMiddleware.isAdmin JWT_SECRET] get_statistics_handler.

End Env.
End Part001.

(** ** Instances to compute with

    The properties below are stated for every serialisation of tokens and
    every [JSON.parse].  The two modules that follow give one of each, so
    that the statements can be run on concrete requests. *)

(** *** A reader of JSON text

    Literals, integers, strings without escapes, arrays and objects, with
    blanks between the tokens.  Text outside this fragment is refused. *)

Module JsonText.

Definition quote : ascii := "034"%char.

Definition is_ws (c : ascii) : bool :=
  Ascii.eqb c " " || Ascii.eqb c "009" || Ascii.eqb c "010" || Ascii.eqb c "013".

Fixpoint skip_ws (s : string) : string :=
  match s with
  | String c r => if is_ws c then skip_ws r else s
  | EmptyString => EmptyString
  end.

(** The characters of a string up to its closing quote. *)
Fixpoint chars (s : string) : option (string * string) :=
  match s with
  | EmptyString => None
  | String c r =>
      if Ascii.eqb c quote then Some (EmptyString, r)
      else if Ascii.eqb c "\" || (N_of_ascii c <? 32)%N then None
      else match chars r with
           | Some (t, k) => Some (String c t, k)
           | None => None
           end
  end.

Definition digit (c : ascii) : option Z :=
  let n := Z.of_N (N_of_ascii c) in
  if (48 <=? n) && (n <=? 57) then Some (n - 48) else None.

Fixpoint digits (s : string) (acc : Z) : Z * string :=
  match s with
  | String c r =>
      match digit c with
      | Some d => digits r (10 * acc + d)
      | None => (acc, s)
      end
  | EmptyString => (acc, EmptyString)
  end.

(** An integer: no leading zero, no fraction, no exponent. *)
Definition natural (s : string) : option (Z * string) :=
  match s with
  | String c r =>
      match digit c with
      | Some d =>
          let (n, k) := if d =? 0 then (0, r) else digits r d in
          match k with
          | String c' _ =>
              if Ascii.eqb c' "." || Ascii.eqb c' "e" || Ascii.eqb c' "E"
              then None
              else match digit c' with Some _ => None | None => Some (n, k) end
          | EmptyString => Some (n, k)
          end
      | None => None
      end
  | EmptyString => None
  end.

Definition literal (word : string) (v : Js.json) (s : string)
  : option (Js.json * string) :=
  if Js.startsWith s word
  then Some (v, String.substring (String.length word)
                  (String.length s - String.length word) s)
  else None.

Fixpoint value (fuel : nat) (s : string) : option (Js.json * string) :=
  match fuel with
  | O => None
  | S f =>
      match skip_ws s with
      | EmptyString => None
      | String c r =>
          if Ascii.eqb c quote then
            match chars r with
            | Some (t, k) => Some (Js.JStr t, k)
            | None => None
            end
          else if Ascii.eqb c "[" then
            match skip_ws r with
            | String c' k =>
                if Ascii.eqb c' "]" then Some (Js.JArr [], k)
                else match elements f r with
                     | Some (l, k') => Some (Js.JArr l, k')
                     | None => None
                     end
            | EmptyString => None
            end
          else if Ascii.eqb c "{" then
            match skip_ws r with
            | String c' k =>
                if Ascii.eqb c' "}" then Some (Js.JObj [], k)
                else match members f r with
                     | Some (l, k') => Some (Js.JObj l, k')
                     | None => None
                     end
            | EmptyString => None
            end
          else if Ascii.eqb c "-" then
            match natural r with
            | Some (n, k) => Some (Js.JNum (- n), k)
            | None => None
            end
          else
            match natural (String c r) with
            | Some (n, k) => Some (Js.JNum n, k)
            | None =>
                match literal "null" Js.JNull (String c r) with
                | Some x => Some x
                | None =>
                    match literal "true" (Js.JBool true) (String c r) with
                    | Some x => Some x
                    | None => literal "false" (Js.JBool false) (String c r)
                    end
                end
            end
      end
  end
with elements (fuel : nat) (s : string) : option (list Js.json * string) :=
  match fuel with
  | O => None
  | S f =>
      match value f s with
      | Some (v, k) =>
          match skip_ws k with
          | String c k' =>
              if Ascii.eqb c "," then
                match elements f k' with
                | Some (l, k'') => Some (v :: l, k'')
                | None => None
                end
              else if Ascii.eqb c "]" then Some ([v], k')
              else None
          | EmptyString => None
          end
      | None => None
      end
  end
with members (fuel : nat) (s : string)
  : option (list (string * Js.json) * string) :=
  match fuel with
  | O => None
  | S f =>
      match skip_ws s with
      | String q r =>
          if Ascii.eqb q quote then
            match chars r with
            | Some (name, k) =>
                match skip_ws k with
                | String c k' =>
                    if Ascii.eqb c ":" then
                      match value f k' with
                      | Some (v, k2) =>
                          match skip_ws k2 with
                          | String c2 k3 =>
                              if Ascii.eqb c2 "," then
                                match members f k3 with
                                | Some (l, k4) => Some ((name, v) :: l, k4)
                                | None => None
                                end
                              else if Ascii.eqb c2 "}" then Some ([(name, v)], k3)
                              else None
                          | EmptyString => None
                          end
                      | None => None
                      end
                    else None
                | EmptyString => None
                end
            | None => None
            end
          else None
      | EmptyString => None
      end
  end.

Definition parse (s : string) : option Js.json :=
  match value (S (String.length s)) s with
  | Some (v, k) =>
      match skip_ws k with
      | EmptyString => Some v
      | String _ _ => None
      end
  | None => None
  end.

(** The text of a string literal, and of an array of such literals. *)
Definition text_of_string (s : string) : string :=
  String quote (s ++ String quote EmptyString).

Definition text_of_strings (l : list string) : string :=
  "[" ++ String.concat "," (map text_of_string l) ++ "]".

End JsonText.

(** *** A concrete serialisation

  Every field is written in the two characters 0 and 1 and closed by a
  dot, so that the contract of [Jwt.Codec] has an inhabitant to compute
  with. *)

Module BitCodec.

Definition bitc (b : bool) : ascii := if b then "1"%char else "0"%char.

Definition cbit (c : ascii) : option bool :=
  if Ascii.eqb c "1" then Some true
  else if Ascii.eqb c "0" then Some false
  else None.

Fixpoint enc_str (s : string) (k : string) : string :=
  match s with
  | EmptyString => String "." k
  | String (Ascii b0 b1 b2 b3 b4 b5 b6 b7) r =>
      String (bitc b0) (String (bitc b1) (String (bitc b2) (String (bitc b3)
      (String (bitc b4) (String (bitc b5) (String (bitc b6) (String (bitc b7)
      (enc_str r k))))))))
  end.

Fixpoint dec_str (s : string) : option (string * string) :=
  match s with
  | EmptyString => None
  | String c0 r0 =>
      if Ascii.eqb c0 "." then Some (EmptyString, r0)
      else
        match r0 with
        | String c1 (String c2 (String c3 (String c4 (String c5
            (String c6 (String c7 r)))))) =>
            match cbit c0, cbit c1, cbit c2, cbit c3,
                  cbit c4, cbit c5, cbit c6, cbit c7, dec_str r with
            | Some b0, Some b1, Some b2, Some b3,
              Some b4, Some b5, Some b6, Some b7, Some (t, k) =>
                Some (String (Ascii b0 b1 b2 b3 b4 b5 b6 b7) t, k)
            | _, _, _, _, _, _, _, _, _ => None
            end
        | _ => None
        end
  end.

Fixpoint enc_pos (p : positive) (k : string) : string :=
  match p with
  | xH => String "." k
  | xO q => String "0" (enc_pos q k)
  | xI q => String "1" (enc_pos q k)
  end.

Fixpoint dec_pos (s : string) : option (positive * string) :=
  match s with
  | EmptyString => None
  | String c r =>
      if Ascii.eqb c "." then Some (xH, r)
      else match cbit c, dec_pos r with
           | Some true, Some (q, k) => Some (xI q, k)
           | Some false, Some (q, k) => Some (xO q, k)
           | _, _ => None
           end
  end.

Definition enc_Z (z : Z) (k : string) : string :=
  match z with
  | Z0 => String "z" k
  | Zpos p => String "p" (enc_pos p k)
  | Zneg p => String "n" (enc_pos p k)
  end.

Definition dec_Z (s : string) : option (Z * string) :=
  match s with
  | EmptyString => None
  | String c r =>
      if Ascii.eqb c "z" then Some (Z0, r)
      else if Ascii.eqb c "p" then
        match dec_pos r with Some (p, k) => Some (Zpos p, k) | None => None end
      else if Ascii.eqb c "n" then
        match dec_pos r with Some (p, k) => Some (Zneg p, k) | None => None end
      else None
  end.

(** A JSON value: one letter for its kind, then its content; the items of
    an array and the fields of an object are each opened by a comma and the
    list is closed by a semicolon. *)
Fixpoint enc_json (v : Js.json) (k : string) : string :=
  match v with
  | Js.JNull => String "N" k
  | Js.JBool true => String "t" k
  | Js.JBool false => String "f" k
  | Js.JNum n => String "i" (enc_Z n k)
  | Js.JStr s => String "s" (enc_str s k)
  | Js.JArr l =>
      String "a"
        ((fix items (l : list Js.json) : string :=
            match l with
            | [] => String ";" k
            | x :: r => String "," (enc_json x (items r))
            end) l)
  | Js.JObj l =>
      String "o"
        ((fix fields (l : list (string * Js.json)) : string :=
            match l with
            | [] => String ";" k
            | (n, x) :: r => String "," (enc_str n (enc_json x (fields r)))
            end) l)
  end.

Fixpoint enc_items (l : list Js.json) (k : string) : string :=
  match l with
  | [] => String ";" k
  | x :: r => String "," (enc_json x (enc_items r k))
  end.

Fixpoint enc_fields (l : list (string * Js.json)) (k : string) : string :=
  match l with
  | [] => String ";" k
  | (n, x) :: r => String "," (enc_str n (enc_json x (enc_fields r k)))
  end.

Fixpoint dec_json (fuel : nat) (s : string) : option (Js.json * string) :=
  match fuel with
  | O => None
  | S f =>
      match s with
      | EmptyString => None
      | String c r =>
          if Ascii.eqb c "N" then Some (Js.JNull, r)
          else if Ascii.eqb c "t" then Some (Js.JBool true, r)
          else if Ascii.eqb c "f" then Some (Js.JBool false, r)
          else if Ascii.eqb c "i" then
            match dec_Z r with
            | Some (n, k) => Some (Js.JNum n, k)
            | None => None
            end
          else if Ascii.eqb c "s" then
            match dec_str r with
            | Some (t, k) => Some (Js.JStr t, k)
            | None => None
            end
          else if Ascii.eqb c "a" then
            match dec_items f r with
            | Some (l, k) => Some (Js.JArr l, k)
            | None => None
            end
          else if Ascii.eqb c "o" then
            match dec_fields f r with
            | Some (l, k) => Some (Js.JObj l, k)
            | None => None
            end
          else None
      end
  end
with dec_items (fuel : nat) (s : string) : option (list Js.json * string) :=
  match fuel with
  | O => None
  | S f =>
      match s with
      | EmptyString => None
      | String c r =>
          if Ascii.eqb c ";" then Some ([], r)
          else if Ascii.eqb c "," then
            match dec_json f r with
            | Some (x, k) =>
                match dec_items f k with
                | Some (l, k') => Some (x :: l, k')
                | None => None
                end
            | None => None
            end
          else None
      end
  end
with dec_fields (fuel : nat) (s : string)
  : option (list (string * Js.json) * string) :=
  match fuel with
  | O => None
  | S f =>
      match s with
      | EmptyString => None
      | String c r =>
          if Ascii.eqb c ";" then Some ([], r)
          else if Ascii.eqb c "," then
            match dec_str r with
            | Some (n, k) =>
                match dec_json f k with
                | Some (x, k') =>
                    match dec_fields f k' with
                    | Some (l, k2) => Some ((n, x) :: l, k2)
                    | None => None
                    end
                | None => None
                end
            | None => None
            end
          else None
      end
  end.

(** The number of nodes of a value: fuel enough to read it back. *)
Fixpoint nodes (v : Js.json) : nat :=
  match v with
  | Js.JArr l =>
      S ((fix items (l : list Js.json) : nat :=
            match l with
            | [] => 1%nat
            | x :: r => S (nodes x + items r)
            end) l)
  | Js.JObj l =>
      S ((fix fields (l : list (string * Js.json)) : nat :=
            match l with
            | [] => 1%nat
            | (_, x) :: r => S (nodes x + fields r)
            end) l)
  | _ => 1%nat
  end.

Fixpoint nodes_items (l : list Js.json) : nat :=
  match l with
  | [] => 1%nat
  | x :: r => S (nodes x + nodes_items r)
  end.

Fixpoint nodes_fields (l : list (string * Js.json)) : nat :=
  match l with
  | [] => 1%nat
  | (_, x) :: r => S (nodes x + nodes_fields r)
  end.

(** An optional value; the text that follows is fuel enough. *)
Definition enc_value (f : Js.value) (k : string) : string :=
  match f with
  | None => String "u" k
  | Some v => String "v" (enc_json v k)
  end.

Definition dec_value (s : string) : option (Js.value * string) :=
  match s with
  | EmptyString => None
  | String c r =>
      if Ascii.eqb c "u" then Some (None, r)
      else if Ascii.eqb c "v" then
        match dec_json (String.length r) r with
        | Some (v, k) => Some (Some v, k)
        | None => None
        end
      else None
  end.

Definition encode (j : Jwt.Jws) : string :=
  enc_str (Jwt.email (Jwt.payload j))
    (enc_str (Jwt.id (Jwt.payload j))
       (enc_value (Jwt.isAdmin (Jwt.payload j))
          (enc_Z (Jwt.iat j) (enc_Z (Jwt.exp j) (enc_str (Jwt.key j) EmptyString))))).

Definition parse (s : string) : option Jwt.Jws :=
  match dec_str s with
  | Some (e, s1) =>
    match dec_str s1 with
    | Some (i, s2) =>
      match dec_value s2 with
      | Some (a, s3) =>
        match dec_Z s3 with
        | Some (t0, s4) =>
          match dec_Z s4 with
          | Some (t1, s5) =>
            match dec_str s5 with
            | Some (k, EmptyString) =>
                Some (Jwt.mkJws (Jwt.mkPayload e i a) t0 t1 k)
            | _ => None
            end
          | None => None
          end
        | None => None
        end
      | None => None
      end
    | None => None
    end
  | None => None
  end.

Definition decode (s : string) : option Jwt.Jws :=
  if Js.no_space s then parse s else None.

Lemma dec_enc_str s k : dec_str (enc_str s k) = Some (s, k).
Proof.
  induction s as [|a r IH]; [reflexivity|].
  destruct a as [b0 b1 b2 b3 b4 b5 b6 b7].
  cbn [enc_str].
  destruct b0, b1, b2, b3, b4, b5, b6, b7; cbn; rewrite IH; reflexivity.
Qed.

Lemma dec_enc_pos p k : dec_pos (enc_pos p k) = Some (p, k).
Proof.
  induction p as [q IH|q IH|]; cbn; try rewrite IH; reflexivity.
Qed.

Lemma dec_enc_Z z k : dec_Z (enc_Z z k) = Some (z, k).
Proof.
  destruct z; cbn; try rewrite dec_enc_pos; reflexivity.
Qed.

Lemma enc_arr l k : enc_json (Js.JArr l) k = String "a" (enc_items l k).
Proof. cbn. f_equal; induction l as [|x r IH]; cbn; congruence. Qed.

Lemma enc_obj l k : enc_json (Js.JObj l) k = String "o" (enc_fields l k).
Proof. cbn. f_equal; induction l as [|[n x] r IH]; cbn; congruence. Qed.

Lemma nodes_arr l : nodes (Js.JArr l) = S (nodes_items l).
Proof. cbn. f_equal; induction l as [|x r IH]; cbn; congruence. Qed.

Lemma nodes_obj l : nodes (Js.JObj l) = S (nodes_fields l).
Proof. cbn. f_equal; induction l as [|[n x] r IH]; cbn; congruence. Qed.

Lemma dec_enc_json (fuel : nat) :
  (forall v k, (nodes v <= fuel)%nat ->
     dec_json fuel (enc_json v k) = Some (v, k))
  /\ (forall l k, (nodes_items l <= fuel)%nat ->
        dec_items fuel (enc_items l k) = Some (l, k))
  /\ (forall l k, (nodes_fields l <= fuel)%nat ->
        dec_fields fuel (enc_fields l k) = Some (l, k)).
Proof.
  induction fuel as [|f (IHv & IHi & IHf)].
  - repeat split.
    + intros [| | | | |] k H; cbn in H; lia.
    + intros [|x r] k H; cbn in H; lia.
    + intros [|[n x] r] k H; cbn in H; lia.
  - repeat split.
    + intros v k H. destruct v as [|[|]|n|s|l|l].
      * reflexivity.
      * reflexivity.
      * reflexivity.
      * cbn. rewrite dec_enc_Z. reflexivity.
      * cbn. rewrite dec_enc_str. reflexivity.
      * rewrite enc_arr. rewrite nodes_arr in H.
        cbn [dec_json Ascii.eqb Bool.eqb andb].
        rewrite IHi by lia. reflexivity.
      * rewrite enc_obj. rewrite nodes_obj in H.
        cbn [dec_json Ascii.eqb Bool.eqb andb].
        rewrite IHf by lia. reflexivity.
    + intros [|x r] k H; [reflexivity|]. cbn [nodes_items] in H.
      cbn [enc_items dec_items Ascii.eqb Bool.eqb andb].
      rewrite IHv by lia. rewrite IHi by lia. reflexivity.
    + intros [|[n x] r] k H; [reflexivity|]. cbn [nodes_fields] in H.
      cbn [enc_fields dec_fields Ascii.eqb Bool.eqb andb].
      rewrite dec_enc_str. rewrite IHv by lia. rewrite IHf by lia.
      reflexivity.
Qed.

Lemma length_enc_str s k :
  (String.length k <= String.length (enc_str s k))%nat.
Proof.
  induction s as [|a r IH]; [cbn; lia|].
  destruct a as [b0 b1 b2 b3 b4 b5 b6 b7]. cbn [enc_str String.length]. lia.
Qed.

Lemma length_enc_Z z k :
  (String.length k <= String.length (enc_Z z k))%nat.
Proof.
  assert (H : forall p, (String.length k <= String.length (enc_pos p k))%nat).
  { induction p as [q IH|q IH|]; cbn [enc_pos String.length]; lia. }
  destruct z as [|p|p]; cbn [enc_Z String.length];
    try specialize (H p); lia.
Qed.

Lemma nodes_length (fuel : nat) :
  (forall v k, (nodes v <= fuel)%nat ->
     (nodes v + String.length k <= String.length (enc_json v k))%nat)
  /\ (forall l k, (nodes_items l <= fuel)%nat ->
        (nodes_items l + String.length k
         <= String.length (enc_items l k))%nat)
  /\ (forall l k, (nodes_fields l <= fuel)%nat ->
        (nodes_fields l + String.length k
         <= String.length (enc_fields l k))%nat).
Proof.
  induction fuel as [|f (IHv & IHi & IHf)].
  - repeat split.
    + intros [| | | | |] k H; cbn in H; lia.
    + intros [|x r] k H; cbn in H; lia.
    + intros [|[n x] r] k H; cbn in H; lia.
  - repeat split.
    + intros v k H. destruct v as [|[|]|n|s|l|l].
      * cbn. lia.
      * cbn. lia.
      * cbn. lia.
      * cbn [enc_json nodes String.length].
        pose proof (length_enc_Z n k). lia.
      * cbn [enc_json nodes String.length].
        pose proof (length_enc_str s k). lia.
      * rewrite enc_arr. rewrite nodes_arr in *. cbn [String.length].
        specialize (IHi l k). lia.
      * rewrite enc_obj. rewrite nodes_obj in *. cbn [String.length].
        specialize (IHf l k). lia.
    + intros [|x r] k H; [cbn; lia|]. cbn [nodes_items] in *.
      cbn [enc_items String.length].
      specialize (IHv x (enc_items r k)). specialize (IHi r k). lia.
    + intros [|[n x] r] k H; [cbn; lia|]. cbn [nodes_fields] in *.
      cbn [enc_fields String.length].
      pose proof (length_enc_str n (enc_json x (enc_fields r k))).
      specialize (IHv x (enc_fields r k)). specialize (IHf r k). lia.
Qed.

Lemma dec_enc_value f k : dec_value (enc_value f k) = Some (f, k).
Proof.
  destruct f as [v|]; [|reflexivity].
  cbn [enc_value dec_value Ascii.eqb Bool.eqb andb].
  rewrite (proj1 (dec_enc_json _)); [reflexivity|].
  pose proof (proj1 (nodes_length (nodes v)) v k (Nat.le_refl _)). lia.
Qed.

Lemma parse_encode j : parse (encode j) = Some j.
Proof.
  destruct j as [[e i a] t0 t1 k]. unfold parse, encode; cbn [Jwt.payload
    Jwt.email Jwt.id Jwt.isAdmin Jwt.iat Jwt.exp Jwt.key].
  rewrite dec_enc_str, dec_enc_str, dec_enc_value, dec_enc_Z, dec_enc_Z,
    dec_enc_str.
  reflexivity.
Qed.

Lemma no_space_enc_str s k : Js.no_space (enc_str s k) = Js.no_space k.
Proof.
  induction s as [|a r IH]; [reflexivity|].
  destruct a as [b0 b1 b2 b3 b4 b5 b6 b7]. cbn [enc_str].
  destruct b0, b1, b2, b3, b4, b5, b6, b7; cbn; exact IH.
Qed.

Lemma no_space_enc_pos p k : Js.no_space (enc_pos p k) = Js.no_space k.
Proof. induction p as [q IH|q IH|]; cbn; auto. Qed.

Lemma no_space_enc_Z z k : Js.no_space (enc_Z z k) = Js.no_space k.
Proof. destruct z; cbn; auto using no_space_enc_pos. Qed.

Lemma no_space_enc_json (fuel : nat) :
  (forall v k, (nodes v <= fuel)%nat ->
     Js.no_space (enc_json v k) = Js.no_space k)
  /\ (forall l k, (nodes_items l <= fuel)%nat ->
        Js.no_space (enc_items l k) = Js.no_space k)
  /\ (forall l k, (nodes_fields l <= fuel)%nat ->
        Js.no_space (enc_fields l k) = Js.no_space k).
Proof.
  induction fuel as [|f (IHv & IHi & IHf)].
  - repeat split.
    + intros [| | | | |] k H; cbn in H; lia.
    + intros [|x r] k H; cbn in H; lia.
    + intros [|[n x] r] k H; cbn in H; lia.
  - repeat split.
    + intros v k H. destruct v as [|[|]|n|s|l|l].
      * reflexivity.
      * reflexivity.
      * reflexivity.
      * cbn. apply no_space_enc_Z.
      * cbn. apply no_space_enc_str.
      * rewrite enc_arr. rewrite nodes_arr in H. cbn.
        apply IHi. lia.
      * rewrite enc_obj. rewrite nodes_obj in H. cbn.
        apply IHf. lia.
    + intros [|x r] k H; [reflexivity|]. cbn [nodes_items] in H.
      cbn [enc_items Js.no_space Ascii.eqb Bool.eqb andb negb].
      rewrite IHv by lia. apply IHi. lia.
    + intros [|[n x] r] k H; [reflexivity|]. cbn [nodes_fields] in H.
      cbn [enc_fields Js.no_space Ascii.eqb Bool.eqb andb negb].
      rewrite no_space_enc_str. rewrite IHv by lia. apply IHf. lia.
Qed.

Lemma no_space_enc_value f k : Js.no_space (enc_value f k) = Js.no_space k.
Proof.
  destruct f as [v|]; [|reflexivity]. cbn.
  apply (proj1 (no_space_enc_json (nodes v))). lia.
Qed.

Lemma no_space_encode j : Js.no_space (encode j) = true.
Proof.
  unfold encode.
  rewrite !no_space_enc_str, no_space_enc_value, !no_space_enc_Z,
    no_space_enc_str.
  reflexivity.
Qed.

Lemma decode_encode j : decode (encode j) = Some j.
Proof. unfold decode. rewrite no_space_encode. apply parse_encode. Qed.

Lemma decode_compact s j : decode s = Some j -> Js.no_space s = true.
Proof. unfold decode. destruct (Js.no_space s); [reflexivity | discriminate]. Qed.

#[global] Instance codec : Jwt.Codec := {|
  Jwt.encode := encode;
  Jwt.decode := decode;
  Jwt.decode_encode := decode_encode;
  Jwt.decode_empty := eq_refl;
  Jwt.decode_compact := decode_compact
|}.

End BitCodec.

(** *** Concrete users, rows and requests *)

Module Fixture.

Definition secret : string := "s3cret".

Definition alice : Auth.User :=
  Auth.mkUser "alice@campus.org" "u-alice" None.

Definition bob : Auth.User :=
  Auth.mkUser "bob@campus.org" "u-bob" (Some (Auth.mkMetadata None)).

Definition root : Auth.User :=
  Auth.mkUser "root@campus.org" "u-root"
    (Some (Auth.mkMetadata (Some (Js.JBool true)))).

(** A user whose metadata holds a word where a flag is expected. *)
Definition carol : Auth.User :=
  Auth.mkUser "carol@campus.org" "u-carol"
    (Some (Auth.mkMetadata (Some (Js.JStr "no")))).

Definition no_body : Http.Body :=
  Http.mkBody None None None None None None.

(** A request with no credential, no parameters and an empty body. *)
Definition bare : Http.Request :=
  Http.mkRequest None "" None no_body None None None.

Definition with_param (i : string) (r : Http.Request) : Http.Request :=
  Http.mkRequest (Http.authorization r) i (Http.query_tag r) (Http.body r)
    (Http.image r) (Http.file r) (Http.user r).

Definition with_body (b : Http.Body) (r : Http.Request) : Http.Request :=
  Http.mkRequest (Http.authorization r) (Http.param_id r) (Http.query_tag r) b
    (Http.image r) (Http.file r) (Http.user r).

Definition with_tag (t : Js.value) (r : Http.Request) : Http.Request :=
  Http.mkRequest (Http.authorization r) (Http.param_id r) t (Http.body r)
    (Http.image r) (Http.file r) (Http.user r).

Definition with_image (f : option Http.Upload) (r : Http.Request)
  : Http.Request :=
  Http.mkRequest (Http.authorization r) (Http.param_id r) (Http.query_tag r)
    (Http.body r) f (Http.file r) (Http.user r).

(** Tokens issued at second 1000 by the newest revision. *)
Definition token_of (u : Auth.User) : string :=
  Part001.generateToken secret u 1000.

Definition row (i owner : string) (t : list string) (img : option string)
  (up : option Z) (at' : Z) : Store.Complaint :=
  Store.mkComplaint i owner (Js.JStr "Broken light") (Js.JStr "Hallway B")
    (Js.JStr "pending") (map Js.JStr t) img up None None at'.

(** Two rows of alice (the older one first) and one of bob, at second
    1600, with every call to the store going through. *)
Definition world : Store.World :=
  Store.mkWorld
    [ row "1" "u-alice" ["electricity"] None (Some 0) 1100;
      row "2" "u-alice" ["canteen"]
          (Some (Store.getPublicUrl "complaints/7.jpg")) None 1200;
      row "3" "u-bob" [] None (Some 4) 1150 ]
    [ Store.mkObject "complaints/7.jpg" (800, 600) ]
    [] 1600 4.

(** The scenario of the specification: a broken light in hallway B, tagged
    electricity and bogus. *)
Definition broken_light (tags : Js.value) (owner : Js.value) : Http.Request :=
  with_body
    (Http.mkBody (Some (Js.JStr "Broken light")) (Some (Js.JStr "Hallway B"))
       tags None None owner)
    (Http.with_authorization (Some (token_of alice))
       bare).

Definition two_tags : list Js.json := [Js.JStr "electricity"; Js.JStr "bogus"].


(** A submission of alice without a title, naming bob as the owner. *)
Definition untitled : Http.Request :=
  with_body
    (Http.mkBody None (Some (Js.JStr "Hallway B")) None None None
       (Some (Js.JStr "u-bob")))
    (Http.with_authorization (Some (token_of alice))
       bare).


(** The listing of alice, with a tag that is not in the vocabulary. *)
Definition listing (tag : Js.value) : Http.Request :=
  with_tag tag
    (Http.with_authorization (Some (token_of alice))
       bare).


(** The administrator [u] asks for the status closed on complaint [i]. *)
Definition closing (i : string) (u : Auth.User) : Http.Request :=
  with_body
    (Http.mkBody None None None (Some (Js.JStr "closed")) None None)
    (with_param i
       (Http.with_authorization (Some (token_of u)) bare)).

End Fixture.

Example json_parse_tags :
  JsonText.parse (JsonText.text_of_strings ["electricity"; "bogus"])
  = Some (Js.JArr [Js.JStr "electricity"; Js.JStr "bogus"])
  /\ JsonText.parse "[1, true" = None
  /\ JsonText.parse "{ }" = Some (Js.JObj [])
  /\ JsonText.parse " -12 " = Some (Js.JNum (-12))
  /\ JsonText.parse "electricity" = None.
Proof. repeat split; vm_compute; reflexivity. Qed.

(** * Properties *)

(** ** Strings *)

Lemma split_no_space (t : string) :
  Js.no_space t = true -> Js.split " " t = [t].
Proof.
  induction t as [|c r IH]; [reflexivity|].
  cbn [Js.no_space Js.split]. intros H.
  apply andb_prop in H as [Hc Hr].
  destruct (Ascii.eqb c " "); [discriminate|].
  rewrite (IH Hr). reflexivity.
Qed.

Lemma bearer_token (t : string) :
  Js.no_space t = true ->
  nth_error (Js.split " " ("Bearer " ++ t)) 1 = Some t.
Proof.
  intros H. cbn. rewrite (split_no_space t H). reflexivity.
Qed.

Lemma bearer_has_space (t : string) : Js.no_space ("Bearer " ++ t) = false.
Proof. reflexivity. Qed.

Lemma no_space_not_bearer (t : string) :
  Js.no_space t = true -> Js.startsWith t "Bearer " = false.
Proof.
  intros H.
  destruct (Js.startsWith t "Bearer ") eqn:E; [|reflexivity].
  exfalso. revert H E.
  do 7 (destruct t as [|? t];
        [ cbn; intros _ E; repeat (apply andb_prop in E as [_ E]);
          discriminate E | ]).
  cbn [Js.startsWith Js.no_space]. intros H E.
  repeat (apply andb_prop in E as [? E]).
  repeat (apply andb_prop in H as [? H]).
  match goal with
  | Hc : Ascii.eqb " " ?c = true, Hn : negb (Ascii.eqb ?c " ") = true |- _ =>
      apply Ascii.eqb_eq in Hc; subst c; cbn in Hn; discriminate Hn
  end.
Qed.

(** ** The token service *)

Section TokenService.
Context {codec : Jwt.Codec}.
Variable secret : string.

Lemma verify_sign (p : Jwt.Payload) (now at' : Z) :
  Jwt.verify (Some (Jwt.sign p secret now)) secret at'
  = if at' <? now + 3600 then inr p else inl Jwt.TokenExpired.
Proof.
  unfold Jwt.verify, Jwt.sign. rewrite Jwt.decode_encode. cbn.
  rewrite String.eqb_refl. cbn.
  destruct (Z.leb_spec (now + 3600) at'), (Z.ltb_spec at' (now + 3600));
    try reflexivity; lia.
Qed.

Lemma verify_ok_compact (t : string) (now : Z) (p : Jwt.Payload) :
  Jwt.verify (Some t) secret now = inr p ->
  Js.no_space t = true /\ t <> "".
Proof.
  unfold Jwt.verify. destruct (Jwt.decode t) as [j|] eqn:E; [|discriminate].
  intros _. split.
  - exact (Jwt.decode_compact t j E).
  - intros ->. rewrite Jwt.decode_empty in E. discriminate.
Qed.

Lemma verify_blank (h : string) (now : Z) :
  Js.no_space h = false ->
  Jwt.verify (Some h) secret now = inl Jwt.JwtMalformed.
Proof.
  intros H. unfold Jwt.verify.
  destruct (Jwt.decode h) as [j|] eqn:E; [|reflexivity].
  rewrite (Jwt.decode_compact h j E) in H. discriminate.
Qed.

Lemma absent_token (t : string) : t <> "" -> Http.absent (Some t) = false.
Proof.
  intros H. cbn. destruct (String.eqb_spec t ""); [contradiction|reflexivity].
Qed.

End TokenService.

(** ** The gates *)

Definition reject (c : nat) (m : string) : Http.Outcome + Http.Request :=
  inl (Http.Sent (Http.mkResponse c (Http.Message m))).

Section Gates.
Context {codec : Jwt.Codec}.
Variable secret : string.

Lemma authenticateToken_run (req : Http.Request) (w : Store.World) :
  IndexJs.authenticateToken secret req w
  = (if Http.absent (Http.authorization req)
     then reject 401 "Access denied. No token provided."
     else match Jwt.verify (Http.authorization req) secret (Store.clock w) with
          | inl _ => reject 403 "Invalid token."
          | inr u => inr (Http.with_user u req)
          end, w).
Proof.
  unfold IndexJs.authenticateToken.
  destruct (Http.absent (Http.authorization req)); [reflexivity|].
  unfold Store.bind, Store.get_clock.
  destruct (Jwt.verify _ _ _); reflexivity.
Qed.

Lemma authenticateAdmin_run (req : Http.Request) (w : Store.World) :
  IndexJs.authenticateAdmin secret req w
  = (if Http.absent (Http.authorization req)
     then reject 401 "Access denied. No token provided."
     else match Jwt.verify (Http.authorization req) secret (Store.clock w) with
          | inl _ => reject 403 "Invalid token."
          | inr u =>
              if Js.truthy (Jwt.isAdmin u)
              then inr (Http.with_user u req)
              else reject 403 "Access denied. Admins only."
          end, w).
Proof.
  unfold IndexJs.authenticateAdmin.
  destruct (Http.absent (Http.authorization req)); [reflexivity|].
  unfold Store.bind, Store.get_clock.
  destruct (Jwt.verify _ _ _) as [e|u]; [reflexivity|].
  destruct (Js.truthy (Jwt.isAdmin u)); reflexivity.
Qed.

(** The credential the [isAdmin] middleware verifies. *)
Definition bearer (h : option string) : option string :=
  match h with
  | Some h =>
      if Js.startsWith h "Bearer " then nth_error (Js.split " " h) 1
      else Some h
  | None => None
  end.

Lemma isAdmin_run (req : Http.Request) (w : Store.World) :
  AuthMiddleware.isAdmin secret req w
  = (if Http.absent (Http.authorization req)
     then reject 401 "Access denied. No token provided."
     else match Jwt.verify (bearer (Http.authorization req)) secret
                  (Store.clock w) with
          | inl _ => reject 403 "Invalid token."
          | inr u =>
              if Js.truthy (Jwt.isAdmin u)
              then inr (Http.with_user u req)
              else reject 403 "Access denied. Admins only."
          end, w).
Proof.
  unfold AuthMiddleware.isAdmin.
  destruct (Http.absent (Http.authorization req)); [reflexivity|].
  unfold Store.bind, Store.get_clock, bearer.
  destruct (Jwt.verify _ _ _) as [e|u]; [reflexivity|].
  destruct (Js.truthy (Jwt.isAdmin u)); reflexivity.
Qed.

(** A route with one middleware, run. *)
Lemma app_one (m : Http.Middleware) (h : Http.Handler) (req : Http.Request)
  (w : Store.World) :
  Http.app [m] h req w
  = match m (Http.incoming req) w with
    | (inl out, w') => (out, w')
    | (inr req', w') => h req' w'
    end.
Proof.
  unfold Http.app, Http.use, Store.bind. cbn.
  destruct (m (Http.incoming req) w) as [[out|req'] w']; reflexivity.
Qed.

Lemma bearer_plain (t : string) :
  Js.no_space t = true -> bearer (Some t) = Some t.
Proof. intros H. unfold bearer. rewrite (no_space_not_bearer t H). reflexivity. Qed.

Lemma bearer_prefixed (t : string) :
  Js.no_space t = true -> bearer (Some ("Bearer " ++ t)) = Some t.
Proof.
  intros H. unfold bearer.
  replace (Js.startsWith ("Bearer " ++ t) "Bearer ") with true by reflexivity.
  exact (bearer_token t H).
Qed.

End Gates.

(** ** Token issuance and verification *)

(** C3 (amended).  A token of the newest revision verifies to the
    identity's e-mail address, id and admin entry (the entry of the
    metadata when it is truthy, false when the metadata has none or a falsy
    one) at every clock reading before the issue time plus 3600 seconds,
    and fails as expired from then on.  A token of index.js or of the
    oldest revision verifies, in the same period, to the e-mail address and
    the id only: its payload has no isAdmin field. *)
Theorem token_round_trip {codec : Jwt.Codec} (secret : string)
  (user : Auth.User) (issued now : Z) :
  Jwt.verify (Some (Part001.generateToken secret user issued)) secret now
  = (if now <? issued + 3600
     then inr (Jwt.mkPayload (Auth.email user) (Auth.id user)
                 (Some (match Auth.metadata_admin user with
                        | Some v => if Js.truthy (Some v) then v
                                    else Js.JBool false
                        | None => Js.JBool false
                        end)))
     else inl Jwt.TokenExpired)
  /\ Jwt.verify (Some (IndexJs.generateToken secret user issued)) secret now
     = (if now <? issued + 3600
        then inr (Jwt.mkPayload (Auth.email user) (Auth.id user) None)
        else inl Jwt.TokenExpired)
  /\ Jwt.verify (Some (Part000.generateToken secret user issued)) secret now
     = (if now <? issued + 3600
        then inr (Jwt.mkPayload (Auth.email user) (Auth.id user) None)
        else inl Jwt.TokenExpired).
Proof.
  unfold Part001.generateToken, Part000.generateToken, IndexJs.generateToken.
  rewrite !verify_sign. unfold Js.or_else.
  destruct (Auth.metadata_admin user) as [v|]; repeat split; reflexivity.
Qed.

(** C3, as stated, fails on index.js: the identity is an administrator and
    the verified payload of its token has no isAdmin field. *)
Lemma token_of_index_js_has_no_role :
  Auth.metadata_admin Fixture.root = Some (Js.JBool true)
  /\ exists p,
       Jwt.verify (Some (IndexJs.generateToken Fixture.secret Fixture.root 1000))
                  Fixture.secret 1001 = inr p
       /\ Jwt.email p = Auth.email Fixture.root
       /\ Jwt.id p = Auth.id Fixture.root
       /\ Jwt.isAdmin p = None.
Proof.
  split; [reflexivity|].
  eexists. split; [vm_compute; reflexivity|]. repeat split.
Qed.

(** ** The admin gates *)

Lemma non_admin_verdict {codec : Jwt.Codec} (secret t : string) (j : Jwt.Jws)
  (now : Z) (req : Http.Request) :
  Jwt.decode t = Some j ->
  Jwt.isAdmin (Jwt.payload j) = None
  \/ Jwt.isAdmin (Jwt.payload j) = Some (Js.JBool false) ->
  exists m,
    match Jwt.verify (Some t) secret now with
    | inl _ => reject 403 "Invalid token."
    | inr u =>
        if Js.truthy (Jwt.isAdmin u)
        then inr (Http.with_user u req)
        else reject 403 "Access denied. Admins only."
    end = reject 403 m.
Proof.
  intros Hd Ha. unfold Jwt.verify. rewrite Hd.
  destruct (negb (Jwt.key j =? secret)%string); [eexists; reflexivity|].
  destruct (Jwt.exp j <=? now); [eexists; reflexivity|].
  destruct Ha as [-> | ->]; eexists; reflexivity.
Qed.

(** The admin gates of the repository. *)
Definition admin_gates {codec : Jwt.Codec} (secret : string)
  : list Http.Middleware :=
  [ IndexJs.authenticateAdmin secret;
    Part000.authenticateAdmin secret;
    Part001.authenticateAdmin secret;
    AuthMiddleware.isAdmin secret ].

(** C4.  A request that presents a token whose payload has no isAdmin field,
    or has it false, is answered 403 by every admin gate, whatever else the
    payload holds; the gate does not call next, so that a route behind it
    answers the same 403 for every handler and leaves the world as it
    was.  The [isAdmin] middleware does so for the prefixed credential
    too. *)
Theorem admin_gates_reject_non_admin {codec : Jwt.Codec} (secret t : string)
  (j : Jwt.Jws) (req : Http.Request) (w : Store.World) :
  Jwt.decode t = Some j ->
  Jwt.isAdmin (Jwt.payload j) = None
  \/ Jwt.isAdmin (Jwt.payload j) = Some (Js.JBool false) ->
  let plain := Http.with_authorization (Some t) req in
  let prefixed := Http.with_authorization (Some ("Bearer " ++ t)) req in
  (forall gate, In gate (admin_gates secret) ->
     exists m,
       gate plain w = (reject 403 m, w)
       /\ forall h : Http.Handler,
            Http.app [gate] h plain w
            = (Http.Sent (Http.mkResponse 403 (Http.Message m)), w))
  /\ exists m,
       AuthMiddleware.isAdmin secret prefixed w = (reject 403 m, w)
       /\ forall h : Http.Handler,
            Http.app [AuthMiddleware.isAdmin secret] h prefixed w
            = (Http.Sent (Http.mkResponse 403 (Http.Message m)), w).
Proof.
  intros Hd Ha plain prefixed.
  assert (Hc : Js.no_space t = true) by exact (Jwt.decode_compact t j Hd).
  assert (Hne : t <> "").
  { intros ->. rewrite Jwt.decode_empty in Hd. discriminate. }
  assert (Hadmin : forall r, Http.authorization r = Some t ->
            exists m, IndexJs.authenticateAdmin secret r w = (reject 403 m, w)).
  { intros r Hr. rewrite authenticateAdmin_run, Hr, (absent_token t Hne).
    destruct (non_admin_verdict secret t j (Store.clock w) r Hd Ha) as [m Hm].
    exists m. rewrite Hm. reflexivity. }
  assert (Hmw : forall r h', (h' = t \/ h' = "Bearer " ++ t) ->
            Http.authorization r = Some h' ->
            exists m, AuthMiddleware.isAdmin secret r w = (reject 403 m, w)).
  { intros r h' Hh Hr. rewrite isAdmin_run, Hr.
    assert (Hb : bearer (Some h') = Some t /\ Http.absent (Some h') = false).
    { destruct Hh as [-> | ->].
      - split; [apply bearer_plain; exact Hc | apply absent_token; exact Hne].
      - split; [apply bearer_prefixed; exact Hc | reflexivity]. }
    destruct Hb as [-> ->].
    destruct (non_admin_verdict secret t j (Store.clock w) r Hd Ha) as [m Hm].
    exists m. rewrite Hm. reflexivity. }
  assert (Hroute : forall (gate : Http.Middleware) r m,
            gate (Http.incoming r) w = (reject 403 m, w) ->
            forall h : Http.Handler,
              Http.app [gate] h r w
              = (Http.Sent (Http.mkResponse 403 (Http.Message m)), w)).
  { intros gate r m Hg h. rewrite app_one, Hg. reflexivity. }
  split.
  - intros gate Hin.
    assert (Hg : forall r, Http.authorization r = Some t ->
              exists m, gate r w = (reject 403 m, w)).
    { cbn in Hin. destruct Hin as [<- | [<- | [<- | [<- | []]]]]; intros r Hr.
      - apply Hadmin; exact Hr.
      - apply Hadmin; exact Hr.
      - apply Hadmin; exact Hr.
      - apply (Hmw r t); [left; reflexivity | exact Hr]. }
    destruct (Hg plain eq_refl) as [m Hm].
    destruct (Hg (Http.incoming plain) eq_refl) as [m' Hm'].
    exists m. split; [exact Hm|].
    intros h. rewrite (Hroute gate plain m' Hm' h).
    assert (m' = m); [|subst; reflexivity].
    (* the verdict does not look at req.user or req.file *)
    clear - Hin Hm Hm'. cbn in Hin.
    destruct Hin as [<- | [<- | [<- | [<- | []]]]];
      rewrite ?authenticateAdmin_run, ?isAdmin_run in Hm, Hm';
      unfold Part000.authenticateAdmin, Part001.authenticateAdmin in *;
      rewrite ?authenticateAdmin_run, ?isAdmin_run in Hm, Hm';
      cbn [Http.authorization Http.incoming plain Http.with_authorization] in *;
      destruct (Http.absent (Some t));
      try (unfold reject in *; congruence);
      destruct (Jwt.verify _ secret (Store.clock w)) as [e|u];
      try (unfold reject in *; congruence);
      destruct (Js.truthy (Jwt.isAdmin u));
      unfold reject in *; congruence.
  - destruct (Hmw prefixed ("Bearer " ++ t) (or_intror eq_refl) eq_refl)
      as [m Hm].
    destruct (Hmw (Http.incoming prefixed) ("Bearer " ++ t)
                (or_intror eq_refl) eq_refl) as [m' Hm'].
    exists m. split; [exact Hm|].
    intros h. rewrite (Hroute _ prefixed m' Hm' h).
    assert (m' = m); [|subst; reflexivity].
    clear - Hm Hm'. rewrite isAdmin_run in Hm, Hm'.
    cbn [Http.authorization Http.incoming prefixed Http.with_authorization] in *.
    destruct (Http.absent _);
      try (unfold reject in *; congruence).
    destruct (Jwt.verify _ secret (Store.clock w)) as [e|u];
      try (unfold reject in *; congruence).
    destruct (Js.truthy (Jwt.isAdmin u)); unfold reject in *; congruence.
Qed.

Lemma admin_gates_reject_non_admin_witness :
  Jwt.decode (Fixture.token_of Fixture.alice)
  = Some (Jwt.mkJws (Jwt.mkPayload "alice@campus.org" "u-alice" (Some (Js.JBool false)))
            1000 4600 Fixture.secret)
  /\ exists m,
       forall h : Http.Handler,
         Http.app [AuthMiddleware.isAdmin Fixture.secret] h
           (Http.with_authorization
              (Some ("Bearer " ++ Fixture.token_of Fixture.alice)) Fixture.bare)
           Fixture.world
         = (Http.Sent (Http.mkResponse 403 (Http.Message m)), Fixture.world).
Proof.
  assert (Hd : Jwt.decode (Fixture.token_of Fixture.alice)
               = Some (Jwt.mkJws
                         (Jwt.mkPayload "alice@campus.org" "u-alice" (Some (Js.JBool false)))
                         1000 4600 Fixture.secret))
    by (vm_compute; reflexivity).
  split; [exact Hd|].
  destruct (admin_gates_reject_non_admin Fixture.secret
              (Fixture.token_of Fixture.alice) _ Fixture.bare Fixture.world Hd
              (or_intror eq_refl)) as [_ [m [_ Hm]]].
  exists m. exact Hm.
Defined.

(** C9.  For a token that verifies to an administrator, the [isAdmin]
    middleware lets the request through whether the header holds the bare
    token or the token after "Bearer "; [authenticateToken] and
    [authenticateAdmin] let it through for the bare token and answer 403
    "Invalid token." for the prefixed one. *)
Theorem credential_prefix_handling {codec : Jwt.Codec} (secret t : string)
  (p : Jwt.Payload) (req : Http.Request) (w : Store.World) :
  Jwt.verify (Some t) secret (Store.clock w) = inr p ->
  Js.truthy (Jwt.isAdmin p) = true ->
  let plain := Http.with_authorization (Some t) req in
  let prefixed := Http.with_authorization (Some ("Bearer " ++ t)) req in
  AuthMiddleware.isAdmin secret plain w = (inr (Http.with_user p plain), w)
  /\ AuthMiddleware.isAdmin secret prefixed w
     = (inr (Http.with_user p prefixed), w)
  /\ IndexJs.authenticateToken secret plain w
     = (inr (Http.with_user p plain), w)
  /\ IndexJs.authenticateToken secret prefixed w
     = (reject 403 "Invalid token.", w)
  /\ IndexJs.authenticateAdmin secret plain w
     = (inr (Http.with_user p plain), w)
  /\ IndexJs.authenticateAdmin secret prefixed w
     = (reject 403 "Invalid token.", w).
Proof.
  intros Hv Ha plain prefixed.
  destruct (verify_ok_compact secret t _ p Hv) as [Hc Hne].
  rewrite !isAdmin_run, !authenticateToken_run, !authenticateAdmin_run.
  cbn [Http.authorization plain prefixed Http.with_authorization].
  rewrite (absent_token t Hne), (bearer_plain t Hc), (bearer_prefixed t Hc).
  replace (Http.absent (Some ("Bearer " ++ t))) with false by reflexivity.
  rewrite (verify_blank secret _ (Store.clock w) (bearer_has_space t)).
  rewrite Hv, Ha. repeat split; reflexivity.
Qed.

Lemma credential_prefix_handling_witness :
  Jwt.verify (Some (Fixture.token_of Fixture.root)) Fixture.secret
    (Store.clock Fixture.world)
  = inr (Jwt.mkPayload "root@campus.org" "u-root" (Some (Js.JBool true)))
  /\ AuthMiddleware.isAdmin Fixture.secret
       (Http.with_authorization
          (Some ("Bearer " ++ Fixture.token_of Fixture.root)) Fixture.bare)
       Fixture.world
     = (inr (Http.with_user
               (Jwt.mkPayload "root@campus.org" "u-root" (Some (Js.JBool true)))
               (Http.with_authorization
                  (Some ("Bearer " ++ Fixture.token_of Fixture.root))
                  Fixture.bare)),
        Fixture.world)
  /\ IndexJs.authenticateAdmin Fixture.secret
       (Http.with_authorization
          (Some ("Bearer " ++ Fixture.token_of Fixture.root)) Fixture.bare)
       Fixture.world
     = (reject 403 "Invalid token.", Fixture.world).
Proof.
  assert (Hv : Jwt.verify (Some (Fixture.token_of Fixture.root)) Fixture.secret
                 (Store.clock Fixture.world)
               = inr (Jwt.mkPayload "root@campus.org" "u-root" (Some (Js.JBool true))))
    by (vm_compute; reflexivity).
  split; [exact Hv|].
  destruct (credential_prefix_handling Fixture.secret
              (Fixture.token_of Fixture.root) _ Fixture.bare Fixture.world
              Hv eq_refl) as (_ & H2 & _ & _ & _ & H6).
  split; [exact H2 | exact H6].
Defined.

(** ** The store, call by call *)

(** The world once the next call outcome has been consumed. *)
Definition after_call (w : Store.World) : Store.World :=
  Store.mkWorld (Store.complaints w) (Store.bucket w) (tl (Store.faults w))
    (Store.clock w) (Store.serial w).

(** Whether the next call to the service fails. *)
Definition next_fails (w : Store.World) : bool := hd false (Store.faults w).

Lemma call_run (w : Store.World) : Store.call w = (next_fails w, after_call w).
Proof. destruct w as [cs b [|f fs] c n]; reflexivity. Qed.

Lemma select_run (p : Store.Complaint -> bool) (ordered : bool)
  (w : Store.World) :
  Store.select p ordered w
  = (if next_fails w then Store.Error Store.unreachable
     else Store.Data (if ordered
                      then Store.order_desc (filter p (Store.complaints w))
                      else filter p (Store.complaints w)),
     after_call w).
Proof.
  unfold Store.select. rewrite call_run.
  destruct (next_fails w); reflexivity.
Qed.

Lemma select_single_run (p : Store.Complaint -> bool) (w : Store.World) :
  Store.select_single p w
  = (if next_fails w then Store.Error Store.unreachable
     else match filter p (Store.complaints w) with
          | [c] => Store.Data c
          | _ => Store.Error Store.not_single
          end,
     after_call w).
Proof.
  unfold Store.select_single. rewrite call_run.
  destruct (next_fails w); [reflexivity|].
  cbn [after_call Store.complaints].
  destruct (filter p (Store.complaints w)) as [|c [|c' l]]; reflexivity.
Qed.

Lemma update_run (patch : Store.Complaint -> Store.Complaint)
  (p : Store.Complaint -> bool) (w : Store.World) :
  Store.update patch p w
  = if next_fails w then (Store.Error Store.unreachable, after_call w)
    else (Store.Data tt,
          Store.with_complaints
            (map (fun c => if p c then patch c else c) (Store.complaints w))
            (after_call w)).
Proof.
  unfold Store.update. rewrite call_run.
  destruct (next_fails w); reflexivity.
Qed.

Lemma update_single_run (patch : Store.Complaint -> Store.Complaint)
  (p : Store.Complaint -> bool) (w : Store.World) :
  Store.update_single patch p w
  = if next_fails w then (Store.Error Store.unreachable, after_call w)
    else match filter p (Store.complaints w) with
         | [c] =>
             (Store.Data (patch c),
              Store.with_complaints
                (map (fun c => if p c then patch c else c) (Store.complaints w))
                (after_call w))
         | _ => (Store.Error Store.not_single, after_call w)
         end.
Proof.
  unfold Store.update_single. rewrite call_run.
  destruct (next_fails w); [reflexivity|].
  cbn [after_call Store.complaints].
  destruct (filter p (Store.complaints w)) as [|c [|c' l]]; reflexivity.
Qed.

Lemma delete_run (p : Store.Complaint -> bool) (w : Store.World) :
  Store.delete p w
  = if next_fails w then (Store.Error Store.unreachable, after_call w)
    else (Store.Data tt,
          Store.with_complaints
            (filter (fun c => negb (p c)) (Store.complaints w)) (after_call w)).
Proof.
  unfold Store.delete. rewrite call_run.
  destruct (next_fails w); reflexivity.
Qed.

Lemma insert_run (owner : string) (t d st : Js.json) (tg : list Js.json)
  (img : option string) (w : Store.World) :
  Store.insert owner t d st tg img w
  = if next_fails w then (Store.Error Store.unreachable, after_call w)
    else
      let row :=
        Store.mkComplaint
          (NilZero.string_of_uint (Nat.to_uint (Store.serial w)))
          owner t d st tg img None None None (Store.clock w) in
      (Store.Data [row],
       Store.mkWorld (Store.complaints w ++ [row]) (Store.bucket w)
         (tl (Store.faults w)) (Store.clock w) (S (Store.serial w))).
Proof.
  unfold Store.insert. rewrite call_run.
  destruct (next_fails w); reflexivity.
Qed.

(** A key names one row at most. *)
Definition keyed (w : Store.World) : Prop :=
  NoDup (map Store.id (Store.complaints w)).

Lemma filter_eq_id_absent (i : string) (l : list Store.Complaint) :
  ~ In i (map Store.id l) -> filter (Store.eq_id i) l = [].
Proof.
  induction l as [|x r IH]; [reflexivity|].
  cbn [map In filter]. intros H. unfold Store.eq_id at 1.
  destruct (String.eqb_spec (Store.id x) i) as [E|E].
  - exfalso. apply H. left. exact E.
  - apply IH. intros Hin. apply H. right. exact Hin.
Qed.

Lemma filter_eq_id_keyed (c : Store.Complaint) (l : list Store.Complaint) :
  NoDup (map Store.id l) -> In c l -> filter (Store.eq_id (Store.id c)) l = [c].
Proof.
  induction l as [|x r IH]; [intros _ []|].
  cbn [map filter]. intros Hnd Hin. inversion Hnd as [|? ? Hx Hr]; subst.
  unfold Store.eq_id at 1.
  destruct Hin as [-> | Hin].
  - rewrite String.eqb_refl. f_equal. apply filter_eq_id_absent. exact Hx.
  - destruct (String.eqb_spec (Store.id x) (Store.id c)) as [E|E].
    + exfalso. apply Hx. rewrite E. apply in_map. exact Hin.
    + apply IH; assumption.
Qed.

(** ** Deleting a complaint (unnamed/part_001) *)

Definition forbidden_delete : Http.Outcome :=
  Http.Sent (Http.mkResponse 403
    (Http.ErrorOnly "Unauthorized to delete this complaint")).

Definition missing_complaint : Http.Outcome :=
  Http.Sent (Http.mkResponse 404 (Http.ErrorOnly "Complaint not found")).

Lemma delete_complaint_run (req : Http.Request) (w : Store.World) :
  Part001.delete_complaint req w
  = (if next_fails w then missing_complaint
     else match filter (Store.eq_id (Http.param_id req)) (Store.complaints w) with
          | [_] => forbidden_delete
          | _ => missing_complaint
          end,
     after_call w).
Proof.
  unfold Part001.delete_complaint, Http.app, Part001.delete_complaint_handler.
  cbn [fold_right Http.incoming Http.user Http.param_id option_map].
  unfold Store.bind. rewrite select_single_run.
  destruct (next_fails w); [reflexivity|].
  destruct (filter _ _) as [|c [|c' l]]; reflexivity.
Qed.

(** C10.  The delete route of the revision with the image pipeline has no
    middleware, so the handler compares the stored owner with an undefined
    requester: for every request (with or without a credential) that names
    an existing complaint of a store that answers, the response is 403, not
    401, and in every case the table of complaints is left as it was. *)
Theorem delete_complaint_always_forbidden (req : Http.Request)
  (w : Store.World) (c : Store.Complaint) :
  keyed w ->
  In c (Store.complaints w) ->
  Store.id c = Http.param_id req ->
  next_fails w = false ->
  Part001.delete_complaint req w = (forbidden_delete, after_call w)
  /\ Part001.delete_complaint (Http.with_authorization None req) w
     = (forbidden_delete, after_call w)
  /\ Store.complaints (snd (Part001.delete_complaint req w))
     = Store.complaints w
  /\ In c (Store.complaints (snd (Part001.delete_complaint req w))).
Proof.
  intros Hk Hin Hid Hf.
  assert (H : Part001.delete_complaint req w = (forbidden_delete, after_call w)).
  { rewrite delete_complaint_run, Hf, <- Hid.
    rewrite (filter_eq_id_keyed c _ Hk Hin). reflexivity. }
  split; [exact H|]. split.
  - rewrite delete_complaint_run in *.
    cbn [Http.param_id Http.with_authorization]. exact H.
  - rewrite H. split; [reflexivity | exact Hin].
Qed.

Lemma delete_complaint_always_forbidden_witness :
  Part001.delete_complaint
    (Fixture.with_param "3"
       (Http.with_authorization (Some (Fixture.token_of Fixture.bob))
          Fixture.bare))
    Fixture.world
  = (forbidden_delete, after_call Fixture.world).
Proof.
  refine (proj1 (delete_complaint_always_forbidden
                   (Fixture.with_param "3"
                      (Http.with_authorization
                         (Some (Fixture.token_of Fixture.bob)) Fixture.bare))
                   Fixture.world
                   (Fixture.row "3" "u-bob" [] None (Some 4) 1150)
                   _ _ eq_refl eq_refl)).
  - unfold keyed. cbn. repeat constructor; cbn; intuition discriminate.
  - cbn. right. right. left. reflexivity.
Defined.

(** The table is never touched by this route, whatever the request. *)
Lemma delete_complaint_keeps_table (req : Http.Request) (w : Store.World) :
  Store.complaints (snd (Part001.delete_complaint req w)) = Store.complaints w.
Proof. rewrite delete_complaint_run. reflexivity. Qed.

(** ** Routes behind [authenticateToken] *)

Definition sent (c : nat) (m : string) : Http.Outcome :=
  Http.Sent (Http.mkResponse c (Http.Message m)).

(** A response of the 2xx class. *)
Definition succeeded (o : Http.Outcome) : bool :=
  match o with
  | Http.Sent r => Nat.leb 200 (Http.code r) && Nat.ltb (Http.code r) 300
  | Http.Raised _ => false
  end.

Lemma route_authenticateToken {codec : Jwt.Codec} (secret : string)
  (h : Http.Handler) (req : Http.Request) (w : Store.World) :
  Http.app [IndexJs.authenticateToken secret] h req w
  = if Http.absent (Http.authorization req)
    then (sent 401 "Access denied. No token provided.", w)
    else match Jwt.verify (Http.authorization req) secret (Store.clock w) with
         | inl _ => (sent 403 "Invalid token.", w)
         | inr u => h (Http.with_user u (Http.incoming req)) w
         end.
Proof.
  rewrite app_one, authenticateToken_run.
  cbn [Http.incoming Http.authorization].
  destruct (Http.absent (Http.authorization req)); [reflexivity|].
  destruct (Jwt.verify _ _ _); reflexivity.
Qed.

(** ** Upvoting (index.js and unnamed/part_001) *)

Definition upvoted (i : string) (n : Z) (l : list Store.Complaint)
  : list Store.Complaint :=
  map (fun c => if Store.eq_id i c then IndexJs.set_upvotes n c else c) l.

Lemma post_upvote_handler_run (req : Http.Request) (w : Store.World) :
  IndexJs.post_upvote_handler req w
  = if next_fails w then (sent 404 "Complaint not found", after_call w)
    else
      match filter (Store.eq_id (Http.param_id req)) (Store.complaints w) with
      | [c] =>
          if next_fails (after_call w)
          then (sent 500 "Error processing upvote", after_call (after_call w))
          else
            let n := IndexJs.next_upvotes (Store.upvotes c) in
            (Http.Sent (Http.mkResponse 200
                          (Http.Row (IndexJs.set_upvotes n c))),
             Store.with_complaints
               (upvoted (Http.param_id req) n (Store.complaints w))
               (after_call (after_call w)))
      | _ => (sent 404 "Complaint not found", after_call w)
      end.
Proof.
  unfold IndexJs.post_upvote_handler, Store.bind.
  rewrite select_single_run.
  destruct (next_fails w); [reflexivity|].
  destruct (filter _ (Store.complaints w)) as [|c [|c' l]] eqn:E;
    try reflexivity.
  rewrite update_single_run.
  destruct (next_fails (after_call w)); [reflexivity|].
  cbn [after_call Store.complaints]. rewrite E. reflexivity.
Qed.

(** Whoever holds a valid token can upvote any complaint: the owner of the
    row is not read. *)
Lemma upvote_by_anyone {codec : Jwt.Codec} (secret t : string)
  (u : Jwt.Payload) (req : Http.Request) (w : Store.World)
  (c : Store.Complaint) :
  Http.authorization req = Some t ->
  Jwt.verify (Some t) secret (Store.clock w) = inr u ->
  keyed w -> In c (Store.complaints w) -> Store.id c = Http.param_id req ->
  Store.faults w = [] ->
  let n := IndexJs.next_upvotes (Store.upvotes c) in
  Part001.post_upvote secret req w
  = (Http.Sent (Http.mkResponse 200 (Http.Row (IndexJs.set_upvotes n c))),
     Store.with_complaints
       (upvoted (Http.param_id req) n (Store.complaints w)) w).
Proof.
  intros Ha Hv Hk Hin Hid Hf n.
  destruct (verify_ok_compact secret t _ u Hv) as [_ Hne].
  unfold Part001.post_upvote, Part001.authenticateToken.
  rewrite route_authenticateToken, Ha, (absent_token t Hne), Hv.
  rewrite post_upvote_handler_run.
  cbn [Http.param_id Http.with_user Http.incoming].
  unfold next_fails, after_call. cbn [Store.faults Store.complaints].
  rewrite Hf. cbn [hd tl]. rewrite <- Hid, (filter_eq_id_keyed c _ Hk Hin).
  cbn zeta. f_equal. destruct w; cbn in *. subst. reflexivity.
Qed.

(** ** Removing an image (unnamed/part_001) *)








(** The owner does remove the image of her complaint: the object leaves
    the bucket and the address leaves the row. *)
Example owner_removes_image :
  let r := Part001.delete_image Fixture.secret
             (Fixture.with_param "2"
                (Http.with_authorization (Some (Fixture.token_of Fixture.alice))
                   Fixture.bare))
             Fixture.world in
  fst r = sent 200 "Image deleted successfully"
  /\ Store.bucket (snd r) = []
  /\ nth_error (Store.complaints (snd r)) 1
     = Some (Fixture.row "2" "u-alice" ["canteen"] None None 1200).
Proof. vm_compute. repeat split. Qed.

(** Bob is refused on the same complaint. *)
Example stranger_keeps_image :
  Part001.delete_image Fixture.secret
    (Fixture.with_param "2"
       (Http.with_authorization (Some (Fixture.token_of Fixture.bob))
          Fixture.bare))
    Fixture.world
  = (sent 403 "Unauthorized", Fixture.world).
Proof. vm_compute. reflexivity. Qed.

(** ** Routes behind an admin gate *)

Lemma route_authenticateAdmin {codec : Jwt.Codec} (secret : string)
  (h : Http.Handler) (req : Http.Request) (w : Store.World) :
  Http.app [IndexJs.authenticateAdmin secret] h req w
  = if Http.absent (Http.authorization req)
    then (sent 401 "Access denied. No token provided.", w)
    else match Jwt.verify (Http.authorization req) secret (Store.clock w) with
         | inl _ => (sent 403 "Invalid token.", w)
         | inr u =>
             if Js.truthy (Jwt.isAdmin u)
             then h (Http.with_user u (Http.incoming req)) w
             else (sent 403 "Access denied. Admins only.", w)
         end.
Proof.
  rewrite app_one, authenticateAdmin_run.
  cbn [Http.incoming Http.authorization].
  destruct (Http.absent (Http.authorization req)); [reflexivity|].
  destruct (Jwt.verify _ _ _) as [e|u]; [reflexivity|].
  destruct (Js.truthy (Jwt.isAdmin u)); reflexivity.
Qed.

Lemma route_isAdmin {codec : Jwt.Codec} (secret : string)
  (h : Http.Handler) (req : Http.Request) (w : Store.World) :
  Http.app [AuthMiddleware.isAdmin secret] h req w
  = if Http.absent (Http.authorization req)
    then (sent 401 "Access denied. No token provided.", w)
    else match Jwt.verify (bearer (Http.authorization req)) secret
                 (Store.clock w) with
         | inl _ => (sent 403 "Invalid token.", w)
         | inr u =>
             if Js.truthy (Jwt.isAdmin u)
             then h (Http.with_user u (Http.incoming req)) w
             else (sent 403 "Access denied. Admins only.", w)
         end.
Proof.
  rewrite app_one, isAdmin_run.
  cbn [Http.incoming Http.authorization].
  destruct (Http.absent (Http.authorization req)); [reflexivity|].
  destruct (Jwt.verify _ _ _) as [e|u]; [reflexivity|].
  destruct (Js.truthy (Jwt.isAdmin u)); reflexivity.
Qed.

(** ** Updating the status *)

Definition statuses : list string := ["pending"; "working"; "finished"].

(** The rows named [i] with their status set. *)
Definition restated (i : string) (s : Js.value) (l : list Store.Complaint)
  : list Store.Complaint :=
  map (fun c => if Store.eq_id i c then IndexJs.set_status s c else c) l.

Lemma put_status_unchecked_run (req : Http.Request) (w : Store.World) :
  IndexJs.put_status_handler req w
  = if next_fails w
    then (Http.Sent (Http.mkResponse 500
            (Http.MessageError "Error updating status" Store.unreachable)),
          after_call w)
    else (sent 200 "Complaint status updated",
          Store.with_complaints
            (restated (Http.param_id req) (Http.status (Http.body req))
               (Store.complaints w))
            (after_call w)).
Proof.
  unfold IndexJs.put_status_handler, Store.bind. rewrite update_run.
  destruct (next_fails w); reflexivity.
Qed.

(** C5 (amended).  The status update of index.js does not look at the
    value: for an administrator and a store that answers it writes the
    status of the body, whatever it is, into the complaint named and
    answers 200.  In the revision with the image pipeline a status outside
    pending, working and finished is never written: whoever sends it, the
    request is no success and the world is left as it was. *)
Theorem status_update_validation {codec : Jwt.Codec} (secret : string)
  (req : Http.Request) (w : Store.World) :
  (forall t u,
     Http.authorization req = Some t ->
     Jwt.verify (Some t) secret (Store.clock w) = inr u ->
     Js.truthy (Jwt.isAdmin u) = true ->
     next_fails w = false ->
     IndexJs.put_status secret req w
     = (sent 200 "Complaint status updated",
        Store.with_complaints
          (restated (Http.param_id req) (Http.status (Http.body req))
             (Store.complaints w))
          (after_call w)))
  /\ (Js.includes statuses (Http.status (Http.body req)) = false ->
      snd (Part001.put_status secret req w) = w
      /\ succeeded (fst (Part001.put_status secret req w)) = false).
Proof.
  split.
  - intros t u Ht Hv Hu Hf.
    destruct (verify_ok_compact secret t _ u Hv) as [_ Hne].
    unfold IndexJs.put_status.
    rewrite route_authenticateAdmin, Ht, (absent_token t Hne), Hv, Hu.
    rewrite put_status_unchecked_run.
    cbn [Http.param_id Http.body Http.with_user Http.incoming].
    rewrite Hf. reflexivity.
  - intros _. unfold Part001.put_status. rewrite route_isAdmin.
    destruct (Http.absent (Http.authorization req)); [split; reflexivity|].
    destruct (Jwt.verify _ _ _) as [e|u]; [split; reflexivity|].
    destruct (Js.truthy (Jwt.isAdmin u)); split; reflexivity.
Qed.

Lemma status_update_validation_witness :
  Js.includes statuses
    (Http.status (Http.body (Fixture.closing "1" Fixture.root))) = false
  /\ snd (Part001.put_status Fixture.secret (Fixture.closing "1" Fixture.root)
            Fixture.world)
     = Fixture.world
  /\ succeeded
       (fst (Part001.put_status Fixture.secret
               (Fixture.closing "1" Fixture.root) Fixture.world))
     = false.
Proof.
  split; [reflexivity|].
  exact (proj2 (status_update_validation Fixture.secret
                  (Fixture.closing "1" Fixture.root) Fixture.world) eq_refl).
Defined.

(** C5, as stated, fails on index.js: the administrator sets the status
    of complaint 1 to closed, the answer is 200 and the row holds it. *)
Lemma status_closed_is_written :
  exists w',
    IndexJs.put_status Fixture.secret (Fixture.closing "1" Fixture.root) Fixture.world
    = (sent 200 "Complaint status updated", w')
    /\ option_map Store.status (hd_error (Store.complaints Fixture.world))
       = Some (Js.JStr "pending")
    /\ option_map Store.status (hd_error (Store.complaints w'))
       = Some (Js.JStr "closed").
Proof.
  eexists. split; [vm_compute; reflexivity|]. split; reflexivity.
Qed.

(** ** Submitting a complaint *)

(** The row belongs to the requester, is pending, and holds the title and
    the description of the body. *)
Definition created_by (u : Jwt.Payload) (b : Http.Body)
  (row : Store.Complaint) : Prop :=
  Store.user_id row = Jwt.id u
  /\ Store.status row = Js.JStr "pending"
  /\ Some (Store.title row) = Http.title b
  /\ Some (Store.description row) = Http.description b.

(** What a submission may do to the table: nothing, with an answer that is
    no success; or, answering 201, append one row created by [u] from a
    body whose title and description are truthy. *)
Definition submission (u : Jwt.Payload) (b : Http.Body) (w : Store.World)
  (r : Http.Outcome * Store.World) : Prop :=
  (succeeded (fst r) = false
   /\ Store.complaints (snd r) = Store.complaints w)
  \/ exists row rep,
       fst r = Http.Sent (Http.mkResponse 201 rep)
       /\ Store.complaints (snd r) = (Store.complaints w ++ [row])%list
       /\ created_by u b row
       /\ Js.truthy (Http.title b) = true
       /\ Js.truthy (Http.description b) = true.

Ltac insert_step :=
  unfold Store.bind; rewrite insert_run;
  match goal with
  | |- context [next_fails ?w] => destruct (next_fails w)
  end;
  [ left; split; reflexivity
  | right; eexists; eexists;
    repeat split; try reflexivity; try assumption ].

Lemma submit_index (req : Http.Request) (u : Jwt.Payload) (w : Store.World) :
  Http.user req = Some u ->
  submission u (Http.body req) w (IndexJs.post_submit_handler req w).
Proof.
  intros Hu. unfold submission, created_by, IndexJs.post_submit_handler. rewrite Hu.
  destruct (Js.truthy (Http.title (Http.body req))) eqn:Ht;
    [|left; split; reflexivity].
  destruct (Js.truthy (Http.description (Http.body req))) eqn:Hd;
    [|left; split; reflexivity].
  cbn [negb orb].
  destruct (Http.title (Http.body req)) as [t|]; [|discriminate Ht].
  destruct (Http.description (Http.body req)) as [d|]; [|discriminate Hd].
  destruct (Js.truthy (Http.tags (Http.body req))); [|insert_step].
  destruct (Http.tags (Http.body req)) as [[| | | |l|]|];
    try (left; split; reflexivity).
  destruct (forallb _ l); cbn [negb]; [insert_step | left; split; reflexivity].
Qed.

Lemma storage_upload_run (name : string) (content : Z * Z) (w : Store.World) :
  Store.storage_upload name content w
  = if next_fails w then (Store.Error Store.unreachable, after_call w)
    else if existsb (fun o => (Store.path o =? name)%string) (Store.bucket w)
    then (Store.Error Store.duplicate, after_call w)
    else (Store.Data tt,
          Store.with_bucket (Store.bucket w ++ [Store.mkObject name content])
            (after_call w)).
Proof.
  unfold Store.storage_upload. rewrite call_run.
  destruct (next_fails w); reflexivity.
Qed.

Lemma submit_001 (JSON_parse : string -> option Js.json) (req : Http.Request)
  (u : Jwt.Payload) (w : Store.World) :
  Http.user req = Some u ->
  submission u (Http.body req) w
    (Part001.post_submit_handler JSON_parse req w).
Proof.
  intros Hu. unfold submission, created_by, Part001.post_submit_handler. rewrite Hu.
  destruct (Js.truthy (Http.title (Http.body req))) eqn:Ht;
    [|left; split; reflexivity].
  destruct (Js.truthy (Http.description (Http.body req))) eqn:Hd;
    [|left; split; reflexivity].
  cbn [negb orb].
  destruct (Part001.parse_tags JSON_parse _) as [tg|];
    [|left; split; reflexivity].
  destruct (Http.title (Http.body req)) as [t|]; [|discriminate Ht].
  destruct (Http.description (Http.body req)) as [d|]; [|discriminate Hd].
  destruct (Http.file req) as [f|]; [|insert_step].
  destruct (Part001.processImage _) as [dim|]; [|left; split; reflexivity].
  unfold Part001.uploadToStorage, Store.fresh, Store.bind. cbv beta iota.
  rewrite storage_upload_run.
  match goal with
  | |- context [next_fails ?w'] => destruct (next_fails w')
  end; [left; split; reflexivity|].
  destruct (existsb _ _); [left; split; reflexivity|].
  cbv beta iota. unfold Store.ret. insert_step.
Qed.

(** The form part multer lets through. *)
Definition accepted (img : option Http.Upload) : bool :=
  match img with
  | None => true
  | Some f =>
      Js.startsWith (Http.mimetype f) "image/"
      && negb (5 * 1024 * 1024 <? Http.size f)
  end.

Lemma route_submit_001 {codec : Jwt.Codec} (secret : string)
  (JSON_parse : string -> option Js.json) (req : Http.Request)
  (w : Store.World) :
  Part001.post_submit secret JSON_parse req w
  = if Http.absent (Http.authorization req)
    then (sent 401 "Access denied. No token provided.", w)
    else match Jwt.verify (Http.authorization req) secret (Store.clock w) with
         | inl _ => (sent 403 "Invalid token.", w)
         | inr u =>
             match Http.image req with
             | None =>
                 Part001.post_submit_handler JSON_parse
                   (Http.with_user u (Http.incoming req)) w
             | Some f =>
                 if negb (Js.startsWith (Http.mimetype f) "image/")
                 then (Http.Raised "Only image files are allowed!", w)
                 else if 5 * 1024 * 1024 <? Http.size f
                 then (Http.Raised "File too large", w)
                 else Part001.post_submit_handler JSON_parse
                        (Http.with_file (Some f)
                           (Http.with_user u (Http.incoming req))) w
             end
         end.
Proof.
  unfold Part001.post_submit, Http.app, Part001.authenticateToken.
  cbn [fold_right]. unfold Http.use at 1. unfold Store.bind at 1.
  rewrite authenticateToken_run. cbn [Http.incoming Http.authorization].
  destruct (Http.absent (Http.authorization req)); [reflexivity|].
  destruct (Jwt.verify _ _ _) as [e|u]; [reflexivity|].
  unfold Http.use, Store.bind, Part001.upload_single.
  cbn [Http.image Http.with_user Http.incoming].
  destruct (Http.image req) as [f|]; [|reflexivity].
  destruct (negb (Js.startsWith (Http.mimetype f) "image/")); [reflexivity|].
  destruct (5 * 1024 * 1024 <? Http.size f); reflexivity.
Qed.

Lemma submission_of_route (P : Jwt.Payload -> Prop) (b : Http.Body)
  (w : Store.World) (u : Jwt.Payload) (r : Http.Outcome * Store.World) :
  P u ->
  submission u b w r ->
  (succeeded (fst r) = false
   /\ Store.complaints (snd r) = Store.complaints w)
  \/ exists u row rep,
       P u
       /\ fst r = Http.Sent (Http.mkResponse 201 rep)
       /\ Store.complaints (snd r) = (Store.complaints w ++ [row])%list
       /\ created_by u b row
       /\ Js.truthy (Http.title b) = true
       /\ Js.truthy (Http.description b) = true.
Proof.
  intros Hv [H | (row & rep & H)]; [left; exact H|].
  right. exists u, row, rep. split; [exact Hv | exact H].
Qed.

Lemma falsy_field (title description : Js.value) :
  Js.truthy title = false \/ Js.truthy description = false ->
  negb (Js.truthy title) || negb (Js.truthy description) = true.
Proof.
  intros [-> | ->]; [reflexivity|]. destruct (Js.truthy title); reflexivity.
Qed.

(** *** Tags *)

(** The list a tags value stands for: the array itself, the array its
    text parses to, or no tag at all for a value that is neither an array
    nor a string; nothing for a string that does not parse to an array. *)
Definition tag_list (JSON_parse : string -> option Js.json) (tags : Js.value)
  : option (list Js.json) :=
  match tags with
  | Some (Js.JArr l) => Some l
  | Some (Js.JStr s) =>
      match JSON_parse s with
      | Some (Js.JArr l) => Some l
      | _ => None
      end
  | _ => Some []
  end.

(** The members of the vocabulary among the values of a list, in order. *)
Definition known_tags (l : list Js.json) : list Js.json :=
  filter (fun tag => Js.includes IndexJs.VALID_TAGS (Some tag)) l.

Lemma parse_tags_spec (JSON_parse : string -> option Js.json)
  (tags : Js.value) :
  Part001.parse_tags JSON_parse tags
  = option_map known_tags (tag_list JSON_parse tags).
Proof.
  unfold Part001.parse_tags, tag_list.
  destruct tags as [[| | |s|l|]|]; try reflexivity.
  destruct (JSON_parse s) as [[| | | |l|]|]; reflexivity.
Qed.

Lemma known_tags_in_vocabulary (l : list Js.json) :
  Forall (fun v => exists s, v = Js.JStr s /\ In s IndexJs.VALID_TAGS)
         (known_tags l).
Proof.
  apply Forall_forall. intros v Hv. apply filter_In in Hv as [_ Hv].
  destruct v as [| | |s| |]; try discriminate Hv.
  exists s. split; [reflexivity|].
  cbn [Js.includes] in Hv. apply existsb_exists in Hv as (x & Hx & E).
  apply String.eqb_eq in E. subst x. exact Hx.
Qed.

Lemma known_tags_keeps (l : list Js.json) (s : string) :
  In s IndexJs.VALID_TAGS -> In (Js.JStr s) l -> In (Js.JStr s) (known_tags l).
Proof.
  intros Hs Hl. apply filter_In. split; [exact Hl|].
  cbn [Js.includes]. apply existsb_exists. exists s.
  split; [exact Hs | apply String.eqb_refl].
Qed.

(** The row a submission of the newest revision writes. *)
Definition submitted_row (w : Store.World) (u : Jwt.Payload)
  (t d : Js.json) (tg : list Js.json) : Store.Complaint :=
  Store.mkComplaint (NilZero.string_of_uint (Nat.to_uint (Store.serial w)))
    (Jwt.id u) t d (Js.JStr "pending") tg None None None None (Store.clock w).

(** C2 (amended).  In the revision with the image pipeline, an
    authenticated submission with a title and a description, no image and
    a store that answers is answered 201 and stores one row whose tags are
    the members of the vocabulary among the values sent, in their order:
    other values are dropped in silence, for an array as for the text of
    an array; it is answered 400 "Invalid tags format", with nothing
    stored, exactly when tags is a string that does not parse to an array.
    In index.js the same request with an array that holds a value outside
    the vocabulary is answered 400 "Invalid tags provided" and nothing is
    stored. *)
Theorem submit_filters_tags {codec : Jwt.Codec} (secret : string)
  (JSON_parse : string -> option Js.json) (req : Http.Request)
  (w : Store.World) (t : string) (u : Jwt.Payload) (tj dj : Js.json) :
  Http.authorization req = Some t ->
  Jwt.verify (Some t) secret (Store.clock w) = inr u ->
  Http.title (Http.body req) = Some tj -> Js.truthy (Some tj) = true ->
  Http.description (Http.body req) = Some dj -> Js.truthy (Some dj) = true ->
  Http.image req = None ->
  next_fails w = false ->
  (forall l,
     tag_list JSON_parse (Http.tags (Http.body req)) = Some l ->
     let row := submitted_row w u tj dj (known_tags l) in
     Part001.post_submit secret JSON_parse req w
     = (Http.Sent (Http.mkResponse 201
          (Http.Submitted "Complaint submitted successfully" (Some row))),
        Store.mkWorld (Store.complaints w ++ [row]) (Store.bucket w)
          (tl (Store.faults w)) (Store.clock w) (S (Store.serial w)))
     /\ Forall (fun v => exists s, v = Js.JStr s /\ In s IndexJs.VALID_TAGS)
               (Store.tags row)
     /\ forall s, In s IndexJs.VALID_TAGS -> In (Js.JStr s) l ->
                  In (Js.JStr s) (Store.tags row))
  /\ (tag_list JSON_parse (Http.tags (Http.body req)) = None ->
      Part001.post_submit secret JSON_parse req w
      = (sent 400 "Invalid tags format", w))
  /\ (tag_list JSON_parse (Http.tags (Http.body req)) = None <->
      exists s, Http.tags (Http.body req) = Some (Js.JStr s)
                /\ forall l, JSON_parse s <> Some (Js.JArr l))
  /\ (forall l,
        Http.tags (Http.body req) = Some (Js.JArr l) ->
        known_tags l <> l ->
        IndexJs.post_submit secret req w
        = (sent 400 "Invalid tags provided", w)).
Proof.
  intros Ha Hv Ht Htt Hd Hdt Hi Hf.
  destruct (verify_ok_compact secret t _ u Hv) as [_ Hne].
  assert (Hrun : Part001.post_submit secret JSON_parse req w
                 = match tag_list JSON_parse (Http.tags (Http.body req)) with
                   | None => (sent 400 "Invalid tags format", w)
                   | Some l =>
                       let row := submitted_row w u tj dj (known_tags l) in
                       (Http.Sent (Http.mkResponse 201
                          (Http.Submitted "Complaint submitted successfully"
                             (Some row))),
                        Store.mkWorld (Store.complaints w ++ [row])
                          (Store.bucket w) (tl (Store.faults w))
                          (Store.clock w) (S (Store.serial w)))
                   end).
  { rewrite route_submit_001, Ha, (absent_token t Hne), Hv, Hi.
    unfold Part001.post_submit_handler.
    cbn [Http.user Http.with_user Http.body Http.incoming Http.file].
    rewrite Ht, Hd, Htt, Hdt, parse_tags_spec. cbn [negb orb].
    destruct (tag_list JSON_parse _) as [l|]; [|reflexivity].
    cbn [option_map]. unfold Store.bind. rewrite insert_run, Hf.
    reflexivity. }
  split; [|split; [|split]].
  - intros l Hl row. rewrite Hrun, Hl. split; [reflexivity|]. split.
    + apply known_tags_in_vocabulary.
    + intros s Hs Hin. apply known_tags_keeps; assumption.
  - intros Hn. rewrite Hrun, Hn. reflexivity.
  - unfold tag_list. split.
    + destruct (Http.tags (Http.body req)) as [[| | |s|l|]|]; try discriminate.
      intros Hn. exists s. split; [reflexivity|].
      intros l E. rewrite E in Hn. discriminate.
    + intros (s & -> & Hs).
      destruct (JSON_parse s) as [[| | | |l|]|]; try reflexivity.
      exfalso. apply (Hs l). reflexivity.
  - intros l Hl Hk. unfold IndexJs.post_submit.
    rewrite route_authenticateToken, Ha, (absent_token t Hne), Hv.
    unfold IndexJs.post_submit_handler.
    cbn [Http.user Http.with_user Http.body Http.incoming].
    rewrite Ht, Hd, Htt, Hdt, Hl. cbn [negb orb Js.truthy].
    destruct (forallb _ l) eqn:Hall; [|reflexivity].
    exfalso. apply Hk. unfold known_tags.
    clear - Hall. induction l as [|x r IH]; [reflexivity|].
    cbn [forallb] in Hall. apply andb_prop in Hall as [Hx Hr].
    cbn [filter]. rewrite Hx. f_equal. apply IH. exact Hr.
Qed.

Lemma submit_filters_tags_witness :
  let req :=
    Fixture.broken_light
      (Some (Js.JStr (JsonText.text_of_strings ["electricity"; "bogus"])))
      None in
  let row :=
    Store.mkComplaint "4" "u-alice" (Js.JStr "Broken light")
      (Js.JStr "Hallway B") (Js.JStr "pending") [Js.JStr "electricity"]
      None None None None 1600 in
  Part001.post_submit Fixture.secret JsonText.parse req Fixture.world
  = (Http.Sent (Http.mkResponse 201
       (Http.Submitted "Complaint submitted successfully" (Some row))),
     Store.mkWorld (Store.complaints Fixture.world ++ [row])
       (Store.bucket Fixture.world) [] 1600 5).
Proof.
  cbv zeta.
  refine (proj1 (proj1
    (submit_filters_tags Fixture.secret JsonText.parse
       (Fixture.broken_light
          (Some (Js.JStr (JsonText.text_of_strings ["electricity"; "bogus"])))
          None)
       Fixture.world (Fixture.token_of Fixture.alice)
       (Jwt.mkPayload "alice@campus.org" "u-alice" (Some (Js.JBool false)))
       (Js.JStr "Broken light") (Js.JStr "Hallway B")
       eq_refl _ eq_refl eq_refl eq_refl eq_refl eq_refl eq_refl)
    Fixture.two_tags _)).
  - vm_compute. reflexivity.
  - vm_compute. reflexivity.
Defined.

(** C2, as stated, fails on index.js: the same submission with the array
    of the two tags is answered 400 and the table stays as it was. *)
Lemma unknown_tag_is_rejected_by_index_js :
  IndexJs.post_submit Fixture.secret (Fixture.broken_light (Some (Js.JArr Fixture.two_tags)) None)
    Fixture.world
  = (sent 400 "Invalid tags provided", Fixture.world).
Proof. vm_compute. reflexivity. Qed.

(** The array is filtered like its text by the newest revision, and an
    owner sent along changes nothing. *)
Example native_tags_are_filtered :
  let r := Part001.post_submit Fixture.secret JsonText.parse
             (Fixture.broken_light (Some (Js.JArr Fixture.two_tags)) (Some (Js.JStr "u-bob")))
             Fixture.world in
  option_map Store.tags (nth_error (Store.complaints (snd r)) 3)
  = Some [Js.JStr "electricity"]
  /\ option_map Store.user_id (nth_error (Store.complaints (snd r)) 3)
     = Some "u-alice"
  /\ option_map Store.upvotes (nth_error (Store.complaints (snd r)) 3)
     = Some None.
Proof. vm_compute. repeat split. Qed.

Example text_that_is_no_array :
  Part001.post_submit Fixture.secret JsonText.parse
    (Fixture.broken_light (Some (Js.JStr "electricity")) None) Fixture.world
  = (sent 400 "Invalid tags format", Fixture.world).
Proof. vm_compute. reflexivity. Qed.

(** *** The owner of a new complaint *)

(** The tags index.js stores: none for a falsy value, the array itself when
    each of its values is in the vocabulary. *)
Definition checked_tags (tags : Js.value) : option (list Js.json) :=
  if Js.truthy tags then
    match tags with
    | Some (Js.JArr l) =>
        if forallb (fun tag => Js.includes IndexJs.VALID_TAGS (Some tag)) l
        then Some l
        else None
    | _ => None
    end
  else Some [].

(** The world once [row] has been inserted. *)
Definition inserted (row : Store.Complaint) (w : Store.World) : Store.World :=
  Store.mkWorld (Store.complaints w ++ [row]) (Store.bucket w)
    (tl (Store.faults w)) (Store.clock w) (S (Store.serial w)).

Lemma submit_without_image_run {codec : Jwt.Codec} (secret : string)
  (JSON_parse : string -> option Js.json) (req : Http.Request)
  (w : Store.World) (t : string) (u : Jwt.Payload) (tj dj : Js.json)
  (l : list Js.json) :
  Http.authorization req = Some t ->
  Jwt.verify (Some t) secret (Store.clock w) = inr u ->
  Http.title (Http.body req) = Some tj -> Js.truthy (Some tj) = true ->
  Http.description (Http.body req) = Some dj -> Js.truthy (Some dj) = true ->
  Http.image req = None ->
  tag_list JSON_parse (Http.tags (Http.body req)) = Some l ->
  next_fails w = false ->
  let row := submitted_row w u tj dj (known_tags l) in
  Part001.post_submit secret JSON_parse req w
  = (Http.Sent (Http.mkResponse 201
       (Http.Submitted "Complaint submitted successfully" (Some row))),
     Store.mkWorld (Store.complaints w ++ [row]) (Store.bucket w)
       (tl (Store.faults w)) (Store.clock w) (S (Store.serial w))).
Proof.
  intros Ha Hv Ht Htt Hd Hdt Hi Hl Hf row.
  destruct (verify_ok_compact secret t _ u Hv) as [_ Hne].
  rewrite route_submit_001, Ha, (absent_token t Hne), Hv, Hi.
  unfold Part001.post_submit_handler.
  cbn [Http.user Http.with_user Http.body Http.incoming Http.file].
  rewrite Ht, Hd, Htt, Hdt, parse_tags_spec, Hl. cbn [negb orb option_map].
  unfold Store.bind. rewrite insert_run, Hf. reflexivity.
Qed.

Lemma submit_checked_run {codec : Jwt.Codec} (secret : string)
  (req : Http.Request) (w : Store.World) (t : string) (u : Jwt.Payload)
  (tj dj : Js.json) (l : list Js.json) :
  Http.authorization req = Some t ->
  Jwt.verify (Some t) secret (Store.clock w) = inr u ->
  Http.title (Http.body req) = Some tj -> Js.truthy (Some tj) = true ->
  Http.description (Http.body req) = Some dj -> Js.truthy (Some dj) = true ->
  checked_tags (Http.tags (Http.body req)) = Some l ->
  next_fails w = false ->
  let row := submitted_row w u tj dj l in
  IndexJs.post_submit secret req w
  = (Http.Sent (Http.mkResponse 201
       (Http.Submitted "Complaint submitted successfully" (Some row))),
     inserted row w).
Proof.
  intros Ha Hv Ht Htt Hd Hdt Hl Hf row.
  destruct (verify_ok_compact secret t _ u Hv) as [_ Hne].
  unfold IndexJs.post_submit.
  rewrite route_authenticateToken, Ha, (absent_token t Hne), Hv.
  unfold IndexJs.post_submit_handler.
  cbn [Http.user Http.with_user Http.body Http.incoming].
  rewrite Ht, Hd, Htt, Hdt. cbn [negb orb].
  unfold checked_tags in Hl.
  destruct (Js.truthy (Http.tags (Http.body req))).
  - destruct (Http.tags (Http.body req)) as [[| | | |l'|]|];
      try discriminate Hl.
    destruct (forallb _ l'); [|discriminate Hl]. injection Hl as ->.
    cbn [negb]. unfold Store.bind. rewrite insert_run, Hf. reflexivity.
  - injection Hl as <-.
    unfold Store.bind. rewrite insert_run, Hf. reflexivity.
Qed.

Ltac owner_blind :=
  unfold IndexJs.post_submit;
  rewrite ?route_authenticateToken, ?route_submit_001;
  unfold IndexJs.post_submit_handler, Part001.post_submit_handler;
  cbn [Http.user Http.body Http.title Http.description Http.tags Http.file
       Http.with_user Http.with_file Http.incoming Http.with_client_owner
       Http.image Http.authorization];
  reflexivity.

(** C6 (amended).  On the create route of index.js and of the revision
    with the image pipeline (whose form multer parses): the answer and the
    world do not depend on an owner the client sends along; whatever the
    request, either no row is written or one row is appended with the
    answer 201, owned by the identity of the verified token and pending;
    an authenticated request with a truthy title and description, tags
    the route takes, no image and a store that answers is answered 201
    and stores that row; and an authenticated request that lacks a title
    or a description stores nothing and is answered 400, unless multer
    refuses its image part first, in which case the request ends with
    multer's error instead. *)
Theorem create_complaint_ownership {codec : Jwt.Codec} (secret : string)
  (JSON_parse : string -> option Js.json) (req : Http.Request)
  (w : Store.World) :
  (forall x,
     IndexJs.post_submit secret (Http.with_client_owner x req) w
     = IndexJs.post_submit secret req w
     /\ Part001.post_submit secret JSON_parse (Http.with_client_owner x req) w
        = Part001.post_submit secret JSON_parse req w)
  /\ (forall route,
        route = IndexJs.post_submit secret
        \/ route = Part001.post_submit secret JSON_parse ->
        (succeeded (fst (route req w)) = false
         /\ Store.complaints (snd (route req w)) = Store.complaints w)
        \/ exists u row rep,
             Jwt.verify (Http.authorization req) secret (Store.clock w) = inr u
             /\ fst (route req w) = Http.Sent (Http.mkResponse 201 rep)
             /\ Store.complaints (snd (route req w))
                = (Store.complaints w ++ [row])%list
             /\ created_by u (Http.body req) row
             /\ Js.truthy (Http.title (Http.body req)) = true
             /\ Js.truthy (Http.description (Http.body req)) = true)
  /\ (forall t u tj dj,
        Http.authorization req = Some t ->
        Jwt.verify (Some t) secret (Store.clock w) = inr u ->
        Http.title (Http.body req) = Some tj -> Js.truthy (Some tj) = true ->
        Http.description (Http.body req) = Some dj ->
        Js.truthy (Some dj) = true ->
        next_fails w = false ->
        (forall l,
           checked_tags (Http.tags (Http.body req)) = Some l ->
           let row := submitted_row w u tj dj l in
           IndexJs.post_submit secret req w
           = (Http.Sent (Http.mkResponse 201
                (Http.Submitted "Complaint submitted successfully"
                   (Some row))),
              inserted row w)
           /\ Store.user_id row = Jwt.id u
           /\ Store.status row = Js.JStr "pending")
        /\ (forall l,
              Http.image req = None ->
              tag_list JSON_parse (Http.tags (Http.body req)) = Some l ->
              let row := submitted_row w u tj dj (known_tags l) in
              Part001.post_submit secret JSON_parse req w
              = (Http.Sent (Http.mkResponse 201
                   (Http.Submitted "Complaint submitted successfully"
                      (Some row))),
                 inserted row w)
              /\ Store.user_id row = Jwt.id u
              /\ Store.status row = Js.JStr "pending"))
  /\ (forall t u,
        Http.authorization req = Some t ->
        Jwt.verify (Some t) secret (Store.clock w) = inr u ->
        Js.truthy (Http.title (Http.body req)) = false
        \/ Js.truthy (Http.description (Http.body req)) = false ->
        IndexJs.post_submit secret req w
        = (sent 400 "Title and description are required", w)
        /\ (accepted (Http.image req) = true ->
            Part001.post_submit secret JSON_parse req w
            = (sent 400 "Title and description are required", w))
        /\ (accepted (Http.image req) = false ->
            exists e,
              Part001.post_submit secret JSON_parse req w
              = (Http.Raised e, w))).
Proof.
  split; [|split; [|split]].
  - intros x. split; owner_blind.
  - intros route [-> | ->].
    + unfold IndexJs.post_submit. rewrite route_authenticateToken.
      destruct (Http.absent (Http.authorization req)); [left; auto|].
      destruct (Jwt.verify _ _ _) as [e|u] eqn:Hv; [left; auto|].
      apply (submission_of_route (fun u0 => inr u = inr u0) (Http.body req) w u);
        [reflexivity|].
      apply (submit_index (Http.with_user u (Http.incoming req)) u w eq_refl).
    + rewrite route_submit_001.
      destruct (Http.absent (Http.authorization req)); [left; auto|].
      destruct (Jwt.verify _ _ _) as [e|u] eqn:Hv; [left; auto|].
      apply (submission_of_route (fun u0 => inr u = inr u0) (Http.body req) w u);
        [reflexivity|].
      destruct (Http.image req) as [f|].
      * destruct (negb _); [left; auto|].
        destruct (_ <? _); [left; auto|].
        apply (submit_001 JSON_parse
                 (Http.with_file (Some f) (Http.with_user u (Http.incoming req)))
                 u w eq_refl).
      * apply (submit_001 JSON_parse (Http.with_user u (Http.incoming req))
                 u w eq_refl).
  - intros t u tj dj Ha Hv Ht Htt Hd Hdt Hf. split.
    + intros l Hl row. split; [|split; reflexivity].
      exact (submit_checked_run secret req w t u tj dj l
               Ha Hv Ht Htt Hd Hdt Hl Hf).
    + intros l Hi Hl row. split; [|split; reflexivity].
      exact (submit_without_image_run secret JSON_parse req w t u tj dj l
               Ha Hv Ht Htt Hd Hdt Hi Hl Hf).
  - intros t u Ht Hv Hm.
    destruct (verify_ok_compact secret t _ u Hv) as [_ Hne].
    split; [|split].
    + unfold IndexJs.post_submit.
      rewrite route_authenticateToken, Ht, (absent_token t Hne), Hv.
      unfold IndexJs.post_submit_handler.
      cbn [Http.user Http.with_user Http.body Http.incoming].
      rewrite (falsy_field _ _ Hm). reflexivity.
    + intros Hacc.
      rewrite route_submit_001, Ht, (absent_token t Hne), Hv.
      unfold accepted in Hacc. unfold Part001.post_submit_handler.
      destruct (Http.image req) as [f|].
      * apply andb_prop in Hacc as [-> Hs].
        apply negb_true_iff in Hs. rewrite Hs.
        cbn [negb Http.user Http.with_user Http.with_file Http.body
             Http.incoming].
        rewrite (falsy_field _ _ Hm). reflexivity.
      * cbn [Http.user Http.with_user Http.body Http.incoming].
        rewrite (falsy_field _ _ Hm). reflexivity.
    + intros Hacc.
      rewrite route_submit_001, Ht, (absent_token t Hne), Hv.
      unfold accepted in Hacc.
      destruct (Http.image req) as [f|]; [|discriminate Hacc].
      destruct (Js.startsWith (Http.mimetype f) "image/"); cbn [negb andb] in *.
      * apply negb_false_iff in Hacc. rewrite Hacc. eexists. reflexivity.
      * eexists. reflexivity.
Qed.

(** The scenario of the specification with bob named as the owner: the row
    is stored for alice, whose token the request carries. *)
Lemma create_complaint_ownership_witness :
  Part001.post_submit Fixture.secret JsonText.parse
    (Fixture.broken_light (Some (Js.JArr Fixture.two_tags))
       (Some (Js.JStr "u-bob")))
    Fixture.world
  = (Http.Sent (Http.mkResponse 201
       (Http.Submitted "Complaint submitted successfully"
          (Some (Store.mkComplaint "4" "u-alice" (Js.JStr "Broken light")
                   (Js.JStr "Hallway B") (Js.JStr "pending")
                   [Js.JStr "electricity"] None None None None 1600)))),
     Store.mkWorld
       (Store.complaints Fixture.world
        ++ [Store.mkComplaint "4" "u-alice" (Js.JStr "Broken light")
              (Js.JStr "Hallway B") (Js.JStr "pending")
              [Js.JStr "electricity"] None None None None 1600])
       (Store.bucket Fixture.world) [] 1600 5).
Proof.
  assert (Hv : Jwt.verify (Some (Fixture.token_of Fixture.alice))
                 Fixture.secret (Store.clock Fixture.world)
               = inr (Jwt.mkPayload "alice@campus.org" "u-alice"
                        (Some (Js.JBool false))))
    by (vm_compute; reflexivity).
  exact (proj1 (proj2 (proj1 (proj2 (proj2
           (create_complaint_ownership Fixture.secret JsonText.parse
              (Fixture.broken_light (Some (Js.JArr Fixture.two_tags))
                 (Some (Js.JStr "u-bob")))
              Fixture.world)))
           _ _ _ _ eq_refl Hv eq_refl eq_refl eq_refl eq_refl eq_refl)
           Fixture.two_tags eq_refl eq_refl)).
Defined.

(** C6, as stated, fails where multer refuses the image part: the form of
    alice has no title and a part that is no image, and the request ends
    with the error of the upload middleware, not with 400. *)
Lemma untitled_form_with_a_refused_part :
  Js.truthy (Http.title (Http.body Fixture.untitled)) = false
  /\ Jwt.verify (Http.authorization Fixture.untitled) Fixture.secret
       (Store.clock Fixture.world)
     = inr (Jwt.mkPayload "alice@campus.org" "u-alice" (Some (Js.JBool false)))
  /\ Part001.post_submit Fixture.secret JsonText.parse
       (Fixture.with_image (Some (Http.mkUpload "text/plain" 10 None))
          Fixture.untitled)
       Fixture.world
     = (Http.Raised "Only image files are allowed!", Fixture.world).
Proof. split; [reflexivity|]. split; vm_compute; reflexivity. Qed.

(** Both revisions store the complaint for the requester. *)
Example complaint_is_created :
  map Store.user_id
    (Store.complaints
       (snd (IndexJs.post_submit Fixture.secret
               (Fixture.broken_light None (Some (Js.JStr "u-bob")))
               Fixture.world)))
  = ["u-alice"; "u-alice"; "u-bob"; "u-alice"]
  /\ map Store.status
       (Store.complaints
          (snd (Part001.post_submit Fixture.secret JsonText.parse
                  (Fixture.broken_light None (Some (Js.JStr "u-bob")))
                  Fixture.world)))
     = [Js.JStr "pending"; Js.JStr "pending"; Js.JStr "pending";
        Js.JStr "pending"].
Proof. vm_compute. repeat split. Qed.

(** ** Listing one's own complaints *)

(** Newest first: no row is followed by a newer one. *)
Definition newest_first (l : list Store.Complaint) : Prop :=
  StronglySorted (fun a b => Store.created_at b <= Store.created_at a) l.

Lemma insert_desc_perm (c : Store.Complaint) (l : list Store.Complaint) :
  Permutation (Store.insert_desc c l) (c :: l).
Proof.
  induction l as [|x r IH]; [apply Permutation_refl|].
  cbn [Store.insert_desc].
  destruct (Store.created_at x <=? Store.created_at c).
  - apply Permutation_refl.
  - apply perm_trans with (x :: c :: r).
    + apply perm_skip. exact IH.
    + apply perm_swap.
Qed.

Lemma order_desc_perm (l : list Store.Complaint) :
  Permutation (Store.order_desc l) l.
Proof.
  induction l as [|c r IH]; [apply perm_nil|].
  cbn [Store.order_desc fold_right].
  apply perm_trans with (c :: Store.order_desc r).
  - apply insert_desc_perm.
  - apply perm_skip. exact IH.
Qed.

Lemma insert_desc_sorted (c : Store.Complaint) (l : list Store.Complaint) :
  newest_first l -> newest_first (Store.insert_desc c l).
Proof.
  unfold newest_first. induction l as [|x r IH]; intros Hs.
  - cbn. constructor; constructor.
  - cbn [Store.insert_desc].
    destruct (Z.leb_spec (Store.created_at x) (Store.created_at c)) as [Hle|Hlt].
    + constructor; [exact Hs|].
      inversion Hs as [|? ? Hr Hx]; subst.
      constructor; [exact Hle|].
      eapply Forall_impl; [|exact Hx]. cbv beta. intros b Hb. lia.
    + inversion Hs as [|? ? Hr Hx]; subst.
      constructor; [apply IH; exact Hr|].
      apply (Permutation_Forall (Permutation_sym (insert_desc_perm c r))).
      constructor; [lia | exact Hx].
Qed.

Lemma order_desc_sorted (l : list Store.Complaint) :
  newest_first (Store.order_desc l).
Proof.
  induction l as [|c r IH]; [constructor|].
  cbn [Store.order_desc fold_right]. apply insert_desc_sorted. exact IH.
Qed.

Lemma filter_owner (i : string) (p : Store.Complaint -> bool)
  (l : list Store.Complaint) :
  Forall (fun c => Store.user_id c = i)
         (filter (fun c => Store.eq_user_id i c && p c) l).
Proof.
  apply Forall_forall. intros c Hc. apply filter_In in Hc as [_ Hc].
  apply andb_prop in Hc as [Hc _]. apply String.eqb_eq. exact Hc.
Qed.

(** The filter GET /complaints of index.js hands to the store. *)
Definition listing_filter (userId : string) (tag : Js.value)
  (c : Store.Complaint) : bool :=
  Store.eq_user_id userId c
  && match tag with
     | Some (Js.JStr t) =>
         if existsb (String.eqb t) IndexJs.VALID_TAGS
         then Store.contains_tag t c
         else true
     | _ => true
     end.

Lemma get_complaints_handler_run (req : Http.Request) (u : Jwt.Payload)
  (w : Store.World) :
  Http.user req = Some u ->
  next_fails w = false ->
  IndexJs.get_complaints_handler req w
  = (Http.Sent (Http.mkResponse 200
       (Http.Complaints
          (Store.order_desc
             (filter (listing_filter (Jwt.id u) (Http.query_tag req))
                     (Store.complaints w))))),
     after_call w).
Proof.
  intros Hu Hf. unfold IndexJs.get_complaints_handler, Store.bind.
  rewrite Hu, select_run, Hf.
  assert (E : forall q q' : Store.Complaint -> bool,
            (forall c, q c = q' c) ->
            filter q (Store.complaints w) = filter q' (Store.complaints w)).
  { intros q q' H. apply filter_ext. exact H. }
  unfold Http.send, Store.ret. do 5 f_equal. apply E. intros c.
  unfold listing_filter.
  destruct (Http.query_tag req) as [[|b|n|t|items|fields]|];
    cbn [Js.truthy Js.includes].
  all: rewrite ?andb_false_r, ?andb_false_l, ?andb_true_r; try reflexivity.
  destruct t as [|a t].
  - (* the empty string is no tag of the vocabulary *)
    cbn. rewrite andb_true_r. reflexivity.
  - cbn [negb String.eqb andb].
    destruct (existsb _ IndexJs.VALID_TAGS);
      rewrite ?andb_true_r; reflexivity.
Qed.

Lemma listing_filter_unknown_tag (userId : string) (tag : Js.value)
  (l : list Store.Complaint) :
  Js.includes IndexJs.VALID_TAGS tag = false ->
  filter (listing_filter userId tag) l = filter (Store.eq_user_id userId) l.
Proof.
  intros H. apply filter_ext. intros c. unfold listing_filter.
  destruct tag as [[|b|n|t|items|fields]|]; try apply andb_true_r.
  cbn [Js.includes] in H. rewrite H. apply andb_true_r.
Qed.

Lemma listing_filter_owner (userId : string) (tag : Js.value)
  (l : list Store.Complaint) :
  Forall (fun c => Store.user_id c = userId)
         (filter (listing_filter userId tag) l).
Proof. unfold listing_filter. apply filter_owner. Qed.

(** C8 (amended).  For an authenticated requester and a store that
    answers, the listing of index.js and of the revision with the image
    pipeline returns rows of the requester only, newest first, namely the
    requester's rows that hold the tag of the query when that tag is in the
    vocabulary and all of the requester's rows when it is not (no error is
    returned).  The listing of the oldest revision returns the requester's
    rows in the order of the store: it reads no tag and asks for no
    order. *)
Theorem own_complaints_listing {codec : Jwt.Codec} (secret : string)
  (req : Http.Request) (w : Store.World) (t : string) (u : Jwt.Payload) :
  Http.authorization req = Some t ->
  Jwt.verify (Some t) secret (Store.clock w) = inr u ->
  next_fails w = false ->
  (forall route,
     route = IndexJs.get_complaints secret
     \/ route = Part001.get_complaints secret ->
     exists l,
       route req w
       = (Http.Sent (Http.mkResponse 200 (Http.Complaints l)), after_call w)
       /\ Forall (fun c => Store.user_id c = Jwt.id u) l
       /\ newest_first l
       /\ Permutation l
            (filter (listing_filter (Jwt.id u) (Http.query_tag req))
                    (Store.complaints w))
       /\ (Js.includes IndexJs.VALID_TAGS (Http.query_tag req) = false ->
           Permutation l
             (filter (Store.eq_user_id (Jwt.id u)) (Store.complaints w))))
  /\ Part000.get_complaints secret req w
     = (Http.Sent (Http.mkResponse 200
          (Http.Complaints
             (filter (Store.eq_user_id (Jwt.id u)) (Store.complaints w)))),
        after_call w).
Proof.
  intros Ha Hv Hf.
  destruct (verify_ok_compact secret t _ u Hv) as [_ Hne].
  split.
  - intros route Hr.
    assert (Hr' : route = Http.app [IndexJs.authenticateToken secret]
                            IndexJs.get_complaints_handler).
    { destruct Hr as [-> | ->]; reflexivity. }
    subst route.
    rewrite route_authenticateToken, Ha, (absent_token t Hne), Hv.
    rewrite (get_complaints_handler_run
               (Http.with_user u (Http.incoming req)) u w eq_refl Hf).
    cbn [Http.query_tag Http.with_user Http.incoming].
    eexists. split; [reflexivity|].
    split; [|split; [|split]].
    + apply (Permutation_Forall (Permutation_sym (order_desc_perm _))).
      apply listing_filter_owner.
    + apply order_desc_sorted.
    + apply order_desc_perm.
    + intros Hn. rewrite <- (listing_filter_unknown_tag _ _ _ Hn).
      apply order_desc_perm.
  - unfold Part000.get_complaints, Part000.authenticateToken.
    rewrite route_authenticateToken, Ha, (absent_token t Hne), Hv.
    unfold Part000.get_complaints_handler, Store.bind.
    cbn [Http.user Http.with_user]. rewrite select_run, Hf. reflexivity.
Qed.

Lemma own_complaints_listing_witness :
  IndexJs.get_complaints Fixture.secret (Fixture.listing (Some (Js.JStr "bogus")))
    Fixture.world
  = (Http.Sent (Http.mkResponse 200
       (Http.Complaints
          [ Fixture.row "2" "u-alice" ["canteen"]
              (Some (Store.getPublicUrl "complaints/7.jpg")) None 1200;
            Fixture.row "1" "u-alice" ["electricity"] None (Some 0) 1100 ])),
     after_call Fixture.world).
Proof.
  assert (Hv : Jwt.verify (Some (Fixture.token_of Fixture.alice))
                 Fixture.secret (Store.clock Fixture.world)
               = inr (Jwt.mkPayload "alice@campus.org" "u-alice" (Some (Js.JBool false))))
    by (vm_compute; reflexivity).
  destruct (proj1 (own_complaints_listing Fixture.secret
                     (Fixture.listing (Some (Js.JStr "bogus"))) Fixture.world
                     (Fixture.token_of Fixture.alice)
                     (Jwt.mkPayload "alice@campus.org" "u-alice" (Some (Js.JBool false)))
                     eq_refl Hv eq_refl)
                  (IndexJs.get_complaints Fixture.secret)
                  (or_introl eq_refl)) as (l & Hl & _).
  rewrite Hl. vm_compute in Hl. injection Hl as <-. reflexivity.
Defined.

(** C8, as stated, fails on the oldest revision: alice is listed her
    complaint of second 1100 before her complaint of second 1200. *)
Lemma oldest_revision_lists_in_store_order :
  Part000.get_complaints Fixture.secret (Fixture.listing None) Fixture.world
  = (Http.Sent (Http.mkResponse 200
       (Http.Complaints
          [ Fixture.row "1" "u-alice" ["electricity"] None (Some 0) 1100;
            Fixture.row "2" "u-alice" ["canteen"]
              (Some (Store.getPublicUrl "complaints/7.jpg")) None 1200 ])),
     after_call Fixture.world)
  /\ ~ newest_first
         [ Fixture.row "1" "u-alice" ["electricity"] None (Some 0) 1100;
           Fixture.row "2" "u-alice" ["canteen"]
             (Some (Store.getPublicUrl "complaints/7.jpg")) None 1200 ].
Proof.
  split; [vm_compute; reflexivity|].
  intros H. inversion H as [|? ? _ Hf]; subst.
  inversion Hf as [|? ? Hle _]; subst. cbn in Hle. lia.
Qed.

(** A tag of the vocabulary narrows the listing. *)
Example listing_by_tag :
  fst (Part001.get_complaints Fixture.secret
         (Fixture.listing (Some (Js.JStr "canteen"))) Fixture.world)
  = Http.Sent (Http.mkResponse 200
      (Http.Complaints
         [ Fixture.row "2" "u-alice" ["canteen"]
             (Some (Store.getPublicUrl "complaints/7.jpg")) None 1200 ])).
Proof. vm_compute. reflexivity. Qed.

(** ** The image pipeline *)

Lemma round_div_bounds (a b : Z) :
  0 < b ->
  2 * b * Sharp.round_div a b <= 2 * a + b
  /\ 2 * a + b < 2 * b * Sharp.round_div a b + 2 * b.
Proof.
  intros Hb. unfold Sharp.round_div.
  pose proof (Z.mul_div_le (2 * a + b) (2 * b) ltac:(lia)).
  pose proof (Z.mul_succ_div_gt (2 * a + b) (2 * b) ltac:(lia)).
  lia.
Qed.

(** The scaled side: at most the box, at most the side it comes from, and
    within one pixel of the exact proportion. *)
Lemma scaled_side (long short box : Z) :
  0 < short -> short <= long -> box < long -> 0 < box ->
  let s := Z.max 1 (Sharp.round_div (short * box) long) in
  1 <= s /\ s <= box /\ s <= short
  /\ Z.abs (box * short - s * long) < long.
Proof.
  intros Hs Hl Hb Hbox s.
  destruct (round_div_bounds (short * box) long ltac:(lia)) as [Hlo Hhi].
  set (q := Sharp.round_div (short * box) long) in *.
  assert (Hq0 : 0 <= q) by nia.
  assert (Hqb : q <= box) by nia.
  assert (Hqs : q <= short) by nia.
  assert (Hp : 0 < short * box) by nia.
  subst s. destruct (Z.max_spec 1 q) as [[Hlt ->] | [Hge ->]].
  - repeat split; first [lia | apply Z.abs_lt; nia].
  - assert (Hq : q = 0 \/ q = 1) by lia.
    assert (Hlt : short * box < 2 * long) by (destruct Hq as [E | E]; nia).
    repeat split; first [lia | apply Z.abs_lt; nia].
Qed.

(** C7.  An image the pipeline accepts has positive sides, and its
    normalized form fits the box of 1200 by 1200 pixels, is no larger than
    the input on either side, keeps the aspect ratio (the side that follows
    is within one pixel of the exact proportion), and is the input itself
    when the input already fits the box. *)
Theorem image_fits_box (buffer : option (Z * Z)) (ow oh : Z) :
  Part001.processImage buffer = Some (ow, oh) ->
  exists w h,
    buffer = Some (w, h) /\ 0 < w /\ 0 < h
    /\ 1 <= ow <= 1200 /\ 1 <= oh <= 1200
    /\ ow <= w /\ oh <= h
    /\ Z.abs (ow * h - oh * w) < Z.max w h
    /\ (w <= 1200 -> h <= 1200 -> (ow, oh) = (w, h)).
Proof.
  unfold Part001.processImage, Sharp.decode.
  destruct buffer as [[w h]|]; [|discriminate].
  destruct (Z.ltb_spec 0 w) as [Hw|]; [|discriminate].
  destruct (Z.ltb_spec 0 h) as [Hh|]; [|discriminate].
  cbn [andb Sharp.resize Sharp.fit_inside Sharp.withoutEnlargement negb].
  intros H. exists w, h. split; [reflexivity|]. split; [exact Hw|].
  split; [exact Hh|].
  destruct (Z.leb_spec (1200 * h) (1200 * w)) as [Hwide|Htall].
  - destruct (Z.leb_spec w 1200) as [Hin|Hout]; injection H as <- <-.
    + repeat split; first [lia | apply Z.abs_lt; nia].
    + destruct (scaled_side w h 1200 Hh ltac:(lia) Hout ltac:(lia))
        as (H1 & H2 & H3 & H4).
      repeat split; try lia.
      all: replace (Z.max w h) with w by lia; exact H4.
  - destruct (Z.leb_spec h 1200) as [Hin|Hout]; injection H as <- <-.
    + repeat split; first [lia | apply Z.abs_lt; nia].
    + destruct (scaled_side h w 1200 Hw ltac:(lia) Hout ltac:(lia))
        as (H1 & H2 & H3 & H4).
      repeat split; try lia.
      all: replace (Z.max w h) with h by lia; rewrite <- Z.abs_opp;
        replace (- (Z.max 1 (Sharp.round_div (w * 1200) h) * h - 1200 * w))
          with (1200 * w - Z.max 1 (Sharp.round_div (w * 1200) h) * h) by ring;
        exact H4.
Qed.

Lemma image_fits_box_witness :
  Part001.processImage (Some (4000, 3000)) = Some (1200, 900)
  /\ Part001.processImage (Some (5000, 1)) = Some (1200, 1)
  /\ Part001.processImage (Some (800, 600)) = Some (800, 600)
  /\ exists w h,
       Some (4000, 3000) = Some (w, h) /\ 0 < w /\ 0 < h
       /\ 1 <= 1200 <= 1200 /\ 1 <= 900 <= 1200
       /\ 1200 <= w /\ 900 <= h
       /\ Z.abs (1200 * h - 900 * w) < Z.max w h
       /\ (w <= 1200 -> h <= 1200 -> (1200, 900) = (w, h)).
Proof.
  split; [reflexivity|]. split; [reflexivity|]. split; [reflexivity|].
  exact (image_fits_box (Some (4000, 3000)) 1200 900 eq_refl).
Defined.

(** What the intake and the processing refuse. *)
Example refused_uploads :
  Part001.processImage None = None
  /\ Part001.processImage (Some (0, 10)) = None
  /\ fst (Part001.upload_single
            (Fixture.with_image
               (Some (Http.mkUpload "text/plain" 10 None)) Fixture.bare)
            Fixture.world)
     = inl (Http.Raised "Only image files are allowed!")
  /\ fst (Part001.upload_single
            (Fixture.with_image
               (Some (Http.mkUpload "image/png" (5 * 1024 * 1024 + 1)
                        (Some (10, 10)))) Fixture.bare)
            Fixture.world)
     = inl (Http.Raised "File too large").
Proof. repeat split. Qed.

(** A submission with a large photograph stores the normalized image under
    a fresh name and the row holds its public address. *)
Example submission_with_image :
  let req :=
    Fixture.with_image (Some (Http.mkUpload "image/png" 4096 (Some (4000, 3000))))
      (Fixture.broken_light None None) in
  let r := Part001.post_submit Fixture.secret JsonText.parse req Fixture.world in
  Store.bucket (snd r)
  = [ Store.mkObject "complaints/7.jpg" (800, 600);
      Store.mkObject "complaints/4.jpg" (1200, 900) ]
  /\ option_map Store.image_url (nth_error (Store.complaints (snd r)) 3)
     = Some (Some (Store.getPublicUrl "complaints/4.jpg")).
Proof. vm_compute. split; reflexivity. Qed.

(** * Further properties of the routes *)

(** ** Credentials at the gates *)

Lemma verified_header {codec : Jwt.Codec} (secret : string)
  (h : option string) (now : Z) (u : Jwt.Payload) :
  Jwt.verify h secret now = inr u ->
  exists t, h = Some t /\ t <> "" /\ Js.no_space t = true.
Proof.
  destruct h as [t|]; [|discriminate].
  intros Hv. destruct (verify_ok_compact secret t now u Hv) as [Hc Hne].
  exists t. repeat split; assumption.
Qed.

Lemma behind_authenticateToken {codec : Jwt.Codec} (secret : string)
  (h : Http.Handler) (req : Http.Request) (w : Store.World)
  (u : Jwt.Payload) :
  Jwt.verify (Http.authorization req) secret (Store.clock w) = inr u ->
  Http.app [IndexJs.authenticateToken secret] h req w
  = h (Http.with_user u (Http.incoming req)) w.
Proof.
  intros Hv. destruct (verified_header secret _ _ u Hv) as (t & Ht & Hne & _).
  rewrite route_authenticateToken, Hv, Ht, (absent_token t Hne). reflexivity.
Qed.

Lemma behind_authenticateAdmin {codec : Jwt.Codec} (secret : string)
  (h : Http.Handler) (req : Http.Request) (w : Store.World)
  (u : Jwt.Payload) :
  Jwt.verify (Http.authorization req) secret (Store.clock w) = inr u ->
  Js.truthy (Jwt.isAdmin u) = true ->
  Http.app [IndexJs.authenticateAdmin secret] h req w
  = h (Http.with_user u (Http.incoming req)) w.
Proof.
  intros Hv Ha. destruct (verified_header secret _ _ u Hv) as (t & Ht & Hne & _).
  rewrite route_authenticateAdmin, Hv, Ha, Ht, (absent_token t Hne).
  reflexivity.
Qed.

Lemma behind_isAdmin {codec : Jwt.Codec} (secret : string)
  (h : Http.Handler) (req : Http.Request) (w : Store.World)
  (u : Jwt.Payload) :
  Jwt.verify (Http.authorization req) secret (Store.clock w) = inr u ->
  Js.truthy (Jwt.isAdmin u) = true ->
  Http.app [AuthMiddleware.isAdmin secret] h req w
  = h (Http.with_user u (Http.incoming req)) w.
Proof.
  intros Hv Ha.
  destruct (verified_header secret _ _ u Hv) as (t & Ht & Hne & Hc).
  rewrite route_isAdmin, Ht, (bearer_plain t Hc), (absent_token t Hne).
  rewrite Ht in Hv. rewrite Hv, Ha. reflexivity.
Qed.

(** Every gate of the repository. *)
Definition all_gates {codec : Jwt.Codec} (secret : string)
  : list Http.Middleware :=
  [ IndexJs.authenticateToken secret;
    Part000.authenticateToken secret;
    Part001.authenticateToken secret;
    IndexJs.authenticateAdmin secret;
    Part000.authenticateAdmin secret;
    Part001.authenticateAdmin secret;
    AuthMiddleware.isAdmin secret ].

Lemma gate_cases {codec : Jwt.Codec} (secret : string)
  (gate : Http.Middleware) :
  In gate (all_gates secret) ->
  gate = IndexJs.authenticateToken secret
  \/ gate = IndexJs.authenticateAdmin secret
  \/ gate = AuthMiddleware.isAdmin secret.
Proof.
  cbn. intros [<- | [<- | [<- | [<- | [<- | [<- | [<- | []]]]]]]]; auto.
Qed.

(** A request without a credential (no header, or an empty one) is
    answered 401 by every gate, and a request whose header is not a token
    that verifies is answered 403 "Invalid token."; in both cases the
    handler behind the gate does not run and the world stays as it was. *)
Theorem gate_refuses_bad_credential {codec : Jwt.Codec} (secret : string)
  (gate : Http.Middleware) (h : Http.Handler) (req : Http.Request)
  (w : Store.World) :
  In gate (all_gates secret) ->
  (Http.absent (Http.authorization req) = true ->
   Http.app [gate] h req w
   = (sent 401 "Access denied. No token provided.", w))
  /\ (forall t e,
        Http.authorization req = Some t -> t <> "" ->
        Js.startsWith t "Bearer " = false ->
        Jwt.verify (Some t) secret (Store.clock w) = inl e ->
        Http.app [gate] h req w = (sent 403 "Invalid token.", w)).
Proof.
  intros Hin. destruct (gate_cases secret gate Hin) as [-> | [-> | ->]].
  - rewrite route_authenticateToken. split.
    + intros ->. reflexivity.
    + intros t e Ht Hne _ Hv. rewrite Ht, (absent_token t Hne), Hv. reflexivity.
  - rewrite route_authenticateAdmin. split.
    + intros ->. reflexivity.
    + intros t e Ht Hne _ Hv. rewrite Ht, (absent_token t Hne), Hv. reflexivity.
  - rewrite route_isAdmin. split.
    + intros ->. reflexivity.
    + intros t e Ht Hne Hb Hv. rewrite Ht, (absent_token t Hne).
      unfold bearer. rewrite Hb, Hv. reflexivity.
Qed.

Lemma gate_refuses_bad_credential_witness :
  (forall h : Http.Handler,
     Http.app [AuthMiddleware.isAdmin Fixture.secret] h
       (Http.with_authorization (Some "") Fixture.bare) Fixture.world
     = (sent 401 "Access denied. No token provided.", Fixture.world))
  /\ (forall h : Http.Handler,
        Http.app [Part001.authenticateToken Fixture.secret] h
          (Http.with_authorization (Some "not.a.token") Fixture.bare)
          Fixture.world
        = (sent 403 "Invalid token.", Fixture.world)).
Proof.
  split; intros h.
  - apply (proj1 (gate_refuses_bad_credential Fixture.secret
                    (AuthMiddleware.isAdmin Fixture.secret) h
                    (Http.with_authorization (Some "") Fixture.bare)
                    Fixture.world
                    ltac:(cbn; tauto))).
    reflexivity.
  - apply (proj2 (gate_refuses_bad_credential Fixture.secret
                    (Part001.authenticateToken Fixture.secret) h
                    (Http.with_authorization (Some "not.a.token") Fixture.bare)
                    Fixture.world
                    ltac:(cbn; tauto))
             "not.a.token" Jwt.JwtMalformed);
      [reflexivity | discriminate | reflexivity | vm_compute; reflexivity].
Defined.

(** ** Issued tokens at the gates *)

(** The token services of the three revisions. *)
Definition token_services {codec : Jwt.Codec} (secret : string)
  : list (Auth.User -> Z -> string) :=
  [ Part000.generateToken secret;
    IndexJs.generateToken secret;
    Part001.generateToken secret ].

(** A token issued for a user by any revision, presented bare, passes
    [authenticateToken] during the hour after its issue: the handler runs
    with a [req.user] that holds the id and the e-mail address of that
    user.  From the end of the hour on the answer is 403. *)
Theorem issued_token_authenticates {codec : Jwt.Codec} (secret : string)
  (issue : Auth.User -> Z -> string) (user : Auth.User) (issued : Z)
  (req : Http.Request) (w : Store.World) :
  In issue (token_services secret) ->
  Http.authorization req = Some (issue user issued) ->
  exists p,
    Jwt.id p = Auth.id user /\ Jwt.email p = Auth.email user
    /\ forall h : Http.Handler,
         Http.app [IndexJs.authenticateToken secret] h req w
         = if Store.clock w <? issued + 3600
           then h (Http.with_user p (Http.incoming req)) w
           else (sent 403 "Invalid token.", w).
Proof.
  intros Hin Ha.
  assert (H : exists p,
            Jwt.id p = Auth.id user /\ Jwt.email p = Auth.email user
            /\ issue user issued = Jwt.sign p secret issued).
  { cbn in Hin. destruct Hin as [<- | [<- | [<- | []]]];
      eexists; (split; [|split; [|reflexivity]]); reflexivity. }
  destruct H as (p & Hid & Hem & Hs). exists p. split; [exact Hid|].
  split; [exact Hem|]. intros h.
  pose proof (verify_sign secret p issued (Store.clock w)) as Hv.
  rewrite <- Hs, <- Ha in Hv.
  destruct (Store.clock w <? issued + 3600).
  - apply behind_authenticateToken. exact Hv.
  - rewrite route_authenticateToken, Hv.
    destruct (Http.absent (Http.authorization req)) eqn:Hab; [|reflexivity].
    rewrite Ha in Hab. cbn in Hab. apply String.eqb_eq in Hab.
    rewrite Ha, Hab in Hv. unfold Jwt.verify in Hv.
    rewrite Jwt.decode_empty in Hv. discriminate.
Qed.

Lemma issued_token_authenticates_witness :
  exists p,
    Jwt.id p = "u-bob"
    /\ forall h : Http.Handler,
         Http.app [IndexJs.authenticateToken Fixture.secret] h
           (Http.with_authorization
              (Some (IndexJs.generateToken Fixture.secret Fixture.bob 1000))
              Fixture.bare)
           Fixture.world
         = h (Http.with_user p
                (Http.incoming
                   (Http.with_authorization
                      (Some (IndexJs.generateToken Fixture.secret Fixture.bob 1000))
                      Fixture.bare)))
             Fixture.world.
Proof.
  destruct (issued_token_authenticates Fixture.secret
              (IndexJs.generateToken Fixture.secret) Fixture.bob 1000
              (Http.with_authorization
                 (Some (IndexJs.generateToken Fixture.secret Fixture.bob 1000))
                 Fixture.bare)
              Fixture.world ltac:(cbn; tauto) eq_refl) as (p & Hid & _ & Hp).
  exists p. split; [exact Hid | exact Hp].
Defined.

(** A token issued by the newest revision, presented bare during its
    hour, passes an admin gate exactly when the admin entry of the user's
    metadata is truthy: the gate tests the value and not its type, so that
    a non-empty string, a number other than zero, an array or an object
    opens it as [true] does, and the handler finds that value in
    [req.user.isAdmin].  Otherwise the answer is 403 "Access denied.
    Admins only." and the handler does not run. *)
Theorem issued_token_admin_access {codec : Jwt.Codec} (secret : string)
  (gate : Http.Middleware) (user : Auth.User) (issued : Z)
  (req : Http.Request) (w : Store.World) (h : Http.Handler) :
  In gate (admin_gates secret) ->
  Http.authorization req = Some (Part001.generateToken secret user issued) ->
  Store.clock w < issued + 3600 ->
  Http.app [gate] h req w
  = match Auth.metadata_admin user with
    | Some v =>
        if Js.truthy (Some v)
        then h (Http.with_user
                  (Jwt.mkPayload (Auth.email user) (Auth.id user) (Some v))
                  (Http.incoming req)) w
        else (sent 403 "Access denied. Admins only.", w)
    | None => (sent 403 "Access denied. Admins only.", w)
    end.
Proof.
  intros Hin Ha Hc.
  pose proof (verify_sign secret
                (Jwt.mkPayload (Auth.email user) (Auth.id user)
                   (Some (Js.or_else (Auth.metadata_admin user)
                            (Js.JBool false))))
                issued (Store.clock w)) as Hv.
  fold (Part001.generateToken secret user issued) in Hv.
  destruct (Z.ltb_spec (Store.clock w) (issued + 3600)); [|lia].
  rewrite <- Ha in Hv.
  destruct (verified_header secret _ _ _ Hv) as (t & Ht & Hne & Hcp).
  assert (Hg : gate = IndexJs.authenticateAdmin secret
               \/ gate = AuthMiddleware.isAdmin secret).
  { cbn in Hin. destruct Hin as [<- | [<- | [<- | [<- | []]]]]; auto. }
  assert (Hrole :
    forall k : Jwt.Payload -> Http.Outcome * Store.World,
      (let u := Jwt.mkPayload (Auth.email user) (Auth.id user)
                  (Some (Js.or_else (Auth.metadata_admin user)
                           (Js.JBool false))) in
       if Js.truthy (Jwt.isAdmin u) then k u
       else (sent 403 "Access denied. Admins only.", w))
      = match Auth.metadata_admin user with
        | Some v =>
            if Js.truthy (Some v)
            then k (Jwt.mkPayload (Auth.email user) (Auth.id user) (Some v))
            else (sent 403 "Access denied. Admins only.", w)
        | None => (sent 403 "Access denied. Admins only.", w)
        end).
  { intros k. cbv zeta. cbn [Jwt.isAdmin]. unfold Js.or_else.
    destruct (Auth.metadata_admin user) as [v|]; [|reflexivity].
    destruct (Js.truthy (Some v)) eqn:E; [rewrite E|]; reflexivity. }
  destruct Hg as [-> | ->].
  - rewrite route_authenticateAdmin, Hv, Ht, (absent_token t Hne).
    apply (Hrole (fun u => h (Http.with_user u (Http.incoming req)) w)).
  - rewrite route_isAdmin, Ht, (bearer_plain t Hcp), (absent_token t Hne).
    rewrite Ht in Hv. rewrite Hv.
    apply (Hrole (fun u => h (Http.with_user u (Http.incoming req)) w)).
Qed.

(** The word "no" in the metadata opens the gate. *)
Lemma issued_token_admin_access_witness :
  Auth.metadata_admin Fixture.carol = Some (Js.JStr "no")
  /\ Http.app [AuthMiddleware.isAdmin Fixture.secret]
       Part001.delete_admin_handler
       (Http.with_authorization (Some (Fixture.token_of Fixture.carol))
          Fixture.bare)
       Fixture.world
     = Part001.delete_admin_handler
         (Http.with_user
            (Jwt.mkPayload "carol@campus.org" "u-carol" (Some (Js.JStr "no")))
            (Http.incoming
               (Http.with_authorization
                  (Some (Fixture.token_of Fixture.carol)) Fixture.bare)))
         Fixture.world.
Proof.
  split; [reflexivity|].
  exact (issued_token_admin_access Fixture.secret
           (AuthMiddleware.isAdmin Fixture.secret) Fixture.carol 1000
           (Http.with_authorization (Some (Fixture.token_of Fixture.carol))
              Fixture.bare)
           Fixture.world Part001.delete_admin_handler
           (or_intror (or_intror (or_intror (or_introl eq_refl))))
           eq_refl eq_refl).
Defined.

(** No token that index.js or the oldest revision issues opens an admin
    gate, whatever the metadata of the user: the answer is 403. *)
Theorem old_tokens_never_admin {codec : Jwt.Codec} (secret : string)
  (issue : Auth.User -> Z -> string) (gate : Http.Middleware)
  (user : Auth.User) (issued : Z) (req : Http.Request) (w : Store.World)
  (h : Http.Handler) :
  issue = IndexJs.generateToken secret \/ issue = Part000.generateToken secret ->
  In gate (admin_gates secret) ->
  Http.authorization req = Some (issue user issued) ->
  Http.app [gate] h req w
  = (sent 403 (if Store.clock w <? issued + 3600
               then "Access denied. Admins only."
               else "Invalid token."), w).
Proof.
  intros Hi Hin Ha.
  assert (Hs : issue user issued
               = Jwt.sign (Jwt.mkPayload (Auth.email user) (Auth.id user) None)
                   secret issued).
  { destruct Hi as [-> | ->]; reflexivity. }
  pose proof (verify_sign secret
                (Jwt.mkPayload (Auth.email user) (Auth.id user) None)
                issued (Store.clock w)) as Hv.
  rewrite <- Hs in Hv.
  assert (Hne : issue user issued <> "").
  { intros E. rewrite E in Hs. unfold Jwt.sign in Hs.
    pose proof (Jwt.decode_encode
                  {| Jwt.payload :=
                       Jwt.mkPayload (Auth.email user) (Auth.id user) None;
                     Jwt.iat := issued; Jwt.exp := issued + 3600;
                     Jwt.key := secret |}) as Hd.
    rewrite <- Hs, Jwt.decode_empty in Hd. discriminate. }
  assert (Hcp : Js.no_space (issue user issued) = true).
  { rewrite Hs. unfold Jwt.sign.
    apply (Jwt.decode_compact _ _ (Jwt.decode_encode _)). }
  assert (Hg : gate = IndexJs.authenticateAdmin secret
               \/ gate = AuthMiddleware.isAdmin secret).
  { cbn in Hin. destruct Hin as [<- | [<- | [<- | [<- | []]]]]; auto. }
  destruct Hg as [-> | ->].
  - rewrite route_authenticateAdmin, Ha, (absent_token _ Hne), Hv.
    destruct (Store.clock w <? issued + 3600); reflexivity.
  - rewrite route_isAdmin, Ha, (bearer_plain _ Hcp), (absent_token _ Hne), Hv.
    destruct (Store.clock w <? issued + 3600); reflexivity.
Qed.

Lemma old_tokens_never_admin_witness :
  Http.app [IndexJs.authenticateAdmin Fixture.secret] IndexJs.put_status_handler
    (Http.with_authorization
       (Some (IndexJs.generateToken Fixture.secret Fixture.root 1000))
       Fixture.bare)
    Fixture.world
  = (sent 403 "Access denied. Admins only.", Fixture.world).
Proof.
  exact (old_tokens_never_admin Fixture.secret
           (IndexJs.generateToken Fixture.secret)
           (IndexJs.authenticateAdmin Fixture.secret) Fixture.root 1000
           (Http.with_authorization
              (Some (IndexJs.generateToken Fixture.secret Fixture.root 1000))
              Fixture.bare)
           Fixture.world IndexJs.put_status_handler (or_introl eq_refl) (or_introl eq_refl) eq_refl).
Defined.

(** ** What the [isAdmin] middleware takes for the token *)

Lemma split_first_piece (t rest : string) :
  Js.no_space t = true ->
  Js.split " " (t ++ String " " rest) = t :: Js.split " " rest.
Proof.
  induction t as [|c r IH]; [reflexivity|].
  cbn [Js.no_space append Js.split]. intros H.
  apply andb_prop in H as [Hc Hr].
  destruct (Ascii.eqb c " "); [discriminate|].
  rewrite (IH Hr). reflexivity.
Qed.

(** After "Bearer " the [isAdmin] middleware reads up to the next blank
    only: a valid admin token followed by a blank and any text is let
    through as that token.  The prefix is matched with its capital letter:
    "bearer " before the same token is answered 403. *)
Theorem bearer_reads_one_word {codec : Jwt.Codec} (secret t : string)
  (u : Jwt.Payload) (rest : string) (req : Http.Request) (w : Store.World) :
  Jwt.verify (Some t) secret (Store.clock w) = inr u ->
  Js.truthy (Jwt.isAdmin u) = true ->
  let padded :=
    Http.with_authorization (Some ("Bearer " ++ t ++ String " " rest)) req in
  let lower := Http.with_authorization (Some ("bearer " ++ t)) req in
  AuthMiddleware.isAdmin secret padded w = (inr (Http.with_user u padded), w)
  /\ AuthMiddleware.isAdmin secret lower w = (reject 403 "Invalid token.", w).
Proof.
  intros Hv Ha padded lower.
  destruct (verify_ok_compact secret t _ u Hv) as [Hc Hne].
  rewrite !isAdmin_run.
  cbn [Http.authorization padded lower Http.with_authorization].
  split.
  - replace (Http.absent (Some ("Bearer " ++ t ++ String " " rest)))
      with false by reflexivity.
    assert (Hb : bearer (Some ("Bearer " ++ t ++ String " " rest)) = Some t).
    { unfold bearer.
      replace (Js.startsWith ("Bearer " ++ t ++ String " " rest) "Bearer ")
        with true by reflexivity.
      cbn [append Js.split Ascii.eqb Bool.eqb].
      cbn. rewrite (split_first_piece t rest Hc). reflexivity. }
    rewrite Hb, Hv, Ha. reflexivity.
  - replace (Http.absent (Some ("bearer " ++ t))) with false by reflexivity.
    assert (Hb : bearer (Some ("bearer " ++ t)) = Some ("bearer " ++ t))
      by reflexivity.
    rewrite Hb, (verify_blank secret ("bearer " ++ t) (Store.clock w) eq_refl).
    reflexivity.
Qed.

Lemma bearer_reads_one_word_witness :
  AuthMiddleware.isAdmin Fixture.secret
    (Http.with_authorization
       (Some ("Bearer " ++ Fixture.token_of Fixture.root ++ " and more"))
       Fixture.bare)
    Fixture.world
  = (inr (Http.with_user (Jwt.mkPayload "root@campus.org" "u-root" (Some (Js.JBool true)))
            (Http.with_authorization
               (Some ("Bearer " ++ Fixture.token_of Fixture.root ++ " and more"))
               Fixture.bare)),
     Fixture.world).
Proof.
  assert (Hv : Jwt.verify (Some (Fixture.token_of Fixture.root)) Fixture.secret
                 (Store.clock Fixture.world)
               = inr (Jwt.mkPayload "root@campus.org" "u-root" (Some (Js.JBool true))))
    by (vm_compute; reflexivity).
  exact (proj1 (bearer_reads_one_word Fixture.secret
                  (Fixture.token_of Fixture.root) _ "and more" Fixture.bare
                  Fixture.world Hv eq_refl)).
Defined.

(** ** Upvotes *)

Lemma upvoted_ids (i : string) (n : Z) (l : list Store.Complaint) :
  map Store.id (upvoted i n l) = map Store.id l.
Proof.
  induction l as [|c r IH]; [reflexivity|].
  cbn [upvoted map]. fold (upvoted i n r). rewrite IH.
  destruct (Store.eq_id i c); reflexivity.
Qed.

Lemma upvoted_row (c : Store.Complaint) (n : Z) (l : list Store.Complaint) :
  In c l -> In (IndexJs.set_upvotes n c) (upvoted (Store.id c) n l).
Proof.
  intros Hin. unfold upvoted. apply in_map_iff. exists c.
  split; [|exact Hin].
  unfold Store.eq_id. rewrite String.eqb_refl. reflexivity.
Qed.

(** The count a complaint shows: a null column counts as zero. *)
Definition shown_upvotes (c : Store.Complaint) : Z :=
  match Store.upvotes c with
  | Some n => n
  | None => 0
  end.

(** An integer of the safe range is held by a double as it is. *)
Lemma double_exact (z : Z) :
  Z.abs z <= Js.MAX_SAFE_INTEGER -> Js.double z = z.
Proof.
  unfold Js.MAX_SAFE_INTEGER, Js.double. intros H. cbv zeta.
  destruct (Z.leb_spec (Z.log2 (Z.abs z) - 52) 0) as [_|He]; [reflexivity|].
  exfalso.
  destruct (Z.eq_dec (Z.abs z) 0) as [E|E].
  - rewrite E in He. cbn in He. lia.
  - assert (Hlt : Z.abs z < 2 ^ 53) by lia.
    apply Z.log2_lt_pow2 in Hlt; lia.
Qed.

Lemma next_upvotes_shown (c : Store.Complaint) :
  Z.abs (shown_upvotes c) + 1 <= Js.MAX_SAFE_INTEGER ->
  IndexJs.next_upvotes (Store.upvotes c) = shown_upvotes c + 1.
Proof.
  unfold IndexJs.next_upvotes, shown_upvotes. intros H.
  destruct (Store.upvotes c) as [n|].
  - rewrite (double_exact n) by lia.
    destruct (Z.eqb_spec n 0); [subst|]; apply double_exact; lia.
  - apply double_exact. lia.
Qed.

(** Two upvotes in a row, by any holder of a valid token and with a store
    that answers, raise the count of the complaint named by two (a null
    count is taken for zero) as long as the counts stay in the range in
    which a JavaScript number holds every integer, up to
    [Number.MAX_SAFE_INTEGER] in magnitude; the second answer shows that
    count, and no other row changes. *)
Theorem two_upvotes_add_two {codec : Jwt.Codec} (secret : string)
  (u : Jwt.Payload) (req : Http.Request) (w : Store.World)
  (c : Store.Complaint) :
  Jwt.verify (Http.authorization req) secret (Store.clock w) = inr u ->
  keyed w -> In c (Store.complaints w) -> Store.id c = Http.param_id req ->
  Store.faults w = [] ->
  Z.abs (shown_upvotes c) + 2 <= Js.MAX_SAFE_INTEGER ->
  let once := Part001.post_upvote secret req w in
  let twice := Part001.post_upvote secret req (snd once) in
  let final := IndexJs.set_upvotes (shown_upvotes c + 2) c in
  fst twice = Http.Sent (Http.mkResponse 200 (Http.Row final))
  /\ In final (Store.complaints (snd twice))
  /\ map Store.id (Store.complaints (snd twice))
     = map Store.id (Store.complaints w)
  /\ forall x, In x (Store.complaints w) -> Store.id x <> Store.id c ->
               In x (Store.complaints (snd twice)).
Proof.
  intros Hv Hk Hin Hid Hf Hsafe once twice final.
  destruct (verified_header secret _ _ u Hv) as (t & Ht & _ & _).
  rewrite Ht in Hv.
  assert (H1 : once
               = (Http.Sent (Http.mkResponse 200
                    (Http.Row (IndexJs.set_upvotes (shown_upvotes c + 1) c))),
                  Store.with_complaints
                    (upvoted (Http.param_id req) (shown_upvotes c + 1)
                       (Store.complaints w)) w)).
  { subst once. rewrite <- next_upvotes_shown by lia.
    apply (upvote_by_anyone secret t u req w c); assumption. }
  set (c1 := IndexJs.set_upvotes (shown_upvotes c + 1) c) in *.
  set (w1 := Store.with_complaints
               (upvoted (Http.param_id req) (shown_upvotes c + 1)
                  (Store.complaints w)) w) in *.
  assert (Hk1 : keyed w1).
  { unfold keyed, w1. cbn [Store.complaints Store.with_complaints].
    rewrite upvoted_ids. exact Hk. }
  assert (Hin1 : In c1 (Store.complaints w1)).
  { unfold w1, c1. cbn [Store.complaints Store.with_complaints].
    rewrite <- Hid. apply upvoted_row. exact Hin. }
  assert (H2 : twice
               = (Http.Sent (Http.mkResponse 200
                    (Http.Row (IndexJs.set_upvotes (shown_upvotes c1 + 1) c1))),
                  Store.with_complaints
                    (upvoted (Http.param_id req) (shown_upvotes c1 + 1)
                       (Store.complaints w1)) w1)).
  { subst twice. rewrite H1. cbn [snd].
    rewrite <- next_upvotes_shown
      by (unfold c1, shown_upvotes in *; cbn [Store.upvotes IndexJs.set_upvotes];
          lia).
    apply (upvote_by_anyone secret t u req w1 c1); assumption. }
  assert (Hfinal : IndexJs.set_upvotes (shown_upvotes c1 + 1) c1 = final).
  { unfold final, c1, IndexJs.set_upvotes, shown_upvotes.
    cbn [Store.upvotes Store.id Store.user_id Store.title Store.description
         Store.status Store.tags Store.image_url Store.assigned_to
         Store.admin_comments Store.created_at].
    f_equal. f_equal. lia. }
  rewrite H2, Hfinal. cbn [fst snd Store.complaints Store.with_complaints].
  split; [reflexivity|]. split; [|split].
  - rewrite <- Hfinal.
    replace (Http.param_id req) with (Store.id c1) by exact Hid.
    apply upvoted_row. exact Hin1.
  - rewrite upvoted_ids. unfold w1.
    cbn [Store.complaints Store.with_complaints]. apply upvoted_ids.
  - intros x Hx Hne.
    assert (Hkeep : forall n l, In x l -> In x (upvoted (Http.param_id req) n l)).
    { intros n l Hl. unfold upvoted. apply in_map_iff. exists x.
      split; [|exact Hl]. unfold Store.eq_id.
      destruct (String.eqb_spec (Store.id x) (Http.param_id req)) as [E|E];
        [|reflexivity].
      exfalso. apply Hne. rewrite E, Hid. reflexivity. }
    apply Hkeep. unfold w1. cbn [Store.complaints Store.with_complaints].
    apply Hkeep. exact Hx.
Qed.

Lemma two_upvotes_add_two_witness :
  let req :=
    Fixture.with_param "2"
      (Http.with_authorization (Some (Fixture.token_of Fixture.bob))
         Fixture.bare) in
  fst (Part001.post_upvote Fixture.secret req
         (snd (Part001.post_upvote Fixture.secret req Fixture.world)))
  = Http.Sent (Http.mkResponse 200
      (Http.Row (Fixture.row "2" "u-alice" ["canteen"]
                   (Some (Store.getPublicUrl "complaints/7.jpg")) (Some 2)
                   1200))).
Proof.
  cbv zeta.
  assert (Hv : Jwt.verify (Some (Fixture.token_of Fixture.bob)) Fixture.secret
                 (Store.clock Fixture.world)
               = inr (Jwt.mkPayload "bob@campus.org" "u-bob" (Some (Js.JBool false))))
    by (vm_compute; reflexivity).
  refine (proj1 (two_upvotes_add_two Fixture.secret _
                   (Fixture.with_param "2"
                      (Http.with_authorization
                         (Some (Fixture.token_of Fixture.bob)) Fixture.bare))
                   Fixture.world
                   (Fixture.row "2" "u-alice" ["canteen"]
                      (Some (Store.getPublicUrl "complaints/7.jpg")) None 1200)
                   Hv _ _ eq_refl eq_refl _)).
  - unfold keyed. cbn. repeat constructor; cbn; intuition discriminate.
  - cbn. right. left. reflexivity.
  - vm_compute. discriminate.
Defined.

(** From 2^53 on the sum is rounded: there an upvote leaves the count
    where it is. *)
Example upvote_beyond_the_safe_range :
  IndexJs.next_upvotes (Some (2 ^ 53)) = 2 ^ 53
  /\ IndexJs.next_upvotes (Some (2 ^ 53 - 1)) = 2 ^ 53.
Proof. split; vm_compute; reflexivity. Qed.

(** An upvote that names no complaint, or meets a store that does not
    answer the lookup, is answered 404 "Complaint not found" and writes
    nothing. *)
Theorem upvote_of_missing_complaint {codec : Jwt.Codec} (secret : string)
  (u : Jwt.Payload) (req : Http.Request) (w : Store.World) :
  Jwt.verify (Http.authorization req) secret (Store.clock w) = inr u ->
  next_fails w = true
  \/ ~ In (Http.param_id req) (map Store.id (Store.complaints w)) ->
  forall route,
    route = IndexJs.post_upvote secret \/ route = Part001.post_upvote secret ->
    route req w = (sent 404 "Complaint not found", after_call w).
Proof.
  intros Hv Hm route Hr.
  assert (Hr' : route = Http.app [IndexJs.authenticateToken secret]
                          IndexJs.post_upvote_handler).
  { destruct Hr as [-> | ->]; reflexivity. }
  subst route. rewrite (behind_authenticateToken secret _ req w u Hv).
  rewrite post_upvote_handler_run.
  cbn [Http.param_id Http.with_user Http.incoming].
  destruct (next_fails w); [reflexivity|].
  destruct Hm as [Hm | Hm]; [discriminate|].
  rewrite (filter_eq_id_absent _ _ Hm). reflexivity.
Qed.

Lemma upvote_of_missing_complaint_witness :
  IndexJs.post_upvote Fixture.secret
    (Fixture.with_param "99"
       (Http.with_authorization (Some (Fixture.token_of Fixture.bob))
          Fixture.bare))
    Fixture.world
  = (sent 404 "Complaint not found", after_call Fixture.world).
Proof.
  assert (Hv : Jwt.verify (Some (Fixture.token_of Fixture.bob)) Fixture.secret
                 (Store.clock Fixture.world)
               = inr (Jwt.mkPayload "bob@campus.org" "u-bob" (Some (Js.JBool false))))
    by (vm_compute; reflexivity).
  refine (upvote_of_missing_complaint Fixture.secret _
            (Fixture.with_param "99"
               (Http.with_authorization (Some (Fixture.token_of Fixture.bob))
                  Fixture.bare))
            Fixture.world Hv (or_intror _) (IndexJs.post_upvote Fixture.secret)
            (or_introl eq_refl)).
  cbn. intuition discriminate.
Defined.

(** ** Removing an image, step by step *)

Lemma storage_remove_run (name : string) (w : Store.World) :
  Store.storage_remove name w
  = if next_fails w then (Store.Error Store.unreachable, after_call w)
    else (Store.Data tt,
          Store.with_bucket
            (filter (fun o => negb (Store.path o =? name)%string)
                    (Store.bucket w))
            (after_call w)).
Proof.
  unfold Store.storage_remove. rewrite call_run.
  destruct (next_fails w); reflexivity.
Qed.

Lemma split_not_nil (sep : ascii) (s : string) : Js.split sep s <> [].
Proof.
  destruct s as [|c r]; cbn; [discriminate|].
  destruct (Ascii.eqb c sep); [discriminate|].
  destruct (Js.split sep r); discriminate.
Qed.

Lemma pop_some (l : list string) : l <> [] -> exists x, Js.pop l = Some x.
Proof.
  intros H. unfold Js.pop. destruct (rev l) as [|x r] eqn:E.
  - exfalso. apply H. apply (f_equal (@rev string)) in E.
    rewrite rev_involutive in E. exact E.
  - exists x. reflexivity.
Qed.

(** The file name the route takes from a stored address. *)
Definition file_of (url : string) : string :=
  match Js.pop (Js.split "/" url) with
  | Some f => f
  | None => ""
  end.

Lemma pop_file_of (url : string) :
  Js.pop (Js.split "/" url) = Some (file_of url).
Proof.
  unfold file_of.
  destruct (pop_some (Js.split "/" url) (split_not_nil _ _)) as [f ->].
  reflexivity.
Qed.

(** The rows named [i] without their image address. *)
Definition unlinked (i : string) (l : list Store.Complaint)
  : list Store.Complaint :=
  map (fun c => if Store.eq_id i c then Part001.clear_image_url c else c) l.

(** The bucket without the objects named [complaints/f]. *)
Definition without_object (f : string) (b : list Store.Object)
  : list Store.Object :=
  filter (fun o => negb (Store.path o =? "complaints/" ++ f)%string) b.

Lemma delete_image_of_owner {codec : Jwt.Codec} (secret : string)
  (u : Jwt.Payload) (req : Http.Request) (w : Store.World)
  (c : Store.Complaint) :
  Jwt.verify (Http.authorization req) secret (Store.clock w) = inr u ->
  keyed w -> In c (Store.complaints w) -> Store.id c = Http.param_id req ->
  Store.user_id c = Jwt.id u ->
  next_fails w = false ->
  Part001.delete_image secret req w
  = match Store.image_url c with
    | Some url =>
        if (url =? "")%string
        then (sent 200 "Image deleted successfully", after_call w)
        else
          if next_fails (after_call w)
          then (sent 500 "Error deleting image", after_call (after_call w))
          else
            let w2 :=
              Store.with_bucket (without_object (file_of url) (Store.bucket w))
                (after_call (after_call w)) in
            if next_fails w2
            then (sent 500 "Error updating complaint", after_call w2)
            else (sent 200 "Image deleted successfully",
                  Store.with_complaints
                    (unlinked (Http.param_id req) (Store.complaints w))
                    (after_call w2))
    | None => (sent 200 "Image deleted successfully", after_call w)
    end.
Proof.
  intros Hv Hk Hin Hid Ho Hf.
  unfold Part001.delete_image, Part001.authenticateToken.
  rewrite (behind_authenticateToken secret _ req w u Hv).
  unfold Part001.delete_image_handler.
  cbn [Http.user Http.with_user Http.param_id Http.incoming].
  unfold Store.bind. rewrite select_single_run, Hf, <- Hid.
  rewrite (filter_eq_id_keyed c _ Hk Hin).
  unfold Part001.differs. rewrite Ho, String.eqb_refl. cbn [negb].
  destruct (Store.image_url c) as [url|]; [|reflexivity].
  destruct (url =? "")%string; [reflexivity|].
  rewrite pop_file_of, storage_remove_run.
  destruct (next_fails (after_call w)); [reflexivity|].
  rewrite update_run. cbv zeta.
  unfold next_fails, after_call, without_object, unlinked.
  cbn [Store.faults Store.with_bucket Store.complaints Store.bucket
       Store.clock Store.serial].
  destruct (hd false (tl (tl (Store.faults w)))); reflexivity.
Qed.

(** When the owner removes the image of her complaint and the store
    answers, the answer is 200, the objects stored under the file name of
    the address are gone from the bucket, the complaint holds no address any
    more, and every other row is as before. *)
Theorem image_removal_clears {codec : Jwt.Codec} (secret : string)
  (u : Jwt.Payload) (req : Http.Request) (w : Store.World)
  (c : Store.Complaint) (url : string) :
  Jwt.verify (Http.authorization req) secret (Store.clock w) = inr u ->
  keyed w -> In c (Store.complaints w) -> Store.id c = Http.param_id req ->
  Store.user_id c = Jwt.id u ->
  Store.image_url c = Some url -> url <> "" ->
  Store.faults w = [] ->
  let r := Part001.delete_image secret req w in
  fst r = sent 200 "Image deleted successfully"
  /\ Store.bucket (snd r) = without_object (file_of url) (Store.bucket w)
  /\ (forall o, In o (Store.bucket (snd r)) ->
                Store.path o <> "complaints/" ++ file_of url)
  /\ In (Part001.clear_image_url c) (Store.complaints (snd r))
  /\ forall x, In x (Store.complaints w) -> Store.id x <> Store.id c ->
               In x (Store.complaints (snd r)).
Proof.
  intros Hv Hk Hin Hid Ho Hu Hne Hf r.
  assert (Hnf : next_fails w = false) by (unfold next_fails; rewrite Hf; reflexivity).
  assert (Hr : r = (sent 200 "Image deleted successfully",
                    Store.with_complaints
                      (unlinked (Http.param_id req) (Store.complaints w))
                      (Store.with_bucket
                         (without_object (file_of url) (Store.bucket w)) w))).
  { subst r. rewrite (delete_image_of_owner secret u req w c Hv Hk Hin Hid Ho Hnf).
    rewrite Hu. destruct (String.eqb_spec url ""); [contradiction|].
    unfold next_fails, after_call.
    cbn [Store.faults Store.with_bucket Store.complaints Store.bucket
         Store.clock Store.serial].
    rewrite Hf. cbn [hd tl]. destruct w; cbn in *; subst. reflexivity. }
  rewrite Hr. cbn [fst snd Store.bucket Store.complaints Store.with_complaints
                   Store.with_bucket].
  split; [reflexivity|]. split; [reflexivity|]. split; [|split].
  - intros o Hi. apply filter_In in Hi as [_ Hi].
    apply negb_true_iff in Hi. apply String.eqb_neq. exact Hi.
  - unfold unlinked. apply in_map_iff. exists c. split; [|exact Hin].
    unfold Store.eq_id. rewrite Hid, String.eqb_refl. reflexivity.
  - intros x Hx Hxn. unfold unlinked. apply in_map_iff. exists x.
    split; [|exact Hx]. unfold Store.eq_id.
    destruct (String.eqb_spec (Store.id x) (Http.param_id req)) as [E|E];
      [|reflexivity].
    exfalso. apply Hxn. rewrite E, Hid. reflexivity.
Qed.

Definition alice_removes : Http.Request :=
  Fixture.with_param "2"
    (Http.with_authorization (Some (Fixture.token_of Fixture.alice))
       Fixture.bare).

Lemma alice_verifies :
  Jwt.verify (Http.authorization alice_removes) Fixture.secret
    (Store.clock Fixture.world)
  = inr (Jwt.mkPayload "alice@campus.org" "u-alice" (Some (Js.JBool false))).
Proof. vm_compute. reflexivity. Qed.

Lemma fixture_keyed : keyed Fixture.world.
Proof. unfold keyed. cbn. repeat constructor; cbn; intuition discriminate. Qed.

Lemma image_removal_clears_witness :
  Store.bucket (snd (Part001.delete_image Fixture.secret alice_removes
                       Fixture.world))
  = without_object "7.jpg" (Store.bucket Fixture.world).
Proof.
  refine (proj1 (proj2
    (image_removal_clears Fixture.secret _ alice_removes Fixture.world
       (Fixture.row "2" "u-alice" ["canteen"]
          (Some (Store.getPublicUrl "complaints/7.jpg")) None 1200)
       (Store.getPublicUrl "complaints/7.jpg")
       alice_verifies fixture_keyed _ eq_refl eq_refl eq_refl _ eq_refl))).
  - cbn. right. left. reflexivity.
  - discriminate.
Defined.

(** The two writes of an image removal are separate calls.  When the
    removal from the bucket fails, the answer is 500 and nothing has
    changed; when it succeeds and the update of the row fails, the answer is
    500 "Error updating complaint", the object is gone and the row still
    holds its address. *)
Theorem image_removal_is_not_atomic {codec : Jwt.Codec} (secret : string)
  (u : Jwt.Payload) (req : Http.Request) (w : Store.World)
  (c : Store.Complaint) (url : string) (rest : list bool) :
  Jwt.verify (Http.authorization req) secret (Store.clock w) = inr u ->
  keyed w -> In c (Store.complaints w) -> Store.id c = Http.param_id req ->
  Store.user_id c = Jwt.id u ->
  Store.image_url c = Some url -> url <> "" ->
  (Store.faults w = false :: true :: rest ->
   Part001.delete_image secret req w
   = (sent 500 "Error deleting image",
      Store.mkWorld (Store.complaints w) (Store.bucket w) rest
        (Store.clock w) (Store.serial w)))
  /\ (Store.faults w = false :: false :: true :: rest ->
      Part001.delete_image secret req w
      = (sent 500 "Error updating complaint",
         Store.mkWorld (Store.complaints w)
           (without_object (file_of url) (Store.bucket w)) rest
           (Store.clock w) (Store.serial w))).
Proof.
  intros Hv Hk Hin Hid Ho Hu Hne.
  split; intros Hf;
    (assert (Hnf : next_fails w = false)
       by (unfold next_fails; rewrite Hf; reflexivity));
    rewrite (delete_image_of_owner secret u req w c Hv Hk Hin Hid Ho Hnf), Hu;
    (destruct (String.eqb_spec url ""); [contradiction|]);
    unfold next_fails, after_call;
    cbn [Store.faults Store.with_bucket Store.complaints Store.bucket
         Store.clock Store.serial];
    rewrite Hf; reflexivity.
Qed.

Lemma image_removal_is_not_atomic_witness :
  let w :=
    Store.mkWorld (Store.complaints Fixture.world) (Store.bucket Fixture.world)
      [false; false; true] 1600 4 in
  Part001.delete_image Fixture.secret alice_removes w
  = (sent 500 "Error updating complaint",
     Store.mkWorld (Store.complaints Fixture.world) [] [] 1600 4).
Proof.
  cbv zeta.
  refine (proj2
    (image_removal_is_not_atomic Fixture.secret _ alice_removes
       (Store.mkWorld (Store.complaints Fixture.world)
          (Store.bucket Fixture.world) [false; false; true] 1600 4)
       (Fixture.row "2" "u-alice" ["canteen"]
          (Some (Store.getPublicUrl "complaints/7.jpg")) None 1200)
       (Store.getPublicUrl "complaints/7.jpg") []
       alice_verifies fixture_keyed _ eq_refl eq_refl eq_refl _) eq_refl).
  - cbn. right. left. reflexivity.
  - discriminate.
Defined.

(** Removing the image of one's complaint that has none (a null or empty
    address) is answered 200 after the lookup alone: neither the bucket nor
    the table is written. *)
Theorem image_removal_without_image {codec : Jwt.Codec} (secret : string)
  (u : Jwt.Payload) (req : Http.Request) (w : Store.World)
  (c : Store.Complaint) :
  Jwt.verify (Http.authorization req) secret (Store.clock w) = inr u ->
  keyed w -> In c (Store.complaints w) -> Store.id c = Http.param_id req ->
  Store.user_id c = Jwt.id u ->
  Store.image_url c = None \/ Store.image_url c = Some "" ->
  next_fails w = false ->
  Part001.delete_image secret req w
  = (sent 200 "Image deleted successfully", after_call w).
Proof.
  intros Hv Hk Hin Hid Ho Hu Hf.
  rewrite (delete_image_of_owner secret u req w c Hv Hk Hin Hid Ho Hf).
  destruct Hu as [-> | ->]; reflexivity.
Qed.

Lemma image_removal_without_image_witness :
  Part001.delete_image Fixture.secret
    (Fixture.with_param "1" alice_removes) Fixture.world
  = (sent 200 "Image deleted successfully", after_call Fixture.world).
Proof.
  refine (image_removal_without_image Fixture.secret _
            (Fixture.with_param "1" alice_removes) Fixture.world
            (Fixture.row "1" "u-alice" ["electricity"] None (Some 0) 1100)
            alice_verifies fixture_keyed _ eq_refl eq_refl (or_introl eq_refl)
            eq_refl).
  cbn. left. reflexivity.
Defined.

(** ** Submitting a complaint with an image *)

Definition decimal (n : nat) : string :=
  NilZero.string_of_uint (Nat.to_uint n).

(** The object name and the row of a submission with an image, in a world
    whose next fresh name is [decimal (serial w)]. *)
Definition image_name (w : Store.World) : string :=
  "complaints/" ++ decimal (Store.serial w) ++ ".jpg".

Definition image_row (w : Store.World) (u : Jwt.Payload) (t d : Js.json)
  (tg : list Js.json) : Store.Complaint :=
  Store.mkComplaint (decimal (S (Store.serial w))) (Jwt.id u) t d
    (Js.JStr "pending") tg (Some (Store.getPublicUrl (image_name w)))
    None None None (Store.clock w).

Section ImageSubmission.
Context {codec : Jwt.Codec}.
Variables (secret : string) (JSON_parse : string -> option Js.json).
Variables (req : Http.Request) (w : Store.World) (u : Jwt.Payload).
Variables (f : Http.Upload) (tj dj : Js.json) (l : list Js.json).
Hypothesis Hv :
  Jwt.verify (Http.authorization req) secret (Store.clock w) = inr u.
Hypothesis Hi : Http.image req = Some f.

Lemma submit_with_upload :
  Part001.post_submit secret JSON_parse req w
  = if negb (Js.startsWith (Http.mimetype f) "image/")
    then (Http.Raised "Only image files are allowed!", w)
    else if 5 * 1024 * 1024 <? Http.size f
    then (Http.Raised "File too large", w)
    else Part001.post_submit_handler JSON_parse
           (Http.with_file (Some f) (Http.with_user u (Http.incoming req))) w.
Proof.
  destruct (verified_header secret _ _ u Hv) as (t & Ht & Hne & _).
  rewrite route_submit_001, Hv, Hi, Ht, (absent_token t Hne). reflexivity.
Qed.

(** A submission whose image part is no image, or is above five
    mebibytes, ends with an error handed to Express before the handler
    runs: no object and no row is stored, whatever the rest of the form. *)
Theorem refused_upload_stores_nothing :
  accepted (Some f) = false ->
  exists e,
    Part001.post_submit secret JSON_parse req w = (Http.Raised e, w)
    /\ (e = "Only image files are allowed!" \/ e = "File too large").
Proof.
  unfold accepted. intros Ha. rewrite submit_with_upload.
  destruct (Js.startsWith (Http.mimetype f) "image/"); cbn [negb andb] in *.
  - apply negb_false_iff in Ha. rewrite Ha. eexists. split; [reflexivity|].
    right. reflexivity.
  - eexists. split; [reflexivity|]. left. reflexivity.
Qed.

Hypothesis Ha : accepted (Some f) = true.
Hypothesis Ht : Http.title (Http.body req) = Some tj.
Hypothesis Htt : Js.truthy (Some tj) = true.
Hypothesis Hd : Http.description (Http.body req) = Some dj.
Hypothesis Hdt : Js.truthy (Some dj) = true.
Hypothesis Hl : tag_list JSON_parse (Http.tags (Http.body req)) = Some l.

Lemma submit_with_image_run :
  Part001.post_submit secret JSON_parse req w
  = match Part001.processImage (Http.buffer f) with
    | None =>
        (Http.Sent (Http.mkResponse 500
           (Http.MessageError "Error processing image"
              "Input buffer contains unsupported image format")), w)
    | Some dim =>
        let fresh1 :=
          Store.mkWorld (Store.complaints w) (Store.bucket w) (Store.faults w)
            (Store.clock w) (S (Store.serial w)) in
        if next_fails w
        then (Http.Sent (Http.mkResponse 500
                (Http.MessageError "Error processing image" Store.unreachable)),
              after_call fresh1)
        else if existsb (fun o => (Store.path o =? image_name w)%string)
                        (Store.bucket w)
        then (Http.Sent (Http.mkResponse 500
                (Http.MessageError "Error processing image" Store.duplicate)),
              after_call fresh1)
        else
          let stored :=
            (Store.bucket w ++ [Store.mkObject (image_name w) dim])%list in
          if hd false (tl (Store.faults w))
          then (Http.Sent (Http.mkResponse 500
                  (Http.MessageError "Error inserting complaint"
                     Store.unreachable)),
                Store.mkWorld (Store.complaints w) stored
                  (tl (tl (Store.faults w))) (Store.clock w)
                  (S (Store.serial w)))
          else
            let row := image_row w u tj dj (known_tags l) in
            (Http.Sent (Http.mkResponse 201
               (Http.Submitted "Complaint submitted successfully" (Some row))),
             Store.mkWorld (Store.complaints w ++ [row]) stored
               (tl (tl (Store.faults w))) (Store.clock w)
               (S (S (Store.serial w))))
    end.
Proof.
  rewrite submit_with_upload. unfold accepted in Ha.
  apply andb_prop in Ha as [Hm Hs]. apply negb_true_iff in Hs.
  rewrite Hm, Hs. cbn [negb].
  unfold Part001.post_submit_handler.
  cbn [Http.user Http.with_user Http.with_file Http.body Http.incoming
       Http.file].
  rewrite Ht, Hd, Htt, Hdt, parse_tags_spec, Hl. cbn [negb orb option_map].
  destruct (Part001.processImage (Http.buffer f)) as [dim|]; [|reflexivity].
  unfold Part001.uploadToStorage, Store.fresh, Store.bind. cbv beta iota.
  rewrite storage_upload_run.
  unfold next_fails at 1. cbn [Store.faults].
  fold (next_fails w). fold (decimal (Store.serial w)). fold (image_name w).
  destruct (next_fails w); [reflexivity|].
  cbn [Store.bucket].
  destruct (existsb _ (Store.bucket w)); [reflexivity|].
  cbv beta iota zeta. unfold Store.ret. rewrite insert_run.
  unfold next_fails, after_call, image_row.
  cbn [Store.faults Store.with_bucket Store.complaints Store.bucket
       Store.clock Store.serial].
  destruct (hd false (tl (Store.faults w))); reflexivity.
Qed.

(** An image part that multer lets through and sharp cannot decode gets
    500 "Error processing image"; nothing is stored and no call to the
    store is made. *)
Theorem undecodable_image_stores_nothing :
  Part001.processImage (Http.buffer f) = None ->
  Part001.post_submit secret JSON_parse req w
  = (Http.Sent (Http.mkResponse 500
       (Http.MessageError "Error processing image"
          "Input buffer contains unsupported image format")), w).
Proof. intros Hp. rewrite submit_with_image_run, Hp. reflexivity. Qed.

(** The upload and the insert are separate calls: when the object is
    stored and the insert of the row fails, the answer is 500 "Error
    inserting complaint", the table is as before and the object stays in
    the bucket. *)
Theorem failed_insert_leaves_object (dim : Z * Z) (rest : list bool) :
  Part001.processImage (Http.buffer f) = Some dim ->
  existsb (fun o => (Store.path o =? image_name w)%string) (Store.bucket w)
  = false ->
  Store.faults w = false :: true :: rest ->
  Part001.post_submit secret JSON_parse req w
  = (Http.Sent (Http.mkResponse 500
       (Http.MessageError "Error inserting complaint" Store.unreachable)),
     Store.mkWorld (Store.complaints w)
       (Store.bucket w ++ [Store.mkObject (image_name w) dim]) rest
       (Store.clock w) (S (Store.serial w))).
Proof.
  intros Hp He Hf. rewrite submit_with_image_run, Hp. cbv zeta.
  unfold next_fails. rewrite Hf, He. reflexivity.
Qed.

(** With a store that answers and no object of the fresh name in the
    bucket, the submission is answered 201; the bucket gains one object,
    which holds the processed image under the fresh name ending in .jpg,
    and the table gains one row, whose address is the public address of
    that object. *)
Theorem image_is_stored_with_row (dim : Z * Z) :
  Part001.processImage (Http.buffer f) = Some dim ->
  existsb (fun o => (Store.path o =? image_name w)%string) (Store.bucket w)
  = false ->
  Store.faults w = [] ->
  let row := image_row w u tj dj (known_tags l) in
  Part001.post_submit secret JSON_parse req w
  = (Http.Sent (Http.mkResponse 201
       (Http.Submitted "Complaint submitted successfully" (Some row))),
     Store.mkWorld (Store.complaints w ++ [row])
       (Store.bucket w ++ [Store.mkObject (image_name w) dim]) []
       (Store.clock w) (S (S (Store.serial w))))
  /\ Store.image_url row = Some (Store.getPublicUrl (image_name w))
  /\ Store.user_id row = Jwt.id u.
Proof.
  intros Hp He Hf row. rewrite submit_with_image_run, Hp. cbv zeta.
  unfold next_fails. rewrite Hf, He. cbn [hd tl]. repeat split.
Qed.

End ImageSubmission.

Definition photo : Http.Upload :=
  Http.mkUpload "image/png" 4096 (Some (4000, 3000)).

Definition with_photo (f : Http.Upload) : Http.Request :=
  Fixture.with_image (Some f) (Fixture.broken_light None None).

Lemma alice_submits (f : Http.Upload) :
  Jwt.verify (Http.authorization (with_photo f)) Fixture.secret
    (Store.clock Fixture.world)
  = inr (Jwt.mkPayload "alice@campus.org" "u-alice" (Some (Js.JBool false))).
Proof. vm_compute. reflexivity. Qed.

Lemma refused_upload_stores_nothing_witness :
  exists e,
    Part001.post_submit Fixture.secret JsonText.parse
      (with_photo (Http.mkUpload "application/pdf" 4096 None)) Fixture.world
    = (Http.Raised e, Fixture.world)
    /\ (e = "Only image files are allowed!" \/ e = "File too large").
Proof.
  exact (refused_upload_stores_nothing Fixture.secret JsonText.parse
           (with_photo (Http.mkUpload "application/pdf" 4096 None))
           Fixture.world _ _ (alice_submits _) eq_refl eq_refl).
Defined.

Lemma undecodable_image_stores_nothing_witness :
  Part001.post_submit Fixture.secret JsonText.parse
    (with_photo (Http.mkUpload "image/png" 12 None)) Fixture.world
  = (Http.Sent (Http.mkResponse 500
       (Http.MessageError "Error processing image"
          "Input buffer contains unsupported image format")), Fixture.world).
Proof.
  exact (undecodable_image_stores_nothing Fixture.secret JsonText.parse
           (with_photo (Http.mkUpload "image/png" 12 None))
           Fixture.world _ _ (Js.JStr "Broken light") (Js.JStr "Hallway B") []
           (alice_submits _) eq_refl eq_refl eq_refl eq_refl eq_refl eq_refl
           eq_refl eq_refl).
Defined.

Lemma failed_insert_leaves_object_witness :
  let w :=
    Store.mkWorld (Store.complaints Fixture.world) (Store.bucket Fixture.world)
      [false; true] 1600 4 in
  Part001.post_submit Fixture.secret JsonText.parse (with_photo photo) w
  = (Http.Sent (Http.mkResponse 500
       (Http.MessageError "Error inserting complaint" Store.unreachable)),
     Store.mkWorld (Store.complaints Fixture.world)
       [ Store.mkObject "complaints/7.jpg" (800, 600);
         Store.mkObject "complaints/4.jpg" (1200, 900) ]
       [] 1600 5).
Proof.
  cbv zeta.
  exact (failed_insert_leaves_object Fixture.secret JsonText.parse
           (with_photo photo)
           (Store.mkWorld (Store.complaints Fixture.world)
              (Store.bucket Fixture.world) [false; true] 1600 4)
           _ photo (Js.JStr "Broken light") (Js.JStr "Hallway B") []
           (alice_submits photo) eq_refl eq_refl eq_refl eq_refl eq_refl
           eq_refl eq_refl (1200, 900) [] eq_refl eq_refl eq_refl).
Defined.

Lemma image_is_stored_with_row_witness :
  Store.bucket
    (snd (Part001.post_submit Fixture.secret JsonText.parse (with_photo photo)
            Fixture.world))
  = [ Store.mkObject "complaints/7.jpg" (800, 600);
      Store.mkObject "complaints/4.jpg" (1200, 900) ].
Proof.
  rewrite (proj1 (image_is_stored_with_row Fixture.secret JsonText.parse
                    (with_photo photo) Fixture.world _ photo
                    (Js.JStr "Broken light") (Js.JStr "Hallway B") []
                    (alice_submits photo) eq_refl eq_refl eq_refl eq_refl
                    eq_refl eq_refl eq_refl (1200, 900) eq_refl eq_refl
                    eq_refl)).
  reflexivity.
Defined.

(** *** From the stored address back to the object *)

(** No character of the string is [sep]. *)
Fixpoint lacks (sep : ascii) (s : string) : bool :=
  match s with
  | EmptyString => true
  | String c r => negb (Ascii.eqb c sep) && lacks sep r
  end.

Lemma split_lacking (sep : ascii) (t : string) :
  lacks sep t = true -> Js.split sep t = [t].
Proof.
  induction t as [|c r IH]; [reflexivity|].
  cbn [lacks Js.split]. intros H. apply andb_prop in H as [Hc Hr].
  destruct (Ascii.eqb c sep); [discriminate|].
  rewrite (IH Hr). reflexivity.
Qed.

Lemma pop_app (pre l : list string) :
  l <> [] -> Js.pop (pre ++ l) = Js.pop l.
Proof.
  intros H. unfold Js.pop. rewrite rev_app_distr.
  destruct (rev l) as [|x r] eqn:E; [|reflexivity].
  exfalso. apply H. apply (f_equal (@rev string)) in E.
  rewrite rev_involutive in E. exact E.
Qed.

Lemma split_after_sep (sep : ascii) (a b : string) :
  exists pre, Js.split sep (a ++ String sep b) = (pre ++ Js.split sep b)%list
              /\ pre <> [].
Proof.
  induction a as [|c r (pre & IH & Hne)].
  - exists [EmptyString]. cbn. rewrite Ascii.eqb_refl. split; [reflexivity|].
    discriminate.
  - cbn [append Js.split]. destruct (Ascii.eqb c sep).
    + exists (EmptyString :: pre). rewrite IH. split; [reflexivity|].
      discriminate.
    + rewrite IH. destruct pre as [|p ps]; [contradiction|].
      exists (String c p :: ps). split; [reflexivity | discriminate].
Qed.

Lemma file_of_path (a b : string) :
  lacks "/" b = true -> file_of (a ++ String "/" b) = b.
Proof.
  intros Hb. unfold file_of.
  destruct (split_after_sep "/" a b) as (pre & -> & _).
  rewrite (pop_app pre _ (split_not_nil _ _)), (split_lacking _ _ Hb).
  reflexivity.
Qed.

Lemma lacks_app (sep : ascii) (a b : string) :
  lacks sep (a ++ b) = lacks sep a && lacks sep b.
Proof.
  induction a as [|c r IH]; [reflexivity|].
  cbn [append lacks]. rewrite IH, andb_assoc. reflexivity.
Qed.

Lemma digits_lack_slash (d : Decimal.uint) :
  lacks "/" (NilEmpty.string_of_uint d) = true.
Proof. induction d; cbn; auto. Qed.

Lemma decimal_lacks_slash (n : nat) : lacks "/" (decimal n) = true.
Proof.
  unfold decimal, NilZero.string_of_uint.
  destruct (Nat.to_uint n) eqn:E; try reflexivity;
    rewrite <- E; apply digits_lack_slash.
Qed.

(** The file name read back from the public address of an object stored
    by a submission is the name it was stored under. *)
Lemma file_of_public_url (w : Store.World) :
  "complaints/" ++ file_of (Store.getPublicUrl (image_name w)) = image_name w.
Proof.
  unfold image_name, Store.getPublicUrl.
  change ("https://project.supabase.co/storage/v1/object/public/complaint-images/"
            ++ "complaints/" ++ decimal (Store.serial w) ++ ".jpg")
    with (("https://project.supabase.co/storage/v1/object/public/complaint-images/"
             ++ "complaints")
            ++ String "/" (decimal (Store.serial w) ++ ".jpg")).
  rewrite file_of_path; [reflexivity|].
  rewrite lacks_app, decimal_lacks_slash. reflexivity.
Qed.

Lemma without_absent_object (name : string) (b : list Store.Object) :
  existsb (fun o => (Store.path o =? name)%string) b = false ->
  filter (fun o => negb (Store.path o =? name)%string) b = b.
Proof.
  induction b as [|o r IH]; [reflexivity|].
  cbn [existsb filter]. intros H. apply orb_false_elim in H as [Ho Hr].
  rewrite Ho. cbn [negb]. f_equal. apply IH. exact Hr.
Qed.

Section ImageRoundTrip.
Context {codec : Jwt.Codec}.
Variables (secret : string) (JSON_parse : string -> option Js.json).
Variables (req removal : Http.Request) (w : Store.World) (u : Jwt.Payload).
Variables (f : Http.Upload) (tj dj : Js.json) (l : list Js.json) (dim : Z * Z).
Hypothesis Hv :
  Jwt.verify (Http.authorization req) secret (Store.clock w) = inr u.
Hypothesis Hi : Http.image req = Some f.
Hypothesis Ha : accepted (Some f) = true.
Hypothesis Ht : Http.title (Http.body req) = Some tj.
Hypothesis Htt : Js.truthy (Some tj) = true.
Hypothesis Hd : Http.description (Http.body req) = Some dj.
Hypothesis Hdt : Js.truthy (Some dj) = true.
Hypothesis Hl : tag_list JSON_parse (Http.tags (Http.body req)) = Some l.
Hypothesis Hp : Part001.processImage (Http.buffer f) = Some dim.
Hypothesis He :
  existsb (fun o => (Store.path o =? image_name w)%string) (Store.bucket w)
  = false.
Hypothesis Hf : Store.faults w = [].
Hypothesis Hk : keyed w.
Hypothesis Hnew :
  ~ In (decimal (S (Store.serial w))) (map Store.id (Store.complaints w)).
Hypothesis Hsame : Http.authorization removal = Http.authorization req.
Hypothesis Hnames : Http.param_id removal = decimal (S (Store.serial w)).

(** Submitting a complaint with an image and then removing the image of
    the new complaint, with the same token, brings the bucket back to what
    it was: the name the removal reads from the stored address is the name
    the submission stored the object under.  The new row stays, without its
    address, and the earlier rows are untouched. *)
Theorem submit_then_remove_image :
  let row := image_row w u tj dj (known_tags l) in
  let submitted := Part001.post_submit secret JSON_parse req w in
  let removed := Part001.delete_image secret removal (snd submitted) in
  fst removed = sent 200 "Image deleted successfully"
  /\ Store.bucket (snd removed) = Store.bucket w
  /\ Store.complaints (snd removed)
     = (Store.complaints w ++ [Part001.clear_image_url row])%list.
Proof.
  intros row submitted removed.
  set (w1 := Store.mkWorld (Store.complaints w ++ [row])
               (Store.bucket w ++ [Store.mkObject (image_name w) dim]) []
               (Store.clock w) (S (S (Store.serial w)))).
  assert (H1 : snd submitted = w1).
  { subst submitted.
    rewrite (submit_with_image_run secret JSON_parse req w u f tj dj l
               Hv Hi Ha Ht Htt Hd Hdt Hl), Hp.
    cbv zeta. unfold next_fails. rewrite Hf, He. reflexivity. }
  subst removed. rewrite H1.
  assert (Hk1 : keyed w1).
  { unfold keyed, w1. cbn [Store.complaints]. rewrite map_app.
    apply (Permutation_NoDup (Permutation_cons_append _ _)).
    constructor; [exact Hnew | exact Hk]. }
  assert (Hin1 : In row (Store.complaints w1)).
  { unfold w1. cbn [Store.complaints]. apply in_or_app. right. left.
    reflexivity. }
  assert (Hv1 : Jwt.verify (Http.authorization removal) secret (Store.clock w1)
                = inr u) by (rewrite Hsame; exact Hv).
  rewrite (delete_image_of_owner secret u removal w1 row Hv1 Hk1 Hin1
             (eq_sym Hnames) eq_refl eq_refl).
  cbn [Store.image_url row image_row].
  replace (Store.getPublicUrl (image_name w) =? "")%string with false
    by reflexivity.
  replace (next_fails (after_call w1)) with false by reflexivity.
  cbv zeta.
  match goal with
  | |- context [next_fails ?x] =>
      replace (next_fails x) with false by reflexivity
  end.
  cbn [fst snd Store.bucket Store.complaints Store.with_complaints
       Store.with_bucket after_call w1].
  split; [reflexivity|]. split.
  - unfold without_object. rewrite file_of_public_url, filter_app.
    rewrite (without_absent_object _ _ He). cbn [filter Store.path].
    rewrite String.eqb_refl. cbn [negb]. apply app_nil_r.
  - unfold unlinked. rewrite map_app. f_equal.
    + rewrite Hnames. clear - Hnew.
      induction (Store.complaints w) as [|x r IH]; [reflexivity|].
      cbn [map]. unfold Store.eq_id at 1.
      destruct (String.eqb_spec (Store.id x) (decimal (S (Store.serial w))))
        as [E|E].
      * exfalso. apply Hnew. left. exact E.
      * f_equal. apply IH. intros H. apply Hnew. right. exact H.
    + cbn [map]. unfold Store.eq_id. rewrite Hnames.
      cbn [Store.id row image_row]. rewrite String.eqb_refl. reflexivity.
Qed.

End ImageRoundTrip.

Lemma submit_then_remove_image_witness :
  Store.bucket
    (snd (Part001.delete_image Fixture.secret
            (Fixture.with_param "5" alice_removes)
            (snd (Part001.post_submit Fixture.secret JsonText.parse
                    (with_photo photo) Fixture.world))))
  = Store.bucket Fixture.world.
Proof.
  refine (proj1 (proj2
    (submit_then_remove_image Fixture.secret JsonText.parse
       (with_photo photo) (Fixture.with_param "5" alice_removes)
       Fixture.world _ photo (Js.JStr "Broken light") (Js.JStr "Hallway B")
       [] (1200, 900)
       (alice_submits photo) eq_refl eq_refl eq_refl eq_refl eq_refl eq_refl
       eq_refl eq_refl eq_refl eq_refl fixture_keyed _ eq_refl eq_refl))).
  cbn. intuition discriminate.
Defined.

(** ** Administrative routes *)

(** The requester presents a bare token that verifies to an
    administrator. *)
Definition administrator {codec : Jwt.Codec} (secret : string)
  (req : Http.Request) (w : Store.World) (u : Jwt.Payload) : Prop :=
  Jwt.verify (Http.authorization req) secret (Store.clock w) = inr u
  /\ Js.truthy (Jwt.isAdmin u) = true.

(** The rows that are not named [i]. *)
Definition others (i : string) (l : list Store.Complaint)
  : list Store.Complaint :=
  filter (fun c => negb (Store.eq_id i c)) l.

(** The administrative delete removes every row of the key it names and
    no other row, and answers 200; it answers 200 as well, with the table
    as it was, when no row has that key. *)
Theorem admin_delete_removes {codec : Jwt.Codec} (secret : string)
  (req : Http.Request) (w : Store.World) (u : Jwt.Payload) :
  administrator secret req w u ->
  next_fails w = false ->
  Part001.delete_admin secret req w
  = (sent 200 "Complaint deleted successfully",
     Store.with_complaints (others (Http.param_id req) (Store.complaints w))
       (after_call w))
  /\ (forall x,
        In x (others (Http.param_id req) (Store.complaints w))
        <-> In x (Store.complaints w) /\ Store.id x <> Http.param_id req)
  /\ (~ In (Http.param_id req) (map Store.id (Store.complaints w)) ->
      others (Http.param_id req) (Store.complaints w) = Store.complaints w).
Proof.
  intros [Hv Ha] Hf. split; [|split].
  - unfold Part001.delete_admin.
    rewrite (behind_isAdmin secret _ req w u Hv Ha).
    unfold Part001.delete_admin_handler, Store.bind.
    cbn [Http.param_id Http.with_user Http.incoming].
    rewrite delete_run, Hf. reflexivity.
  - intros x. unfold others. rewrite filter_In. unfold Store.eq_id.
    destruct (String.eqb_spec (Store.id x) (Http.param_id req)); cbn [negb];
      intuition congruence.
  - intros Hn. unfold others.
    induction (Store.complaints w) as [|x r IH]; [reflexivity|].
    cbn [filter]. unfold Store.eq_id at 1.
    destruct (String.eqb_spec (Store.id x) (Http.param_id req)) as [E|E].
    + exfalso. apply Hn. left. exact E.
    + cbn [negb]. f_equal. apply IH. intros H. apply Hn. right. exact H.
Qed.

Definition root_asks (i : string) : Http.Request :=
  Fixture.with_param i
    (Http.with_authorization (Some (Fixture.token_of Fixture.root))
       Fixture.bare).

Lemma root_is_administrator (i : string) :
  administrator Fixture.secret (root_asks i) Fixture.world
    (Jwt.mkPayload "root@campus.org" "u-root" (Some (Js.JBool true))).
Proof. split; [vm_compute; reflexivity | reflexivity]. Qed.

Lemma admin_delete_removes_witness :
  map Store.id
    (Store.complaints
       (snd (Part001.delete_admin Fixture.secret (root_asks "1") Fixture.world)))
  = ["2"; "3"].
Proof.
  rewrite (proj1 (admin_delete_removes Fixture.secret (root_asks "1")
                    Fixture.world _ (root_is_administrator "1") eq_refl)).
  reflexivity.
Defined.

(** The administrative read of one complaint answers 200 with the row
    when the key names one, and 500 "Error fetching complaint details", not
    404, when no row has the key or the store does not answer; it writes
    nothing. *)
Theorem admin_read_of_one_complaint {codec : Jwt.Codec} (secret : string)
  (req : Http.Request) (w : Store.World) (u : Jwt.Payload) :
  administrator secret req w u ->
  (forall c,
     keyed w -> In c (Store.complaints w) -> Store.id c = Http.param_id req ->
     next_fails w = false ->
     Part001.get_admin_complaint secret req w
     = (Http.Sent (Http.mkResponse 200 (Http.Row c)), after_call w))
  /\ (next_fails w = true
      \/ ~ In (Http.param_id req) (map Store.id (Store.complaints w)) ->
      Part001.get_admin_complaint secret req w
      = (sent 500 "Error fetching complaint details", after_call w)).
Proof.
  intros [Hv Ha].
  assert (Hrun : Part001.get_admin_complaint secret req w
                 = Part001.get_admin_complaint_handler
                     (Http.with_user u (Http.incoming req)) w).
  { unfold Part001.get_admin_complaint.
    apply (behind_isAdmin secret _ req w u Hv Ha). }
  rewrite Hrun. unfold Part001.get_admin_complaint_handler, Store.bind.
  cbn [Http.param_id Http.with_user Http.incoming].
  rewrite select_single_run. split.
  - intros c Hk Hin Hid Hf. rewrite Hf, <- Hid.
    rewrite (filter_eq_id_keyed c _ Hk Hin). reflexivity.
  - intros [Hf | Hn].
    + rewrite Hf. reflexivity.
    + rewrite (filter_eq_id_absent _ _ Hn).
      destruct (next_fails w); reflexivity.
Qed.

Lemma admin_read_of_one_complaint_witness :
  Part001.get_admin_complaint Fixture.secret (root_asks "99") Fixture.world
  = (sent 500 "Error fetching complaint details", after_call Fixture.world).
Proof.
  apply (proj2 (admin_read_of_one_complaint Fixture.secret (root_asks "99")
                  Fixture.world _ (root_is_administrator "99"))).
  right. cbn. intuition discriminate.
Defined.

(** The status route of the revision with the image pipeline destructures
    [req.body] before its guard and outside any [try], and the file mounts
    no body parser: the request of an administrator ends with the
    TypeError of the destructuring, whatever status the client sent, be it
    one of the list; the guard and the update are never reached, so that no
    request at all is answered 400 "Invalid status value" or 200, and none
    changes the world. *)
Theorem status_guard_is_never_reached {codec : Jwt.Codec} (secret : string)
  (req : Http.Request) (w : Store.World) :
  (forall u,
     administrator secret req w u ->
     Part001.put_status secret req w
     = (Http.Raised (Js.cannot_destructure "status" "req.body"), w))
  /\ snd (Part001.put_status secret req w) = w
  /\ succeeded (fst (Part001.put_status secret req w)) = false
  /\ fst (Part001.put_status secret req w)
     <> sent 400 "Invalid status value".
Proof.
  split.
  - intros u [Hv Ha]. unfold Part001.put_status.
    rewrite (behind_isAdmin secret _ req w u Hv Ha). reflexivity.
  - unfold Part001.put_status. rewrite route_isAdmin.
    destruct (Http.absent (Http.authorization req));
      [repeat split; discriminate|].
    destruct (Jwt.verify _ _ _) as [e|u]; [repeat split; discriminate|].
    destruct (Js.truthy (Jwt.isAdmin u)); repeat split; discriminate.
Qed.

(** The administrator asks for the status finished, which is in the list. *)
Definition root_finishes (i : string) : Http.Request :=
  Fixture.with_body
    (Http.mkBody None None None (Some (Js.JStr "finished")) None None)
    (root_asks i).

Lemma status_guard_is_never_reached_witness :
  Js.includes statuses (Http.status (Http.body (root_finishes "2"))) = true
  /\ Part001.put_status Fixture.secret (root_finishes "2") Fixture.world
     = (Http.Raised
          "Cannot destructure property 'status' of 'req.body' as it is undefined.",
        Fixture.world).
Proof.
  split; [reflexivity|].
  apply (proj1 (status_guard_is_never_reached Fixture.secret
                  (root_finishes "2") Fixture.world)
           (Jwt.mkPayload "root@campus.org" "u-root" (Some (Js.JBool true)))).
  split; [vm_compute; reflexivity | reflexivity].
Defined.

(** The rows named [i] with their assignee set. *)
Definition assigned (i : string) (v : Js.value) (l : list Store.Complaint)
  : list Store.Complaint :=
  map (fun c => if Store.eq_id i c then IndexJs.set_assigned_to v c else c) l.

(** The assignment of index.js writes whatever value the body holds as the
    assignee of the rows of the key named, for an administrator and a store
    that answers, and answers 200; no roster is consulted and a key that
    names no row is answered 200 too, with the table as it was. *)
Theorem assignment_is_unchecked {codec : Jwt.Codec} (secret : string)
  (req : Http.Request) (w : Store.World) (u : Jwt.Payload) (v : Js.value) :
  administrator secret req w u ->
  next_fails w = false ->
  IndexJs.put_assign secret v req w
  = (sent 200 "Complaint assigned successfully",
     Store.with_complaints
       (assigned (Http.param_id req) v (Store.complaints w)) (after_call w))
  /\ (forall c x,
        In c (Store.complaints w) -> Store.id c = Http.param_id req ->
        v = Some x ->
        exists c',
          In c' (assigned (Http.param_id req) v (Store.complaints w))
          /\ Store.id c' = Store.id c /\ Store.assigned_to c' = Some x)
  /\ (~ In (Http.param_id req) (map Store.id (Store.complaints w)) ->
      assigned (Http.param_id req) v (Store.complaints w) = Store.complaints w).
Proof.
  intros [Hv Ha] Hf. split; [|split].
  - unfold IndexJs.put_assign.
    rewrite (behind_authenticateAdmin secret _ req w u Hv Ha).
    unfold IndexJs.put_assign_handler, Store.bind.
    cbn [Http.param_id Http.with_user Http.incoming].
    rewrite update_run, Hf. reflexivity.
  - intros c x Hin Hid ->. exists (IndexJs.set_assigned_to (Some x) c).
    split; [|split; reflexivity].
    unfold assigned. apply in_map_iff. exists c. split; [|exact Hin].
    unfold Store.eq_id. rewrite Hid, String.eqb_refl. reflexivity.
  - intros Hn. unfold assigned.
    induction (Store.complaints w) as [|x r IH]; [reflexivity|].
    cbn [map]. unfold Store.eq_id at 1.
    destruct (String.eqb_spec (Store.id x) (Http.param_id req)) as [E|E].
    + exfalso. apply Hn. left. exact E.
    + f_equal. apply IH. intros H. apply Hn. right. exact H.
Qed.

Lemma assignment_is_unchecked_witness :
  map Store.assigned_to
    (Store.complaints
       (snd (IndexJs.put_assign Fixture.secret (Some (Js.JStr "nobody"))
               (root_asks "3") Fixture.world)))
  = [None; None; Some (Js.JStr "nobody")].
Proof.
  rewrite (proj1 (assignment_is_unchecked Fixture.secret (root_asks "3")
                    Fixture.world _ (Some (Js.JStr "nobody"))
                    (root_is_administrator "3") eq_refl)).
  reflexivity.
Defined.

Lemma admin_route_isAdmin {codec : Jwt.Codec} (secret : string)
  (h : Http.AdminHandler) (req : Http.Request) (w : Store.World) :
  Http.admin_app [AuthMiddleware.isAdmin secret] h req w
  = match AuthMiddleware.isAdmin secret (Http.incoming req) w with
    | (inl out, w') => (Http.Plain out, w')
    | (inr req', w') => h req' w'
    end.
Proof.
  unfold Http.admin_app, Http.admin_use, Store.bind. cbn [fold_right].
  destruct (AuthMiddleware.isAdmin secret (Http.incoming req) w)
    as [[out|req'] w']; reflexivity.
Qed.

Lemma admin_behind_isAdmin {codec : Jwt.Codec} (secret : string)
  (h : Http.AdminHandler) (req : Http.Request) (w : Store.World)
  (u : Jwt.Payload) :
  administrator secret req w u ->
  Http.admin_app [AuthMiddleware.isAdmin secret] h req w
  = h (Http.with_user u (Http.incoming req)) w.
Proof.
  intros [Hv Ha].
  destruct (verified_header secret _ _ u Hv) as (t & Ht & Hne & Hc).
  rewrite admin_route_isAdmin, isAdmin_run.
  cbn [Http.incoming Http.authorization].
  rewrite Ht, (bearer_plain t Hc), (absent_token t Hne).
  rewrite Ht in Hv. rewrite Hv, Ha. reflexivity.
Qed.

(** *** Comments *)

(** A clock reading written out, for the examples. *)
Definition stamp (now : Z) : string :=
  match now with
  | Zpos p => decimal (Pos.to_nat p)
  | _ => "0"
  end.

(** The administrator asks to note "Fixed on Monday" on complaint [i]. *)
Definition root_notes (i : string) : Http.Request :=
  Fixture.with_body
    (Http.mkBody None None None None (Some (Js.JStr "Fixed on Monday")) None)
    (root_asks i).

(** The comment route reads [req.body] inside its [try], and the file
    mounts no body parser: every request of an administrator is answered
    500 "Error adding comment" before any call to the store, whatever
    comment the client sent and whether the complaint exists.  No request
    at all, whatever its credential, changes the world, is answered with
    the list of comments or is told that a comment is required. *)
Theorem comments_are_never_stored {codec : Jwt.Codec} (secret : string)
  (toISOString : Z -> string) (req : Http.Request) (w : Store.World) :
  (forall u,
     administrator secret req w u ->
     Part001.post_comment secret toISOString req w
     = (Part001.comment_failed, w))
  /\ snd (Part001.post_comment secret toISOString req w) = w
  /\ (forall c r,
        fst (Part001.post_comment secret toISOString req w)
        <> Http.Answered c r)
  /\ fst (Part001.post_comment secret toISOString req w)
     <> Http.Plain (sent 400 "Comment is required").
Proof.
  split.
  - intros u Hadm. unfold Part001.post_comment.
    rewrite (admin_behind_isAdmin secret _ req w u Hadm). reflexivity.
  - unfold Part001.post_comment. rewrite admin_route_isAdmin, isAdmin_run.
    destruct (Http.absent _); [repeat split; intros; discriminate|].
    destruct (Jwt.verify _ _ _) as [e|u];
      [repeat split; intros; discriminate|].
    destruct (Js.truthy (Jwt.isAdmin u));
      repeat split; intros; discriminate.
Qed.

Lemma comments_are_never_stored_witness :
  Http.comment (Http.body (root_notes "1")) = Some (Js.JStr "Fixed on Monday")
  /\ Part001.post_comment Fixture.secret stamp (root_notes "1") Fixture.world
     = (Http.Plain (sent 500 "Error adding comment"), Fixture.world).
Proof.
  split; [reflexivity|].
  apply (proj1 (comments_are_never_stored Fixture.secret stamp
                  (root_notes "1") Fixture.world)
           (Jwt.mkPayload "root@campus.org" "u-root" (Some (Js.JBool true)))).
  split; [vm_compute; reflexivity | reflexivity].
Defined.

(** *** Statistics *)

Lemma quiet_call (w : Store.World) :
  Store.faults w = [] -> Store.call w = (false, w).
Proof. intros H. unfold Store.call. rewrite H. reflexivity. Qed.

(** The number of rows of the table that pass a filter. *)
Definition tally (w : Store.World) (p : Store.Complaint -> bool) : Z :=
  Z.of_nat (length (filter p (Store.complaints w))).

Lemma quiet_count (p : Store.Complaint -> bool) (w : Store.World) :
  Store.faults w = [] -> Store.count p w = (Store.Data (tally w p), w).
Proof. intros H. unfold Store.count. rewrite (quiet_call w H). reflexivity. Qed.

Lemma quiet_count_each (p : string -> Store.Complaint -> bool)
  (keys : list string) (w : Store.World) :
  Store.faults w = [] ->
  Part001.count_each p keys w
  = (Store.Data (map (fun k => (k, tally w (p k))) keys), w).
Proof.
  intros H. induction keys as [|k ks IH]; [reflexivity|].
  cbn [Part001.count_each map]. unfold Store.bind.
  rewrite (quiet_count _ w H), IH. reflexivity.
Qed.

Lemma firstn_subset (n : nat) (l : list Store.Complaint) (x : Store.Complaint) :
  In x (firstn n l) -> In x l.
Proof.
  intros H. rewrite <- (firstn_skipn n l). apply in_or_app. left. exact H.
Qed.

Lemma firstn_sorted (n : nat) (l : list Store.Complaint) :
  newest_first l -> newest_first (firstn n l).
Proof.
  unfold newest_first. revert n.
  induction l as [|c r IH]; intros n Hs; [rewrite firstn_nil; constructor|].
  destruct n as [|n]; [constructor|]. cbn [firstn].
  inversion Hs as [|? ? Hr Hc]; subst. constructor; [apply IH; exact Hr|].
  apply Forall_forall. intros x Hx.
  apply (proj1 (Forall_forall _ _) Hc). apply (firstn_subset n). exact Hx.
Qed.

(** The three status counts of the report, added up. *)
Definition status_total (w : Store.World) : Z :=
  tally w (Store.eq_status "pending") + tally w (Store.eq_status "working")
  + tally w (Store.eq_status "finished").

Lemma status_counts_bounded (l : list Store.Complaint) :
  (length (filter (Store.eq_status "pending") l)
   + length (filter (Store.eq_status "working") l)
   + length (filter (Store.eq_status "finished") l) <= length l)%nat.
Proof.
  induction l as [|c r IH]; [reflexivity|].
  cbn [filter].
  destruct (Store.eq_status "pending" c) eqn:Ep;
    destruct (Store.eq_status "working" c) eqn:Ew;
    destruct (Store.eq_status "finished" c) eqn:Ef;
    cbn [length]; try lia; exfalso;
    unfold Store.eq_status in Ep, Ew, Ef;
    destruct (Store.status c) as [|b|n|x|a|o]; try discriminate;
    repeat match goal with
           | E : (x =? _)%string = true |- _ => apply String.eqb_eq in E
           end; congruence.
Qed.

Lemma status_counts_exact (l : list Store.Complaint) :
  Forall (fun c => exists s, In s statuses /\ Store.status c = Js.JStr s) l ->
  (length (filter (Store.eq_status "pending") l)
   + length (filter (Store.eq_status "working") l)
   + length (filter (Store.eq_status "finished") l) = length l)%nat.
Proof.
  induction 1 as [|c r (s & Hs & Hc) _ IH]; [reflexivity|].
  cbn [filter].
  assert (E : forall k, Store.eq_status k c = (s =? k)%string)
    by (intros k; unfold Store.eq_status; rewrite Hc; reflexivity).
  rewrite !E.
  cbn in Hs. destruct Hs as [<- | [<- | [<- | []]]];
    cbn [String.eqb Ascii.eqb Bool.eqb andb]; cbn [length]; lia.
Qed.

(** For an administrator and a store that answers, the report holds the
    number of rows of the table, the number of rows of each of the three
    statuses and of each tag of the vocabulary, and the five newest rows at
    most, newest first.  The three status counts add up to the total at
    most, and to the total when every row has a status of the list; the
    report writes nothing. *)
Theorem statistics_report {codec : Jwt.Codec} (secret : string)
  (req : Http.Request) (w : Store.World) (u : Jwt.Payload) :
  administrator secret req w u ->
  Store.faults w = [] ->
  let recent := firstn 5 (Store.order_desc (Store.complaints w)) in
  Part001.get_statistics secret req w
  = (Http.Answered 200
       (Http.Statistics (Z.of_nat (length (Store.complaints w)))
          (map (fun s => (s, tally w (Store.eq_status s))) statuses)
          (map (fun t => (t, tally w (Store.contains_tag t)))
               Part001.VALID_TAGS)
          recent), w)
  /\ (length recent <= 5)%nat
  /\ newest_first recent
  /\ (forall x, In x recent -> In x (Store.complaints w))
  /\ status_total w <= Z.of_nat (length (Store.complaints w))
  /\ (Forall (fun c => exists s, In s statuses /\ Store.status c = Js.JStr s)
             (Store.complaints w) ->
      status_total w = Z.of_nat (length (Store.complaints w)))
  /\ forall t, 0 <= tally w (Store.contains_tag t)
                 <= Z.of_nat (length (Store.complaints w)).
Proof.
  intros Hadm Hf recent. split; [|split; [|split; [|split; [|split; [|split]]]]].
  - unfold Part001.get_statistics.
    rewrite (admin_behind_isAdmin secret _ req w u Hadm).
    unfold Part001.get_statistics_handler, Store.bind.
    rewrite (quiet_count _ w Hf), (quiet_count_each _ _ w Hf).
    unfold Store.select_recent. rewrite (quiet_call w Hf).
    rewrite (quiet_count_each _ _ w Hf).
    unfold tally at 1.
    assert (Hall : filter (fun _ : Store.Complaint => true) (Store.complaints w)
                   = Store.complaints w).
    { induction (Store.complaints w) as [|x r IH]; [reflexivity|].
      cbn [filter]. f_equal. exact IH. }
    rewrite Hall. reflexivity.
  - apply firstn_le_length.
  - apply firstn_sorted. apply order_desc_sorted.
  - intros x Hx. apply firstn_subset in Hx.
    apply (Permutation_in _ (order_desc_perm _)). exact Hx.
  - unfold status_total, tally.
    pose proof (status_counts_bounded (Store.complaints w)). lia.
  - intros Hall. unfold status_total, tally.
    pose proof (status_counts_exact (Store.complaints w) Hall). lia.
  - intros t. unfold tally.
    pose proof (filter_length_le (Store.contains_tag t) (Store.complaints w)).
    lia.
Qed.

Lemma statistics_report_witness :
  fst (Part001.get_statistics Fixture.secret (root_asks "") Fixture.world)
  = Http.Answered 200
      (Http.Statistics 3
         [("pending", 3); ("working", 0); ("finished", 0)]
         [("electricity", 1); ("canteen", 1); ("furniture", 0); ("campus", 0)]
         [ Fixture.row "2" "u-alice" ["canteen"]
             (Some (Store.getPublicUrl "complaints/7.jpg")) None 1200;
           Fixture.row "3" "u-bob" [] None (Some 4) 1150;
           Fixture.row "1" "u-alice" ["electricity"] None (Some 0) 1100 ]).
Proof.
  rewrite (proj1 (statistics_report Fixture.secret (root_asks "") Fixture.world
                    _ (root_is_administrator "") eq_refl)).
  reflexivity.
Defined.

(** *** A submission and the listings that follow it *)

Lemma order_desc_newest (row : Store.Complaint) (l : list Store.Complaint) :
  Forall (fun c => Store.created_at c < Store.created_at row) l ->
  Store.order_desc (l ++ [row]) = row :: Store.order_desc l.
Proof.
  induction 1 as [|c r Hc _ IH]; [reflexivity|].
  change (Store.order_desc ((c :: r) ++ [row]))
    with (Store.insert_desc c (Store.order_desc (r ++ [row]))).
  rewrite IH. cbn [Store.insert_desc].
  destruct (Z.leb_spec (Store.created_at row) (Store.created_at c)); [lia|].
  reflexivity.
Qed.

(** A submission that is accepted shows in the next listing of its author
    and in no listing of another user.  The author's listing, asked for
    without a tag of the vocabulary, holds the new row besides the rows it
    held before, and holds it first when every row of the table is older
    than the submission; the listing of a user of another id is what it was
    before the submission, whatever tag it asks for. *)
Theorem submitted_complaint_is_listed {codec : Jwt.Codec} (secret : string)
  (JSON_parse : string -> option Js.json) (post get : Http.Request)
  (w : Store.World) (t t' : string) (u v : Jwt.Payload) (tj dj : Js.json)
  (l : list Js.json) :
  Http.authorization post = Some t ->
  Jwt.verify (Some t) secret (Store.clock w) = inr u ->
  Http.title (Http.body post) = Some tj -> Js.truthy (Some tj) = true ->
  Http.description (Http.body post) = Some dj -> Js.truthy (Some dj) = true ->
  Http.image post = None ->
  tag_list JSON_parse (Http.tags (Http.body post)) = Some l ->
  Http.authorization get = Some t' ->
  Jwt.verify (Some t') secret (Store.clock w) = inr v ->
  next_fails w = false ->
  next_fails (after_call w) = false ->
  let row := submitted_row w u tj dj (known_tags l) in
  let w1 := snd (Part001.post_submit secret JSON_parse post w) in
  exists before after,
    fst (Part001.get_complaints secret get w)
    = Http.Sent (Http.mkResponse 200 (Http.Complaints before))
    /\ fst (Part001.get_complaints secret get w1)
       = Http.Sent (Http.mkResponse 200 (Http.Complaints after))
    /\ (Jwt.id v <> Jwt.id u -> after = before)
    /\ (Jwt.id v = Jwt.id u ->
        Js.includes IndexJs.VALID_TAGS (Http.query_tag get) = false ->
        Permutation after (row :: before)
        /\ (Forall (fun c => Store.created_at c < Store.clock w)
                   (Store.complaints w) ->
            after = row :: before)).
Proof.
  intros Ha Hv Ht Htt Hd Hdt Hi Hl Ha' Hv' Hf Hf' row w1.
  destruct (verify_ok_compact secret t' _ v Hv') as [_ Hne].
  subst w1.
  rewrite (submit_without_image_run secret JSON_parse post w t u tj dj l
             Ha Hv Ht Htt Hd Hdt Hi Hl Hf).
  cbn [snd]. fold row.
  set (w1 := Store.mkWorld _ _ _ _ _).
  unfold Part001.get_complaints.
  rewrite !route_authenticateToken, Ha', (absent_token t' Hne).
  change (Store.clock w1) with (Store.clock w). rewrite Hv'.
  rewrite (get_complaints_handler_run
             (Http.with_user v (Http.incoming get)) v w eq_refl Hf).
  rewrite (get_complaints_handler_run
             (Http.with_user v (Http.incoming get)) v w1 eq_refl Hf').
  cbn [Http.query_tag Http.with_user Http.incoming fst].
  eexists. eexists. split; [reflexivity|]. split; [reflexivity|].
  change (Store.complaints w1) with (Store.complaints w ++ [row])%list.
  rewrite filter_app. split.
  - intros Hne'. cbn [filter]. unfold listing_filter at 2.
    unfold Store.eq_user_id.
    change (Store.user_id row) with (Jwt.id u).
    destruct (String.eqb_spec (Jwt.id u) (Jwt.id v)) as [E|_];
      [exfalso; apply Hne'; symmetry; exact E|].
    cbn [andb]. rewrite app_nil_r. reflexivity.
  - intros Hsame Hq. rewrite !(listing_filter_unknown_tag _ _ _ Hq).
    assert (Hrow : filter (Store.eq_user_id (Jwt.id v)) [row] = [row]).
    { cbn [filter]. unfold Store.eq_user_id.
      change (Store.user_id row) with (Jwt.id u).
      rewrite Hsame, String.eqb_refl. reflexivity. }
    rewrite Hrow. split.
    + apply perm_trans
        with (filter (Store.eq_user_id (Jwt.id v)) (Store.complaints w)
              ++ [row])%list; [apply order_desc_perm|].
      apply perm_trans
        with (row :: filter (Store.eq_user_id (Jwt.id v)) (Store.complaints w)).
      * apply Permutation_sym, Permutation_cons_append.
      * apply perm_skip, Permutation_sym, order_desc_perm.
    + intros Hold. apply order_desc_newest.
      apply Forall_forall. intros c Hc. apply filter_In in Hc as [Hc _].
      apply (proj1 (Forall_forall _ _) Hold c Hc).
Qed.

Lemma alice_is_known (req : Http.Request) :
  Http.authorization req = Some (Fixture.token_of Fixture.alice) ->
  Jwt.verify (Some (Fixture.token_of Fixture.alice)) Fixture.secret
    (Store.clock Fixture.world)
  = inr (Jwt.mkPayload "alice@campus.org" "u-alice" (Some (Js.JBool false))).
Proof. intros _. vm_compute. reflexivity. Qed.

Lemma submitted_complaint_is_listed_witness :
  exists before after,
    fst (Part001.get_complaints Fixture.secret (Fixture.listing None)
           Fixture.world)
    = Http.Sent (Http.mkResponse 200 (Http.Complaints before))
    /\ fst (Part001.get_complaints Fixture.secret (Fixture.listing None)
              (snd (Part001.post_submit Fixture.secret JsonText.parse
                      (Fixture.broken_light (Some (Js.JArr Fixture.two_tags))
                         None)
                      Fixture.world)))
       = Http.Sent (Http.mkResponse 200 (Http.Complaints after))
    /\ after
       = Store.mkComplaint "4" "u-alice" (Js.JStr "Broken light")
           (Js.JStr "Hallway B") (Js.JStr "pending") [Js.JStr "electricity"]
           None None None None 1600
         :: before.
Proof.
  destruct (submitted_complaint_is_listed Fixture.secret JsonText.parse
              (Fixture.broken_light (Some (Js.JArr Fixture.two_tags)) None)
              (Fixture.listing None) Fixture.world
              (Fixture.token_of Fixture.alice) (Fixture.token_of Fixture.alice)
              (Jwt.mkPayload "alice@campus.org" "u-alice" (Some (Js.JBool false)))
              (Jwt.mkPayload "alice@campus.org" "u-alice" (Some (Js.JBool false)))
              (Js.JStr "Broken light") (Js.JStr "Hallway B") Fixture.two_tags
              eq_refl (alice_is_known (Fixture.listing None) eq_refl)
              eq_refl eq_refl eq_refl eq_refl eq_refl eq_refl
              eq_refl (alice_is_known (Fixture.listing None) eq_refl)
              eq_refl eq_refl)
    as (before & after & Hb & Ha & _ & Hown).
  exists before, after. split; [exact Hb|]. split; [exact Ha|].
  apply (proj2 (Hown eq_refl eq_refl)).
  repeat constructor.
Defined.
